(** * HealthConnect: feed pagination, optimistic likes, notification counters

    A shallow embedding of the client-side feed logic of the application:
    the Redux posts slice ([src/redux/slices/postsSlice.js]), the feed
    screen ([src/screens/FeedScreen.js]), the generic paginated list
    ([src/components/PaginatedFlatList.js]), the like button of the post
    card ([src/components/PostCard.js]) and the two notification slices.

    React state is modelled by explicit state passing: a component is a
    record of its [useState] cells, a handler is a function from the record
    to the record.  The remote document store is a collaborator: its
    answers are inputs of the handlers, and the calls a handler issues are
    returned as a log next to the new state. *)

From Stdlib Require Import ZArith String List Sorted Bool Lia.
From Stdlib Require OrderedTypeEx.
From stdpp Require Import gmap strings list fin_maps.

(** ** JavaScript array idioms used by the sources *)

Module JS.

(** [xs.includes(x)] on an array of strings. *)
Definition includes (xs : list string) (x : string) : bool :=
  existsb (String.eqb x) xs.

(** [Array.from(new Set(xs))]: a [Set] keeps the first occurrence of each
    value, in insertion order.  [seen] is the set built so far. *)
Fixpoint setFrom (seen xs : list string) : list string :=
  match xs with
  | [] => []
  | x :: rest =>
      if includes seen x then setFrom seen rest
      else x :: setFrom (x :: seen) rest
  end.

Definition arrayFromSet (xs : list string) : list string := setFrom [] xs.

(** The outcome of an awaited call: a value, or a thrown error with its
    message. *)
Inductive Result (A : Type) : Type :=
| Ok (a : A)
| Err (msg : string).
Arguments Ok {A} a.
Arguments Err {A} msg.

End JS.

(** ** The remote document store (collaborator) *)

Module Firestore.

(** A document of the [posts] collection: [doc.id] and the fields of
    [doc.data()] the client reads.  A field that may be missing is an
    [option].  The data is taken to carry no [id] field of its own, so
    that [{ id: doc.id, ...doc.data() }] keeps [doc.id]. *)
Record Doc : Type := {
  doc_id : string;
  doc_userId : string;
  doc_timestamp : option Z;
  doc_likes : option (list string);
  doc_likeCount : option Z;
  doc_commentCount : option Z
}.

(** The [where] clause on [userId] of a posts query. *)
Inductive Filter : Type :=
| NoFilter
| UserIdIn (ids : list string)
| UserIdEq (v : string).

(** A query on [posts] ordered by [timestamp] descending. *)
Record Query : Type := {
  q_filter : Filter;
  q_startAfter : option Doc;
  q_limit : nat
}.

(** [FieldValue.arrayUnion(u)]: append [u] unless it is present. *)
Definition arrayUnion (u : string) (field : option (list string)) : list string :=
  let xs := default [] field in
  if JS.includes xs u then xs else xs ++ [u].

(** [FieldValue.arrayRemove(u)]: remove every instance of [u]. *)
Definition arrayRemove (u : string) (field : option (list string)) : list string :=
  List.filter (fun x => negb (String.eqb x u)) (default [] field).

(** [FieldValue.increment(n)]. *)
Definition increment (n : Z) (field : option Z) : Z := (default 0 field + n)%Z.

Definition matches (f : Filter) (d : Doc) : bool :=
  match f with
  | NoFilter => true
  | UserIdIn ids => JS.includes ids (doc_userId d)
  | UserIdEq v => String.eqb (doc_userId d) v
  end.

(** The documents that follow the cursor [c] in [coll]. *)
Fixpoint after (c : string) (coll : list Doc) : list Doc :=
  match coll with
  | [] => []
  | d :: rest => if String.eqb (doc_id d) c then rest else after c rest
  end.

(** A reference answer of the store for a query, over a collection held
    in the order of the query ([timestamp] descending).  The handlers
    below never call it: they receive the store as a parameter.  It
    serves to run them on concrete collections. *)
Definition answer (coll : list Doc) (q : Query) : list Doc :=
  let matching := List.filter (matches (q_filter q)) coll in
  let rest := match q_startAfter q with
              | Some c => after (doc_id c) matching
              | None => matching
              end in
  take (q_limit q) rest.

End Firestore.

(** ** The posts slice: [src/redux/slices/postsSlice.js] *)

Module PostsSlice.
Import JS Firestore.

(** A post as the thunks build it:
    [{ id: doc.id, ...doc.data(), timestamp: ...toDate() || new Date() }]. *)
Record Post : Type := {
  post_id : string;
  post_userId : string;
  post_timestamp : Z;
  post_likes : option (list string);
  post_likeCount : option Z;
  post_commentCount : option Z
}.

Record Comment : Type := {
  comment_id : string;
  comment_postId : string;
  comment_userId : string
}.

Inductive Status : Type := Idle | Loading | Succeeded | Failed.

Record State : Type := {
  feed : list Post;
  userPosts : gmap string (list Post);
  currentPost : option Post;
  comments : gmap string (list Comment);
  status : Status;
  error : option string;
  lastDoc : option Doc;
  hasMore : bool;
  refreshing : bool
}.

Definition initialState : State := {|
  feed := [];
  userPosts := ∅;
  currentPost := None;
  comments := ∅;
  status := Idle;
  error := None;
  lastDoc := None;
  hasMore := true;
  refreshing := false
|}.

(** The result of a [createAsyncThunk] body. *)
Inductive Thunk (A : Type) : Type :=
| Fulfilled (payload : A)
| Rejected (msg : string).
Arguments Fulfilled {A} payload.
Arguments Rejected {A} msg.

(** *** fetchFeedPosts *)

(** What the thunk asks of the store.  [withRetry] is folded into the
    answer: it is the outcome of the last attempt.  Every connection
    document is taken to carry its [connectedUserId]. *)
Record Remote : Type := {
  connections : string -> Result (list string);
  runQuery : Query -> Result (list Doc)
}.

Inductive Call : Type :=
| CallConnections (uid : string)
| CallQuery (q : Query).

Record FeedPayload : Type := {
  fp_posts : list Post;
  fp_lastDoc : option Doc;
  fp_hasMore : bool
}.

Definition postOfDoc (now : Z) (d : Doc) : Post := {|
  post_id := doc_id d;
  post_userId := doc_userId d;
  post_timestamp := default now (doc_timestamp d);
  post_likes := doc_likes d;
  post_likeCount := doc_likeCount d;
  post_commentCount := doc_commentCount d
|}.

(** [allUserIds]: the followed users that are not blocked, then the
    viewer. *)
Definition allUserIdsOf (connectedUserIds blockedUsers : list string)
    (userId : string) : list string :=
  List.filter (fun i => negb (includes blockedUsers i)) connectedUserIds ++ [userId].

(** The posts query: at most 10 values go into an [in] filter; beyond
    that the query is unfiltered and three times as large. *)
Definition postsQuery (allUserIds : list string) (userId : string)
    (limit : nat) (lastDoc : option Doc) : Query :=
  if (length allUserIds <=? 10)%nat then
    {| q_filter := UserIdIn (if (0 <? length allUserIds)%nat then allUserIds else [userId]);
       q_startAfter := lastDoc;
       q_limit := limit |}
  else
    {| q_filter := NoFilter;
       q_startAfter := lastDoc;
       q_limit := limit * 3 |}.

Definition postsOfSnapshot (now : Z) (allUserIds : list string)
    (limit : nat) (docs : list Doc) : list Post :=
  if (length allUserIds <=? 10)%nat then
    map (postOfDoc now) docs
  else
    take limit
      (map (postOfDoc now)
         (List.filter (fun d => includes allUserIds (doc_userId d)) docs)).

Definition fetchFeedPosts (R : Remote) (now : Z) (userId : string)
    (blockedUsers : list string) (limit : nat) (lastDoc : option Doc)
    : list Call * Thunk FeedPayload :=
  match connections R userId with
  | Err msg => ([CallConnections userId], Rejected msg)
  | Ok connectedUserIds =>
      let allUserIds := allUserIdsOf connectedUserIds blockedUsers userId in
      let q := postsQuery allUserIds userId limit lastDoc in
      match runQuery R q with
      | Err msg => ([CallConnections userId; CallQuery q], Rejected msg)
      | Ok docs =>
          let posts := postsOfSnapshot now allUserIds limit docs in
          ([CallConnections userId; CallQuery q],
           Fulfilled {| fp_posts := posts;
                        fp_lastDoc := last docs;
                        fp_hasMore := (length posts =? limit)%nat |})
      end
  end.

(** *** toggleLike *)

Record NotificationDoc : Type := {
  nd_type : string;
  nd_senderId : string;
  nd_recipientId : string;
  nd_postId : string;
  nd_read : bool
}.

(** The part of the store the thunk reads and writes. *)
Record Backend : Type := {
  posts_coll : gmap string Doc;
  notifications_coll : list NotificationDoc
}.

(** Which awaited call of the thunk throws, if any. *)
Inductive Fault : Type :=
| NoFault
| ReadFails (msg : string)
| UpdateFails (msg : string)
| NotifyFails (msg : string).

Record LikePayload : Type := {
  lp_postId : string;
  lp_userId : string;
  lp_isLiked : bool
}.

Definition unlikeDoc (u : string) (d : Doc) : Doc := {|
  doc_id := doc_id d;
  doc_userId := doc_userId d;
  doc_timestamp := doc_timestamp d;
  doc_likes := Some (arrayRemove u (doc_likes d));
  doc_likeCount := Some (increment (-1) (doc_likeCount d));
  doc_commentCount := doc_commentCount d
|}.

Definition likeDoc (u : string) (d : Doc) : Doc := {|
  doc_id := doc_id d;
  doc_userId := doc_userId d;
  doc_timestamp := doc_timestamp d;
  doc_likes := Some (arrayUnion u (doc_likes d));
  doc_likeCount := Some (increment 1 (doc_likeCount d));
  doc_commentCount := doc_commentCount d
|}.

Definition likeNotification (postId userId : string) (d : Doc) : NotificationDoc := {|
  nd_type := "like";
  nd_senderId := userId;
  nd_recipientId := doc_userId d;
  nd_postId := postId;
  nd_read := false
|}.

Definition withPost (B : Backend) (postId : string) (d : Doc) : Backend := {|
  posts_coll := <[postId := d]> (posts_coll B);
  notifications_coll := notifications_coll B
|}.

Definition withNotification (B : Backend) (n : NotificationDoc) : Backend := {|
  posts_coll := posts_coll B;
  notifications_coll := notifications_coll B ++ [n]
|}.

(** The thunk reads the post, then writes the opposite of what it read.
    It returns the store after its writes and its payload. *)
Definition toggleLike (fault : Fault) (B : Backend) (postId userId : string)
    : Backend * Thunk LikePayload :=
  match fault with
  | ReadFails msg => (B, Rejected msg)
  | _ =>
    match posts_coll B !! postId with
    | None => (B, Rejected "Post not found")
    | Some postData =>
      let isLiked := includes (default [] (doc_likes postData)) userId in
      let payload := {| lp_postId := postId; lp_userId := userId;
                        lp_isLiked := negb isLiked |} in
      match fault with
      | UpdateFails msg => (B, Rejected msg)
      | _ =>
        if isLiked then
          (withPost B postId (unlikeDoc userId postData), Fulfilled payload)
        else
          let B1 := withPost B postId (likeDoc userId postData) in
          if String.eqb (doc_userId postData) userId then
            (B1, Fulfilled payload)
          else
            match fault with
            | NotifyFails msg => (B1, Rejected msg)
            | _ => (withNotification B1 (likeNotification postId userId postData),
                    Fulfilled payload)
            end
      end
    end
  end.

(** *** The reducers *)

(** What [updatePost.fulfilled] receives besides [postId]: the keys of
    the [data] the thunk was given, each present or not.  A key that is
    present carries its new value, which for a field that may be missing
    is again an [option]. *)
Record PostUpdates : Type := {
  upd_id : option string;
  upd_userId : option string;
  upd_timestamp : option Z;
  upd_likes : option (option (list string));
  upd_likeCount : option (option Z);
  upd_commentCount : option (option Z)
}.

(** The thunks, other than [fetchFeedPosts], whose [pending] and
    [rejected] actions have a case in the slice. *)
Inductive OtherThunk : Type :=
| FetchUserPosts
| FetchPostById
| CreatePost
| UpdatePost
| DeletePost
| FetchComments
| AddComment.

(** The actions of the slice: its six reducers and the cases of
    [extraReducers].  [toggleLike.rejected] has no case; it stands here
    for the actions the slice ignores.  The payload of [clearComments]
    is taken to be an object.  [updateComment.fulfilled] rewrites the
    [text], [edited] and [editTimestamp] of a comment, none of which
    [Comment] holds. *)
Inductive Action : Type :=
| SetRefreshing (b : bool)
| ClearFeed
| FetchFeedPostsPending
| FetchFeedPostsFulfilled (p : FeedPayload)
| FetchFeedPostsRejected (msg : string)
| CreatePostFulfilled (p : Post)
| DeletePostFulfilled (postId : string)
| ToggleLikeFulfilled (p : LikePayload)
| ToggleLikeRejected (msg : string)
| AddCommentFulfilled (c : Comment)
| DeleteCommentFulfilled (commentId postId : string)
| ClearUserPosts (userId : option string)
| ClearCurrentPost
| ClearComments (postId : option string)
| ClearError
| OtherPending (t : OtherThunk)
| OtherRejected (t : OtherThunk) (msg : string)
| FetchUserPostsFulfilled (userId : string) (posts : list Post)
| FetchPostByIdFulfilled (p : Post)
| UpdatePostFulfilled (postId : string) (updates : PostUpdates)
| FetchCommentsFulfilled (postId : string) (cs : list Comment)
| UpdateCommentFulfilled (commentId : string).

(** [{ ...post, ...updates }] *)
Definition applyUpdates (u : PostUpdates) (post : Post) : Post := {|
  post_id := default (post_id post) (upd_id u);
  post_userId := default (post_userId post) (upd_userId u);
  post_timestamp := default (post_timestamp post) (upd_timestamp u);
  post_likes := default (post_likes post) (upd_likes u);
  post_likeCount := default (post_likeCount post) (upd_likeCount u);
  post_commentCount := default (post_commentCount post) (upd_commentCount u)
|}.

(** [post.id === postId ? { ...post, ...updates } : post] *)
Definition updatePostFields (postId : string) (u : PostUpdates) (post : Post) : Post :=
  if String.eqb (post_id post) postId then applyUpdates u post else post.

(** [if (x)] on an optional string: [undefined], [null] and the empty
    string are falsy. *)
Definition truthy (x : option string) : option string :=
  match x with
  | Some EmptyString => None
  | other => other
  end.

(** [updatePostLike] of the [toggleLike.fulfilled] case. *)
Definition updatePostLike (p : LikePayload) (post : Post) : Post :=
  if negb (String.eqb (post_id post) (lp_postId p)) then post
  else
    let updatedLikes :=
      if lp_isLiked p then default [] (post_likes post) ++ [lp_userId p]
      else List.filter (fun i => negb (String.eqb i (lp_userId p)))
             (default [] (post_likes post)) in
    let updatedLikeCount :=
      if lp_isLiked p then (default 0 (post_likeCount post) + 1)%Z
      else (Z.max 0 (default 0 (post_likeCount post) - 1))%Z in
    {| post_id := post_id post;
       post_userId := post_userId post;
       post_timestamp := post_timestamp post;
       post_likes := Some updatedLikes;
       post_likeCount := Some updatedLikeCount;
       post_commentCount := post_commentCount post |}.

(** [updateCommentCount] of the [addComment.fulfilled] case ([delta = 1])
    and of the [deleteComment.fulfilled] case, which clamps at zero. *)
Definition incrementCommentCount (postId : string) (post : Post) : Post :=
  if negb (String.eqb (post_id post) postId) then post
  else
    {| post_id := post_id post;
       post_userId := post_userId post;
       post_timestamp := post_timestamp post;
       post_likes := post_likes post;
       post_likeCount := post_likeCount post;
       post_commentCount := Some (default 0 (post_commentCount post) + 1)%Z |}.

Definition decrementCommentCount (postId : string) (post : Post) : Post :=
  if negb (String.eqb (post_id post) postId) then post
  else
    {| post_id := post_id post;
       post_userId := post_userId post;
       post_timestamp := post_timestamp post;
       post_likes := post_likes post;
       post_likeCount := post_likeCount post;
       post_commentCount := Some (Z.max 0 (default 0 (post_commentCount post) - 1))%Z |}.

(** Apply [f] to the feed, to every list of [userPosts] and to
    [currentPost] when it is the post [postId]. *)
Definition mapPosts (f : Post -> Post) (postId : string) (s : State) : State := {|
  feed := map f (feed s);
  userPosts := map f <$> userPosts s;
  currentPost :=
    match currentPost s with
    | Some p => if String.eqb (post_id p) postId then Some (f p) else Some p
    | None => None
    end;
  comments := comments s;
  status := status s;
  error := error s;
  lastDoc := lastDoc s;
  hasMore := hasMore s;
  refreshing := refreshing s
|}.

Definition setStatus (st : Status) (s : State) : State := {|
  feed := feed s; userPosts := userPosts s; currentPost := currentPost s;
  comments := comments s; status := st; error := error s;
  lastDoc := lastDoc s; hasMore := hasMore s; refreshing := refreshing s
|}.

Definition setComments (c : gmap string (list Comment)) (s : State) : State := {|
  feed := feed s; userPosts := userPosts s; currentPost := currentPost s;
  comments := c; status := status s; error := error s;
  lastDoc := lastDoc s; hasMore := hasMore s; refreshing := refreshing s
|}.

Definition isPost (postId : string) (p : Post) : bool := String.eqb (post_id p) postId.

Definition reducer (s : State) (a : Action) : State :=
  match a with
  | SetRefreshing b =>
      {| feed := feed s; userPosts := userPosts s; currentPost := currentPost s;
         comments := comments s; status := status s; error := error s;
         lastDoc := lastDoc s; hasMore := hasMore s; refreshing := b |}
  | ClearFeed =>
      {| feed := []; userPosts := userPosts s; currentPost := currentPost s;
         comments := comments s; status := status s; error := error s;
         lastDoc := None; hasMore := true; refreshing := refreshing s |}
  | FetchFeedPostsPending => setStatus Loading s
  | FetchFeedPostsFulfilled p =>
      {| feed := if refreshing s then fp_posts p else feed s ++ fp_posts p;
         userPosts := userPosts s; currentPost := currentPost s;
         comments := comments s; status := Succeeded; error := error s;
         lastDoc := fp_lastDoc p; hasMore := fp_hasMore p; refreshing := false |}
  | FetchFeedPostsRejected msg =>
      {| feed := feed s; userPosts := userPosts s; currentPost := currentPost s;
         comments := comments s; status := Failed; error := Some msg;
         lastDoc := lastDoc s; hasMore := hasMore s; refreshing := false |}
  | CreatePostFulfilled p =>
      {| feed := p :: feed s;
         userPosts :=
           match userPosts s !! post_userId p with
           | Some ps => <[post_userId p := p :: ps]> (userPosts s)
           | None => userPosts s
           end;
         currentPost := currentPost s;
         comments := comments s; status := Succeeded; error := error s;
         lastDoc := lastDoc s; hasMore := hasMore s; refreshing := refreshing s |}
  | DeletePostFulfilled postId =>
      {| feed := List.filter (fun p => negb (isPost postId p)) (feed s);
         userPosts := List.filter (fun p => negb (isPost postId p)) <$> userPosts s;
         currentPost :=
           match currentPost s with
           | Some p => if isPost postId p then None else Some p
           | None => None
           end;
         comments := delete postId (comments s);
         status := Succeeded; error := error s;
         lastDoc := lastDoc s; hasMore := hasMore s; refreshing := refreshing s |}
  | ToggleLikeFulfilled p => mapPosts (updatePostLike p) (lp_postId p) s
  | ToggleLikeRejected _ => s
  | AddCommentFulfilled c =>
      let postId := comment_postId c in
      let cs := default [] (comments s !! postId) ++ [c] in
      mapPosts (incrementCommentCount postId) postId
        (setComments (<[postId := cs]> (comments s)) (setStatus Succeeded s))
  | DeleteCommentFulfilled commentId postId =>
      let cs :=
        match comments s !! postId with
        | Some l => <[postId := List.filter
                        (fun c => negb (String.eqb (comment_id c) commentId)) l]>
                      (comments s)
        | None => comments s
        end in
      mapPosts (decrementCommentCount postId) postId (setComments cs s)
  | ClearUserPosts userId =>
      {| feed := feed s;
         userPosts :=
           match truthy userId with
           | Some u => delete u (userPosts s)
           | None => ∅
           end;
         currentPost := currentPost s;
         comments := comments s; status := status s; error := error s;
         lastDoc := lastDoc s; hasMore := hasMore s; refreshing := refreshing s |}
  | ClearCurrentPost =>
      {| feed := feed s; userPosts := userPosts s; currentPost := None;
         comments := comments s; status := status s; error := error s;
         lastDoc := lastDoc s; hasMore := hasMore s; refreshing := refreshing s |}
  | ClearComments postId =>
      setComments
        (match truthy postId with
         | Some i => delete i (comments s)
         | None => ∅
         end) s
  | ClearError =>
      {| feed := feed s; userPosts := userPosts s; currentPost := currentPost s;
         comments := comments s; status := status s; error := None;
         lastDoc := lastDoc s; hasMore := hasMore s; refreshing := refreshing s |}
  | OtherPending _ => setStatus Loading s
  | OtherRejected _ msg =>
      {| feed := feed s; userPosts := userPosts s; currentPost := currentPost s;
         comments := comments s; status := Failed; error := Some msg;
         lastDoc := lastDoc s; hasMore := hasMore s; refreshing := refreshing s |}
  | FetchUserPostsFulfilled userId posts =>
      {| feed := feed s;
         userPosts :=
           <[userId := if refreshing s then posts
                       else default [] (userPosts s !! userId) ++ posts]> (userPosts s);
         currentPost := currentPost s;
         comments := comments s; status := Succeeded; error := error s;
         lastDoc := lastDoc s; hasMore := hasMore s; refreshing := refreshing s |}
  | FetchPostByIdFulfilled p =>
      {| feed := feed s; userPosts := userPosts s; currentPost := Some p;
         comments := comments s; status := Succeeded; error := error s;
         lastDoc := lastDoc s; hasMore := hasMore s; refreshing := refreshing s |}
  | UpdatePostFulfilled postId updates =>
      mapPosts (updatePostFields postId updates) postId (setStatus Succeeded s)
  | FetchCommentsFulfilled postId cs =>
      setComments (<[postId := default [] (comments s !! postId) ++ cs]> (comments s))
        (setStatus Succeeded s)
  | UpdateCommentFulfilled _ => s
  end.

(** Dispatching the [toggleLike] thunk: the store after its writes, and
    the slice after the action it ends in.  The slice has no case for
    [toggleLike.pending] nor for [toggleLike.rejected]. *)
Definition dispatchToggleLike (fault : Fault) (B : Backend) (s : State)
    (postId userId : string) : Backend * State :=
  match toggleLike fault B postId userId with
  | (B', Fulfilled payload) => (B', reducer s (ToggleLikeFulfilled payload))
  | (B', Rejected msg) => (B', reducer s (ToggleLikeRejected msg))
  end.

(** *** [toggleLike], one await at a time

    The thunk awaits [postRef.get()], then [postRef.update(...)], then
    the write of the notification, and other calls run in between.
    [toggleLikeRead] is the thunk up to its first await; [toggleLikeWrite]
    is the rest: it decides from the document that was read, while its
    [update], made of [arrayUnion], [arrayRemove] and [increment], acts on
    the document the store holds by then and throws when there is none
    (the store's message is written [not-found] here). *)
Definition toggleLikeRead (fault : Fault) (B : Backend) (postId : string) : Result Doc :=
  match fault with
  | ReadFails msg => Err msg
  | _ =>
    match posts_coll B !! postId with
    | None => Err "Post not found"
    | Some postData => Ok postData
    end
  end.

Definition toggleLikeWrite (fault : Fault) (B : Backend) (postId userId : string)
    (postData : Doc) : Backend * Thunk LikePayload :=
  let isLiked := includes (default [] (doc_likes postData)) userId in
  let payload := {| lp_postId := postId; lp_userId := userId;
                    lp_isLiked := negb isLiked |} in
  match fault with
  | UpdateFails msg => (B, Rejected msg)
  | _ =>
    match posts_coll B !! postId with
    | None => (B, Rejected "not-found")
    | Some held =>
      if isLiked then
        (withPost B postId (unlikeDoc userId held), Fulfilled payload)
      else
        let B1 := withPost B postId (likeDoc userId held) in
        if String.eqb (doc_userId postData) userId then
          (B1, Fulfilled payload)
        else
          match fault with
          | NotifyFails msg => (B1, Rejected msg)
          | _ => (withNotification B1 (likeNotification postId userId postData),
                  Fulfilled payload)
          end
    end
  end.

(** The action a dispatched thunk ends in, applied to the slice. *)
Definition settled (r : Thunk LikePayload) (s : State) : State :=
  match r with
  | Fulfilled payload => reducer s (ToggleLikeFulfilled payload)
  | Rejected msg => reducer s (ToggleLikeRejected msg)
  end.

(** Two dispatches of the thunk that overlap: the second has read the
    post before the first writes.  The writes follow in the order of the
    dispatches, and so do the actions. *)
Definition dispatchOverlappingLikes (B : Backend) (s : State)
    (postId userId : string) : Backend * State :=
  match toggleLikeRead NoFault B postId with
  | Err _ => (B, s)
  | Ok postData =>
      let first := toggleLikeWrite NoFault B postId userId postData in
      let second := toggleLikeWrite NoFault (fst first) postId userId postData in
      (fst second, settled (snd second) (settled (snd first) s))
  end.

(** The order of the feed: [timestamp] descending, ties by [id]
    descending.  [keyGeb p q] holds when [p] may stand before [q]. *)
Definition keyGeb (p q : Post) : bool :=
  (post_timestamp q <? post_timestamp p)%Z
  || ((post_timestamp p =? post_timestamp q)%Z && String.leb (post_id q) (post_id p)).

Definition feedSorted (l : list Post) : Prop :=
  StronglySorted (fun p q => keyGeb p q = true) l.

(** The posts an action brings into the feed. *)
Definition brought (a : Action) : list Post :=
  match a with
  | FetchFeedPostsFulfilled p => fp_posts p
  | CreatePostFulfilled p => [p]
  | _ => []
  end.

(** What the posts an action brings have to satisfy for the order to
    survive it, since no reducer sorts: a page is in order and, when it
    is appended, its first post may follow the last post of the feed; a
    created post may stand before the first post of the feed. *)
Definition arrivesInOrder (s : State) (a : Action) : Prop :=
  match a with
  | FetchFeedPostsFulfilled p =>
      feedSorted (fp_posts p) /\
      (refreshing s = false ->
       forall x y, last (feed s) = Some x -> head (fp_posts p) = Some y ->
                   keyGeb x y = true)
  | CreatePostFulfilled p =>
      forall y, head (feed s) = Some y -> keyGeb p y = true
  | _ => True
  end.

(** An update that carries neither [id] nor [timestamp] leaves the key
    of the post it is spread into as it was. *)
Definition keepsKey (a : Action) : Prop :=
  match a with
  | UpdatePostFulfilled _ u => upd_id u = None /\ upd_timestamp u = None
  | _ => True
  end.

(** The ids of a feed, in order. *)
Definition ids (l : list Post) : list string := map post_id l.

(** [likeCount] is the number of users who like the post: the [likes]
    array holds no user twice and [likeCount] is its length, both read
    the way the reducer reads them ([post.likeCount || 0],
    [post.likes || []]). *)
Definition likeCountMatches (p : Post) : Prop :=
  List.NoDup (default [] (post_likes p)) /\
  default 0%Z (post_likeCount p) = Z.of_nat (length (default [] (post_likes p))).

(** [p1] is [p] with the users [us] appended to [likes] and [n] added to
    [likeCount] when [p] is the post [postId], and [p] itself otherwise. *)
Definition likedBy (postId : string) (us : list string) (n : Z) (p p1 : Post) : Prop :=
  (post_id p = postId ->
   post_likes p1 = Some (default [] (post_likes p) ++ us) /\
   post_likeCount p1 = Some (default 0 (post_likeCount p) + n)%Z) /\
  (post_id p <> postId -> p1 = p).

(** The feed's copy of the post [postId] holds the [likes] array of the
    store's document [d]. *)
Definition copyAgrees (postId : string) (d : Doc) (p : Post) : Prop :=
  post_id p = postId -> default [] (post_likes p) = default [] (doc_likes d).

(** The answer of the store fits the feed's copy of the post: a like by
    a user the copy does not hold yet, an unlike by a user it holds. *)
Definition fitsCopy (lp : LikePayload) (p : Post) : Prop :=
  post_id p = lp_postId lp ->
  if lp_isLiked lp then ~ In (lp_userId lp) (default [] (post_likes p))
  else In (lp_userId lp) (default [] (post_likes p)).

(** *** fetchComments *)

(** A document of the [comments] collection. *)
Record CommentDoc : Type := {
  cd_id : string;
  cd_postId : string;
  cd_userId : string
}.

(** The comments of a post, oldest first. *)
Record CommentsQuery : Type := {
  cq_postId : string;
  cq_startAfter : option CommentDoc;
  cq_limit : nat
}.

Record CommentsPayload : Type := {
  cp_postId : string;
  cp_comments : list Comment;
  cp_lastDoc : option CommentDoc;
  cp_hasMore : bool
}.

Definition commentOfDoc (d : CommentDoc) : Comment := {|
  comment_id := cd_id d;
  comment_postId := cd_postId d;
  comment_userId := cd_userId d
|}.

(** The thunk filters the comments of blocked users out of the page it
    received, and computes [hasMore] on what is left. *)
Definition fetchComments (runCommentsQuery : CommentsQuery -> Result (list CommentDoc))
    (postId : string) (blockedUsers : list string) (limit : nat)
    (lastDoc : option CommentDoc) : Thunk CommentsPayload :=
  match runCommentsQuery {| cq_postId := postId; cq_startAfter := lastDoc;
                            cq_limit := limit |} with
  | Err msg => Rejected msg
  | Ok docs =>
      let comments :=
        map commentOfDoc
          (List.filter (fun d => negb (includes blockedUsers (cd_userId d))) docs) in
      Fulfilled {| cp_postId := postId;
                   cp_comments := comments;
                   cp_lastDoc := last docs;
                   cp_hasMore := (length comments =? limit)%nat |}
  end.

(** *** deletePost *)

(** The posts and the comments of the store. *)
Record ContentStore : Type := {
  cs_posts : gmap string Doc;
  cs_comments : list CommentDoc
}.

(** The media of the posts and the files of the storage service.
    [ms_content] gives, for a post whose [type] is 'image' or 'video' and
    whose [content] is set, that [content]: the URL of its file. *)
Record MediaStore : Type := {
  ms_content : gmap string string;
  ms_files : list string
}.

(** Which awaited call of [deletePost] throws, if any.  The deletion of
    the media file has a [try] of its own, whose [catch] only logs:
    whether it throws is a parameter of its own. *)
Inductive DeleteFault : Type :=
| DeleteOk
| PostReadFails (msg : string)
| CommentsQueryFails (msg : string)
| BatchCommitFails (msg : string).

Definition withoutPost (S : ContentStore) (postId : string) : ContentStore := {|
  cs_posts := delete postId (cs_posts S);
  cs_comments := cs_comments S
|}.

Definition withoutCommentsOf (S : ContentStore) (postId : string) : ContentStore := {|
  cs_posts := cs_posts S;
  cs_comments := List.filter (fun c => negb (String.eqb (cd_postId c) postId)) (cs_comments S)
|}.

(** What a call of [deletePost] leaves: the posts and comments, the
    files, and its result. *)
Record DeleteOutcome : Type := {
  del_store : ContentStore;
  del_files : list string;
  del_result : Thunk string
}.

(** [storage().refFromURL(postData.content).delete()] inside its own
    [try]: the file is removed unless the call throws. *)
Definition deleteMedia (mediaFails : bool) (M : MediaStore) (postId : string)
    : list string :=
  match ms_content M !! postId with
  | Some url =>
      if mediaFails then ms_files M
      else List.filter (fun f => negb (String.eqb f url)) (ms_files M)
  | None => ms_files M
  end.

(** The thunk reads the post, deletes its media file, reads the comments
    and deletes the post and its comments in one batch. *)
Definition deletePost (fault : DeleteFault) (mediaFails : bool) (S : ContentStore)
    (M : MediaStore) (postId : string) : DeleteOutcome :=
  match fault with
  | PostReadFails msg =>
      {| del_store := S; del_files := ms_files M; del_result := Rejected msg |}
  | _ =>
      match cs_posts S !! postId with
      | None =>
          {| del_store := S; del_files := ms_files M;
             del_result := Rejected "Post not found" |}
      | Some _ =>
          let files := deleteMedia mediaFails M postId in
          match fault with
          | CommentsQueryFails msg | BatchCommitFails msg =>
              {| del_store := S; del_files := files; del_result := Rejected msg |}
          | _ =>
              {| del_store := withoutCommentsOf (withoutPost S postId) postId;
                 del_files := files;
                 del_result := Fulfilled postId |}
          end
      end
  end.

(** *** Counters *)

(** Neither counter of the post is negative, read as the reducers read
    them. *)
Definition countersNonNegative (p : Post) : Prop :=
  (0 <= default 0 (post_likeCount p))%Z /\ (0 <= default 0 (post_commentCount p))%Z.

(** A counter an update carries is not negative, read as the reducers
    read it. *)
Definition carriesNonNegative (field : option (option Z)) : Prop :=
  match field with
  | Some v => (0 <= default 0 v)%Z
  | None => True
  end.

(** The posts an action brings into the feed have no negative counter,
    and the counters an update carries are not negative. *)
Definition bringsNonNegative (a : Action) : Prop :=
  match a with
  | FetchFeedPostsFulfilled p => Forall countersNonNegative (fp_posts p)
  | CreatePostFulfilled p => countersNonNegative p
  | UpdatePostFulfilled _ u =>
      carriesNonNegative (upd_likeCount u) /\ carriesNonNegative (upd_commentCount u)
  | _ => True
  end.

(** In a document of the store, [likes] holds no user twice and
    [likeCount] is its length. *)
Definition storeCountMatches (d : Doc) : Prop :=
  List.NoDup (default [] (doc_likes d)) /\
  default 0%Z (doc_likeCount d) = Z.of_nat (length (default [] (doc_likes d))).

End PostsSlice.

(** ** The feed screen: [src/screens/FeedScreen.js] *)

Module FeedScreen.
Import JS Firestore.

Definition POSTS_PER_PAGE : nat := 10.
Definition CACHE_EXPIRY_MS : Z := 24 * 60 * 60 * 1000.

(** The [useState] cells of the component that [loadFeed] reads or
    writes.  A post is [{ id: doc.id, ...doc.data() }], that is, the
    document. *)
Record State : Type := {
  posts : list Doc;
  loading : bool;
  refreshing : bool;
  loadingMore : bool;
  lastVisible : option Doc;
  hasMorePosts : bool;
  isFirstLoad : bool;
  offlineMode : bool
}.

Definition initialState : State := {|
  posts := [];
  loading := true;
  refreshing := false;
  loadingMore := false;
  lastVisible := None;
  hasMorePosts := true;
  isFirstLoad := true;
  offlineMode := false
|}.

(** The two [AsyncStorage] items of the feed cache, decoded:
    [JSON.parse] of ['cachedFeedPosts'] and [parseInt] of
    ['cachedFeedTimestamp'], [None] when the item is absent. *)
Record Storage : Type := {
  cachedFeedPosts : option (list Doc);
  cachedFeedTimestamp : option Z
}.

(** What a call of a handler sees besides the state: the values of the
    hooks at the render that created the handler, the [isMounted] ref,
    the clock, the local cache and the remote store. *)
Record Env : Type := {
  user : option string;
  blockedUsers : list string;
  isConnected : bool;
  internetReachable : bool;
  isMounted : bool;
  now : Z;
  storage : Storage;
  connections : string -> Result (list (option string));
  runQuery : Query -> Result (list Doc)
}.

Inductive Call : Type :=
| CallCache
| CallConnections (uid : string)
| CallQuery (q : Query)
| CallAlert (title : string).

Definition setPosts (v : list Doc) (s : State) : State := {|
  posts := v; loading := loading s; refreshing := refreshing s;
  loadingMore := loadingMore s; lastVisible := lastVisible s;
  hasMorePosts := hasMorePosts s; isFirstLoad := isFirstLoad s;
  offlineMode := offlineMode s |}.

Definition setLoading (v : bool) (s : State) : State := {|
  posts := posts s; loading := v; refreshing := refreshing s;
  loadingMore := loadingMore s; lastVisible := lastVisible s;
  hasMorePosts := hasMorePosts s; isFirstLoad := isFirstLoad s;
  offlineMode := offlineMode s |}.

Definition setRefreshing (v : bool) (s : State) : State := {|
  posts := posts s; loading := loading s; refreshing := v;
  loadingMore := loadingMore s; lastVisible := lastVisible s;
  hasMorePosts := hasMorePosts s; isFirstLoad := isFirstLoad s;
  offlineMode := offlineMode s |}.

Definition setLoadingMore (v : bool) (s : State) : State := {|
  posts := posts s; loading := loading s; refreshing := refreshing s;
  loadingMore := v; lastVisible := lastVisible s;
  hasMorePosts := hasMorePosts s; isFirstLoad := isFirstLoad s;
  offlineMode := offlineMode s |}.

Definition setLastVisible (v : option Doc) (s : State) : State := {|
  posts := posts s; loading := loading s; refreshing := refreshing s;
  loadingMore := loadingMore s; lastVisible := v;
  hasMorePosts := hasMorePosts s; isFirstLoad := isFirstLoad s;
  offlineMode := offlineMode s |}.

Definition setHasMorePosts (v : bool) (s : State) : State := {|
  posts := posts s; loading := loading s; refreshing := refreshing s;
  loadingMore := loadingMore s; lastVisible := lastVisible s;
  hasMorePosts := v; isFirstLoad := isFirstLoad s;
  offlineMode := offlineMode s |}.

Definition setIsFirstLoad (v : bool) (s : State) : State := {|
  posts := posts s; loading := loading s; refreshing := refreshing s;
  loadingMore := loadingMore s; lastVisible := lastVisible s;
  hasMorePosts := hasMorePosts s; isFirstLoad := v;
  offlineMode := offlineMode s |}.

Definition setOfflineMode (v : bool) (s : State) : State := {|
  posts := posts s; loading := loading s; refreshing := refreshing s;
  loadingMore := loadingMore s; lastVisible := lastVisible s;
  hasMorePosts := hasMorePosts s; isFirstLoad := isFirstLoad s;
  offlineMode := v |}.

(** [loadCachedPosts]: the cache is used when both items are present,
    the snapshot is younger than [CACHE_EXPIRY_MS] and it is not empty. *)
Definition loadCachedPosts (env : Env) (s : State) : bool * State :=
  match cachedFeedPosts (storage env), cachedFeedTimestamp (storage env) with
  | Some cachedPosts, Some timestamp =>
      if (now env - timestamp <? CACHE_EXPIRY_MS)%Z then
        if (0 <? length cachedPosts)%nat && isMounted env
        then (true, setPosts cachedPosts s)
        else (false, s)
      else (false, s)
  | _, _ => (false, s)
  end.

(** [connectedUserIds]: the followed ids that are not null and not
    blocked, then the viewer. *)
Definition connectedUserIdsOf (conns : list (option string))
    (blocked : list string) (uid : string) : list string :=
  omap (fun o => match o with
                 | Some i => if includes blocked i then None else Some i
                 | None => None
                 end) conns ++ [uid].

(** The query of [loadFeed]: the first 10 ids at most go into the [in]
    filter. *)
Definition feedQuery (connectedUserIds : list string) (reset : bool)
    (cursor : option Doc) : Query := {|
  q_filter :=
    if (0 <? length connectedUserIds)%nat
    then UserIdIn (take (Nat.min (length connectedUserIds) 10) connectedUserIds)
    else UserIdEq "NO_RESULTS";
  q_startAfter := if reset then None else cursor;
  q_limit := POSTS_PER_PAGE
|}.

(** [Array.from(new Set(allPosts.map(post => post.id)))
      .map(id => allPosts.find(post => post.id === id))]:
    [find] succeeds for every id taken from [allPosts]. *)
Definition uniquePosts (allPosts : list Doc) : list Doc :=
  omap (fun i => List.find (fun p => String.eqb (doc_id p) i) allPosts)
    (arrayFromSet (map doc_id allPosts)).

(** The three [setPosts] calls that follow a successful query, applied in
    order to the pending state.  When [reset] the first one is
    [setPosts(fetchedPosts)]; the two others are functional updates. *)
Definition updatePosts (reset : bool) (prevPosts fetchedPosts : list Doc) : list Doc :=
  let first := if reset then fetchedPosts else prevPosts ++ fetchedPosts in
  let second := uniquePosts (first ++ fetchedPosts) in
  second ++ fetchedPosts.

(** The [finally] block. *)
Definition settle (env : Env) (s : State) : State :=
  if isMounted env
  then setIsFirstLoad false (setLoadingMore false (setRefreshing false (setLoading false s)))
  else s.

(** The guards of [loadFeed] and the loading flag it raises before its
    first [await].  [None]: the call returned at a guard. *)
Definition loadFeedStart (env : Env) (reset silent : bool) (s : State)
    : option (string * State) :=
  match user env with
  | None => None
  | Some uid =>
      if (negb (isConnected env) && negb silent) || (negb (isConnected env) && silent)
      then None
      else if negb (isConnected env) && negb silent then None
      else
        Some (uid,
              if isMounted env && negb silent then
                if reset then
                  if isFirstLoad s then setLoading true s else setRefreshing true s
                else setLoadingMore true s
              else s)
  end.

Definition catchAlert (env : Env) (silent : bool) : list Call :=
  if isMounted env && negb silent then [CallAlert "Error"] else [].

(** The [try]/[catch]/[finally] of [loadFeed].  [snap] is the state of
    the render that created the handler (the body reads [lastVisible]
    from it); [cur] is the state the setters act on. *)
Definition loadFeedBody (env : Env) (uid : string) (reset silent : bool)
    (snap cur : State) : State * list Call :=
  let cached :=
    if negb (isConnected env) && reset
    then (loadCachedPosts env cur, [CallCache])
    else ((false, cur), []) in
  match cached with
  | ((true, c1), log) =>
      let c2 := setOfflineMode true c1 in
      let c3 := if isMounted env
                then setIsFirstLoad false (setRefreshing false (setLoading false c2))
                else c2 in
      (settle env c3, log)
  | ((false, c1), log) =>
      if isConnected env && internetReachable env then
        match connections env uid with
        | Err _ =>
            (settle env c1, log ++ [CallConnections uid] ++ catchAlert env silent)
        | Ok conns =>
            let connectedUserIds := connectedUserIdsOf conns (blockedUsers env) uid in
            let q := feedQuery connectedUserIds reset (lastVisible snap) in
            match runQuery env q with
            | Err _ =>
                (settle env c1,
                 log ++ [CallConnections uid; CallQuery q] ++ catchAlert env silent)
            | Ok docs =>
                let c2 := if isMounted env
                          then setPosts (updatePosts reset (posts c1) docs) c1
                          else c1 in
                let c3 := setOfflineMode false
                            (setHasMorePosts (length docs =? POSTS_PER_PAGE)%nat
                               (setLastVisible (last docs) c2)) in
                (settle env c3, log ++ [CallConnections uid; CallQuery q])
            end
        end
      else
        (settle env (setOfflineMode true c1), log)
  end.

(** A call of [loadFeed] that runs to its end before anything else
    happens. *)
Definition loadFeed (env : Env) (reset silent : bool) (s : State)
    : State * list Call :=
  match loadFeedStart env reset silent s with
  | None => (s, [])
  | Some (uid, s1) => loadFeedBody env uid reset silent s s1
  end.

Definition loadMoreGuard (env : Env) (s : State) : bool :=
  isMounted env && negb (loadingMore s) && hasMorePosts s && negb (offlineMode s).

Definition loadMorePosts (env : Env) (s : State) : State * list Call :=
  if loadMoreGuard env s then loadFeed env false false s else (s, []).

Definition onRefresh (env : Env) (s : State) : State * list Call :=
  if negb (isConnected env) then (s, [CallAlert "Offline"])
  else if isMounted env then loadFeed env true false s
  else (s, []).

(** *** Calls in flight

    [loadFeed] is asynchronous: between its first [await] and its end
    other handlers run.  A task is a call that passed the guards and
    waits for the store. *)
Record Task : Type := {
  t_env : Env;
  t_uid : string;
  t_reset : bool;
  t_silent : bool;
  t_snapshot : State
}.

Record Sys : Type := {
  ui : State;
  inflight : list Task
}.

(** A call of [loadFeed] made from a render that shows the state React
    holds, as an effect makes it when it runs right after its render. *)
Definition spawn (env : Env) (reset silent : bool) (sys : Sys) : Sys :=
  match loadFeedStart env reset silent (ui sys) with
  | None => sys
  | Some (uid, s1) =>
      {| ui := s1;
         inflight := inflight sys ++
           [{| t_env := env; t_uid := uid; t_reset := reset;
               t_silent := silent; t_snapshot := ui sys |}] |}
  end.

Definition mounted : Sys := {| ui := initialState; inflight := [] |}.

(** *** Renders

    A handler is a closure of the render that created it:
    [loadMorePosts] reads [loadingMore], [hasMorePosts] and [offlineMode],
    and [loadFeed] reads [isFirstLoad] and [lastVisible], as that render
    saw them.  The setters act on the state React holds, which the next
    render will show.  [shown] is the state of the last render. *)
Record Screen : Type := {
  shown : State;
  held : Sys
}.

(** The flag [loadFeed] raises before its first [await]: which one is
    decided by the render [seen], and it is set in the state [cur]. *)
Definition raiseFlag (env : Env) (reset silent : bool) (seen cur : State) : State :=
  if isMounted env && negb silent then
    if reset then
      if isFirstLoad seen then setLoading true cur else setRefreshing true cur
    else setLoadingMore true cur
  else cur.

(** A call of the [loadFeed] that the render [seen] created. *)
Definition spawnFrom (seen : State) (env : Env) (reset silent : bool) (sys : Sys) : Sys :=
  match loadFeedStart env reset silent seen with
  | None => sys
  | Some (uid, _) =>
      {| ui := raiseFlag env reset silent seen (ui sys);
         inflight := inflight sys ++
           [{| t_env := env; t_uid := uid; t_reset := reset;
               t_silent := silent; t_snapshot := seen |}] |}
  end.

Inductive Event : Type :=
| EvRender
| EvLoadFeed (env : Env) (reset silent : bool)
| EvLoadMore (env : Env)
| EvRefresh (env : Env)
| EvSettle (k : nat).

Definition step (sc : Screen) (ev : Event) : Screen :=
  match ev with
  | EvRender => {| shown := ui (held sc); held := held sc |}
  | EvLoadFeed env reset silent =>
      {| shown := shown sc; held := spawnFrom (shown sc) env reset silent (held sc) |}
  | EvLoadMore env =>
      if loadMoreGuard env (shown sc)
      then {| shown := shown sc; held := spawnFrom (shown sc) env false false (held sc) |}
      else sc
  | EvRefresh env =>
      if negb (isConnected env) then sc
      else if isMounted env
      then {| shown := shown sc; held := spawnFrom (shown sc) env true false (held sc) |}
      else sc
  | EvSettle k =>
      match inflight (held sc) !! k with
      | None => sc
      | Some t =>
          {| shown := shown sc;
             held :=
               {| ui := fst (loadFeedBody (t_env t) (t_uid t) (t_reset t) (t_silent t)
                               (t_snapshot t) (ui (held sc)));
                  inflight := delete k (inflight (held sc)) |} |}
      end
  end.

Definition run (sc : Screen) (evs : list Event) : Screen := fold_left step evs sc.

(** The screen at its first render. *)
Definition firstRender : Screen := {| shown := initialState; held := mounted |}.

(** The cursors of the calls in flight: the [lastVisible] each will put
    into its query. *)
Definition cursorsInFlight (sys : Sys) : list (option string) :=
  map (fun t => if t_reset t then None
                else option_map doc_id (lastVisible (t_snapshot t)))
    (inflight sys).

(** The load-more calls in flight. *)
Definition loadMoresInFlight (sys : Sys) : nat :=
  length (List.filter (fun t => negb (t_reset t)) (inflight sys)).

(** *** The cache writer and the connectivity effect *)

(** Which [AsyncStorage.setItem] of [cachePosts] throws, if any; the
    [catch] block logs. *)
Inductive WriteFault : Type := WritesOk | FirstWriteFails | SecondWriteFails.

(** [cachePosts]: the posts, then the clock.  [JSON.parse] is taken to
    give back what [JSON.stringify] was given. *)
Definition cachePosts (fault : WriteFault) (clock : Z) (postsToCache : list Doc)
    (st : Storage) : Storage :=
  match fault with
  | FirstWriteFails => st
  | SecondWriteFails =>
      {| cachedFeedPosts := Some postsToCache;
         cachedFeedTimestamp := cachedFeedTimestamp st |}
  | WritesOk =>
      {| cachedFeedPosts := Some postsToCache;
         cachedFeedTimestamp := Some clock |}
  end.

Definition withStorage (env : Env) (st : Storage) : Env := {|
  user := user env;
  blockedUsers := blockedUsers env;
  isConnected := isConnected env;
  internetReachable := internetReachable env;
  isMounted := isMounted env;
  now := now env;
  storage := st;
  connections := connections env;
  runQuery := runQuery env
|}.

(** [handleConnectivityChange], the body of the effect on
    [isConnected], [internetReachable], [offlineMode] and [posts.length]. *)
Definition handleConnectivityChange (env : Env) (sys : Sys) : Sys :=
  if isConnected env && internetReachable env && offlineMode (ui sys) then
    spawn env true false
      {| ui := setOfflineMode false (ui sys); inflight := inflight sys |}
  else if (negb (isConnected env) || negb (internetReachable env))
          && (0 <? length (posts (ui sys)))%nat then
    {| ui := setOfflineMode true (ui sys); inflight := inflight sys |}
  else sys.

End FeedScreen.

(** ** The paginated list: [src/components/PaginatedFlatList.js] *)

Module PaginatedFlatList.
Import JS Firestore.

Record State : Type := {
  data : list Doc;
  loading : bool;
  refreshing : bool;
  error : option string;
  lastDoc : option Doc;
  hasMore : bool;
  initialLoad : bool
}.

Definition initialState : State := {|
  data := [];
  loading := true;
  refreshing := false;
  error := None;
  lastDoc := None;
  hasMore := true;
  initialLoad := true
|}.

(** The props that matter: the page size, and the store's answer to the
    query built from [collection], [where] and [orderBy], given the
    cursor and the limit.  Items go through the default transform, which
    keeps the document. *)
Record Props : Type := {
  limit : nat;
  fetch : option Doc -> nat -> Result (list Doc)
}.

Inductive Call : Type :=
| CallFetch (cursor : option Doc) (n : nat).

Definition fetchInitialData (P : Props) (s : State) : State * list Call :=
  match fetch P None (limit P) with
  | Ok docs =>
      ({| data := docs;
          loading := false;
          refreshing := refreshing s;
          error := None;
          lastDoc := last docs;
          hasMore := (length docs =? limit P)%nat;
          initialLoad := false |},
       [CallFetch None (limit P)])
  | Err msg =>
      ({| data := data s;
          loading := false;
          refreshing := refreshing s;
          error := Some msg;
          lastDoc := lastDoc s;
          hasMore := hasMore s;
          initialLoad := initialLoad s |},
       [CallFetch None (limit P)])
  end.

Definition fetchMoreData (P : Props) (s : State) : State * list Call :=
  if negb (hasMore s) || loading s then (s, [])
  else
    match fetch P (lastDoc s) (limit P) with
    | Ok docs =>
        ({| data := data s ++ docs;
            loading := false;
            refreshing := refreshing s;
            error := None;
            lastDoc := last docs;
            hasMore := (length docs =? limit P)%nat;
            initialLoad := initialLoad s |},
         [CallFetch (lastDoc s) (limit P)])
    | Err msg =>
        ({| data := data s;
            loading := false;
            refreshing := refreshing s;
            error := Some msg;
            lastDoc := lastDoc s;
            hasMore := hasMore s;
            initialLoad := initialLoad s |},
         [CallFetch (lastDoc s) (limit P)])
    end.

Definition handleEndReached (P : Props) (s : State) : State * list Call :=
  if negb (loading s) && hasMore s then fetchMoreData P s else (s, []).

(** The state a call of [fetchMoreData] that passed its guard leaves
    while it waits for the store. *)
Definition fetching (s : State) : State := {|
  data := data s;
  loading := true;
  refreshing := refreshing s;
  error := None;
  lastDoc := lastDoc s;
  hasMore := hasMore s;
  initialLoad := initialLoad s
|}.

(** [fetchMoreData] as the closure it is.  It reads [hasMore], [loading],
    [lastDoc] and [data] as the render [seen] that created it saw them;
    its setters, which are all given values, act on the state [cur] that
    React holds when the answer comes. *)
Definition fetchMoreDataFrom (P : Props) (seen cur : State) : State * list Call :=
  if negb (hasMore seen) || loading seen then (cur, [])
  else
    match fetch P (lastDoc seen) (limit P) with
    | Ok docs =>
        ({| data := data seen ++ docs;
            loading := false;
            refreshing := refreshing cur;
            error := None;
            lastDoc := last docs;
            hasMore := (length docs =? limit P)%nat;
            initialLoad := initialLoad cur |},
         [CallFetch (lastDoc seen) (limit P)])
    | Err msg =>
        ({| data := data cur;
            loading := false;
            refreshing := refreshing cur;
            error := Some msg;
            lastDoc := lastDoc cur;
            hasMore := hasMore cur;
            initialLoad := initialLoad cur |},
         [CallFetch (lastDoc seen) (limit P)])
    end.

Definition handleEndReachedFrom (P : Props) (seen cur : State) : State * list Call :=
  if negb (loading seen) && hasMore seen then fetchMoreDataFrom P seen cur else (cur, []).

(** [handleRefresh]: the list is emptied, then loaded anew. *)
Definition handleRefresh (P : Props) (s : State) : State * list Call :=
  fetchInitialData P
    {| data := [];
       loading := loading s;
       refreshing := true;
       error := error s;
       lastDoc := None;
       hasMore := true;
       initialLoad := initialLoad s |}.

(** What the user and the list can trigger: the load on mount and the
    "Tap to retry" text ([fetchInitialData]), the end of the list, the
    pull to refresh. *)
Inductive Handler : Type :=
| OnLoad
| OnEndReached
| OnRefresh.

Definition handle (P : Props) (s : State) (h : Handler) : State :=
  match h with
  | OnLoad => fst (fetchInitialData P s)
  | OnEndReached => fst (handleEndReached P s)
  | OnRefresh => fst (handleRefresh P s)
  end.

Definition handleAll (P : Props) (s : State) (hs : list Handler) : State :=
  fold_left (handle P) hs s.

End PaginatedFlatList.

(** ** The like button of the post card: [src/components/PostCard.js] *)

Module PostCard.
Import JS Firestore.

(** The two [useState] cells the handler writes. *)
Record State : Type := {
  isLiked : bool;
  likeCount : Z
}.

(** The cells once the card is mounted for [post] and the effect on
    [post.likes] has run. *)
Definition mountedFor (post : Doc) (uid : string) : State := {|
  isLiked := includes (default [] (doc_likes post)) uid;
  likeCount := default 0%Z (doc_likeCount post)
|}.

(** How the transaction ends: it commits, the read throws, or the body
    runs and the commit is refused. *)
Inductive TxFault : Type := TxCommits | TxReadFails | TxCommitFails.

Record Outcome : Type := {
  store : gmap string Doc;
  card : State;
  alerts : list string
}.

Definition removeLike (u : string) (d : Doc) : Doc := {|
  doc_id := doc_id d;
  doc_userId := doc_userId d;
  doc_timestamp := doc_timestamp d;
  doc_likes := Some (arrayRemove u (doc_likes d));
  doc_likeCount := Some (increment (-1) (doc_likeCount d));
  doc_commentCount := doc_commentCount d
|}.

Definition addLike (u : string) (d : Doc) : Doc := {|
  doc_id := doc_id d;
  doc_userId := doc_userId d;
  doc_timestamp := doc_timestamp d;
  doc_likes := Some (arrayUnion u (doc_likes d));
  doc_likeCount := Some (increment 1 (doc_likeCount d));
  doc_commentCount := doc_commentCount d
|}.

(** [handleLikeToggle]: the setters are called inside the transaction
    body, after [transaction.update] and before the commit; the [catch]
    block logs and alerts. *)
Definition handleLikeToggle (fault : TxFault) (currentUser : option string)
    (postId : string) (posts : gmap string Doc) (s : State) : Outcome :=
  match currentUser with
  | None => {| store := posts; card := s; alerts := ["Error"] |}
  | Some uid =>
      match fault with
      | TxReadFails => {| store := posts; card := s; alerts := ["Error"] |}
      | _ =>
          match posts !! postId with
          | None => {| store := posts; card := s; alerts := ["Error"] |}
          | Some postData =>
              let userLiked := includes (default [] (doc_likes postData)) uid in
              let written := if userLiked then removeLike uid postData
                             else addLike uid postData in
              let s' := if userLiked
                        then {| isLiked := false; likeCount := (likeCount s - 1)%Z |}
                        else {| isLiked := true; likeCount := (likeCount s + 1)%Z |} in
              match fault with
              | TxCommitFails => {| store := posts; card := s'; alerts := ["Error"] |}
              | _ => {| store := <[postId := written]> posts; card := s'; alerts := [] |}
              end
          end
      end
  end.

(** Which awaited call of the delete handler throws, if any. *)
Inductive CardDeleteFault : Type :=
| CardDeleteOk
| CardPostDeleteFails
| CardCommentsQueryFails
| CardBatchCommitFails.

(** [handleDeletePost], once the user has confirmed: the post is deleted
    first, then its comments are read and deleted in a batch. *)
Definition handleDeletePost (fault : CardDeleteFault) (currentUser : option string)
    (postId : string) (S : PostsSlice.ContentStore)
    : PostsSlice.ContentStore * list string :=
  match currentUser with
  | None => (S, ["Error"])
  | Some _ =>
      match fault with
      | CardPostDeleteFails => (S, ["Error"])
      | CardCommentsQueryFails | CardBatchCommitFails =>
          (PostsSlice.withoutPost S postId, ["Error"])
      | CardDeleteOk =>
          (PostsSlice.withoutCommentsOf (PostsSlice.withoutPost S postId) postId,
           ["Success"])
      end
  end.

End PostCard.

(** ** The array-based notifications slice:
       [src/redux/slices/notificationsSlice.js] *)

Module NotificationsSlice.

(** A notification: its id and its [read] flag; a missing flag reads as
    [false] in [!n.read]. *)
Record Notification : Type := {
  n_id : string;
  n_read : bool
}.

Inductive Status : Type := Idle | Loading | Succeeded | Failed.

Record State : Type := {
  notifications : list Notification;
  unreadCount : Z;
  status : Status;
  error : option string;
  lastFetchedAt : option string
}.

Definition initialState : State := {|
  notifications := [];
  unreadCount := 0;
  status := Idle;
  error := None;
  lastFetchedAt := None
|}.

Inductive Action : Type :=
| AddNotification (n : Notification)
| ResetNotifications
| FetchNotificationsPending
| FetchNotificationsFulfilled (payload : list Notification) (currentDate : string)
| MarkAsReadFulfilled (notificationIds : list string).

(** [list.filter(n => !n.read).length] *)
Definition unread (l : list Notification) : Z :=
  Z.of_nat (length (List.filter (fun n => negb (n_read n)) l)).

(** [list.some(n => n.id === i)] *)
Definition hasId (l : list Notification) (i : string) : bool :=
  existsb (fun n => String.eqb (n_id n) i) l.

Definition markRead (notificationIds : list string) (n : Notification) : Notification :=
  if JS.includes notificationIds (n_id n)
  then {| n_id := n_id n; n_read := true |}
  else n.

Definition reducer (s : State) (a : Action) : State :=
  match a with
  | AddNotification n =>
      let l := n :: notifications s in
      {| notifications := l;
         unreadCount := unread l;
         status := status s; error := error s; lastFetchedAt := lastFetchedAt s |}
  | ResetNotifications =>
      {| notifications := [];
         unreadCount := 0;
         status := Idle; error := None; lastFetchedAt := None |}
  | FetchNotificationsPending =>
      {| notifications := notifications s;
         unreadCount := unreadCount s;
         status := Loading; error := error s; lastFetchedAt := lastFetchedAt s |}
  | FetchNotificationsFulfilled payload currentDate =>
      let newNotifications :=
        List.filter (fun n => negb (hasId (notifications s) (n_id n))) payload in
      {| notifications := notifications s ++ newNotifications;
         unreadCount := (unreadCount s + unread newNotifications)%Z;
         status := Succeeded; error := error s; lastFetchedAt := Some currentDate |}
  | MarkAsReadFulfilled notificationIds =>
      let l := map (markRead notificationIds) (notifications s) in
      {| notifications := l;
         unreadCount := unread l;
         status := status s; error := error s; lastFetchedAt := lastFetchedAt s |}
  end.

Definition run (s : State) (acts : list Action) : State := fold_left reducer acts s.

Definition ids (s : State) : list string := map n_id (notifications s).

(** *** markAllAsRead *)

Definition BATCH_SIZE : nat := 50.

(** [for (let i = 0; i < unreadIds.length; i += BATCH_SIZE)
      batches.push(... unreadIds.slice(i, i + BATCH_SIZE))]:
    the loop runs for [i = 0, 50, 100, ...] below the length. *)
Definition batches (unreadIds : list string) : list (list string) :=
  map (fun k => take BATCH_SIZE (drop (k * BATCH_SIZE) unreadIds))
    (seq 0 ((length unreadIds + (BATCH_SIZE - 1)) / BATCH_SIZE)).

Definition unreadIdsOf (l : list Notification) : list string :=
  map n_id (List.filter (fun n => negb (n_read n)) l).

Inductive MarkAllOutcome : Type :=
| MarkedAll (notificationIds : option (list string)) (count : nat)
| MarkAllFailed.

(** The thunk: every batch is handed to the service before any answer is
    awaited; one refusal fails the whole.  It returns the calls made and
    the outcome. *)
Definition markAllAsRead (service : list string -> bool) (s : State)
    : list (list string) * MarkAllOutcome :=
  let unreadIds := unreadIdsOf (notifications s) in
  if (length unreadIds =? 0)%nat then ([], MarkedAll None 0)
  else
    let calls := batches unreadIds in
    if forallb service calls
    then (calls, MarkedAll (Some unreadIds) (length unreadIds))
    else (calls, MarkAllFailed).

End NotificationsSlice.

(** ** The Map-based notifications slice (second file named
       [src/redux/slices/notificationsSlice.js]) *)

Module NotificationsMapSlice.
Import JS.

Record Notification : Type := {
  n_id : string;
  n_read : bool
}.

(** What [state.notifications] holds: the object literal of the initial
    state, or the [Map] that [resetNotifications] stores.

    [createSlice] runs every case reducer on an Immer draft of the state.
    Reading [state.notifications] there gives a draft of the value.  A
    plain object is drafted as it is: it has no [set], [has], [get] or
    [delete] method, and calling one throws a [TypeError].  A [Map] is
    drafted only by Immer's MapSet plugin, which no file of the sources
    enables ([enableMapSet]): without it the read of [state.notifications]
    throws.  An assignment to [state.notifications] reads nothing. *)
Inductive Container : Type :=
| PlainObject (props : gmap string Notification)
| MapObject (entries : gmap string Notification).

Inductive Status : Type := Idle | Loading | Succeeded | Failed.

Record State : Type := {
  notifications : Container;
  unreadCount : Z;
  status : Status;
  error : option string;
  lastFetchedAt : option string
}.

Definition initialState : State := {|
  notifications := PlainObject ∅;
  unreadCount := 0;
  status := Idle;
  error := None;
  lastFetchedAt := None
|}.

Inductive Action : Type :=
| AddNotification (n : Notification)
| ResetNotifications
| UpdateBadgeCount
| FetchNotificationsPending
| FetchNotificationsFulfilled (payload : list Notification) (currentDate : string)
| FetchNotificationsRejected (msg : string)
| MarkAsReadFulfilled (notificationIds : list string)
| MarkAllAsReadFulfilled (notificationIds : option (list string))
| DeleteNotificationFulfilled (notificationId : string)
| CreateNotificationFulfilled (n : Notification).

Definition notAFunction (method : string) : string :=
  String.append "TypeError: state.notifications."
    (String.append method " is not a function").

(** The error Immer throws when it is asked to draft a [Map] without
    the plugin, named by the start of its message. *)
Definition immerNoMapSet : string :=
  "[Immer] The plugin for 'MapSet' has not been loaded into Immer".

(** [state.notifications], read inside a case reducer: the properties of
    the plain object, or the error of Immer. *)
Definition readNotifications (c : Container) : Result (gmap string Notification) :=
  match c with
  | PlainObject props => Ok props
  | MapObject _ => Err immerNoMapSet
  end.

(** [state.notifications.m(...)] for a method [m] of [Map]: the read
    throws on a [Map], the call throws on a plain object. *)
Definition callMethod (c : Container) (method : string) : string :=
  match readNotifications c with
  | Ok _ => notAFunction method
  | Err e => e
  end.

(** [Object.values(state.notifications)] *)
Definition objectValues (c : Container) : Result (list Notification) :=
  match readNotifications c with
  | Ok props => Ok (map_to_list props).*2
  | Err e => Err e
  end.

Definition unread (l : list Notification) : Z :=
  Z.of_nat (length (List.filter (fun n => negb (n_read n)) l)).

(** [payload.forEach(n => state.notifications.set(n.id, n))]: the first
    call of [set] throws. *)
Definition setAll (c : Container) (l : list Notification) : Result Container :=
  match l with
  | [] => Ok c
  | _ :: _ => Err (callMethod c "set")
  end.

(** [ids.forEach(id => { if (has(id)) set(id, { ...get(id), read: true }) })]:
    the first call of [has] throws. *)
Definition readAll (c : Container) (l : list string) : Result Container :=
  match l with
  | [] => Ok c
  | _ :: _ => Err (callMethod c "has")
  end.

(** [ids.forEach(id => { if (state.notifications[id])
      state.notifications[id] = { ...state.notifications[id], read: true } })]:
    property access on what [state.notifications] reads as.  An id is
    taken not to name a property of [Object.prototype]. *)
Definition readProps (c : Container) (l : list string) : Result Container :=
  match l with
  | [] => Ok c
  | _ :: _ =>
      match readNotifications c with
      | Err e => Err e
      | Ok props =>
          Ok (PlainObject
                (fold_left
                   (fun m i =>
                      match m !! i with
                      | Some n => <[i := {| n_id := n_id n; n_read := true |}]> m
                      | None => m
                      end) l props))
      end
  end.

(** A reducer that throws leaves the store as it was: the error reaches
    the caller of [dispatch]. *)
Definition reducer (s : State) (a : Action) : Result State :=
  match a with
  | AddNotification n | CreateNotificationFulfilled n =>
      Err (callMethod (notifications s) "set")
  | ResetNotifications =>
      Ok {| notifications := MapObject ∅;
            unreadCount := 0;
            status := Idle; error := error s;
            lastFetchedAt := None |}
  | UpdateBadgeCount => Ok s
  | FetchNotificationsPending =>
      Ok {| notifications := notifications s;
            unreadCount := unreadCount s;
            status := Loading; error := error s;
            lastFetchedAt := lastFetchedAt s |}
  | FetchNotificationsFulfilled payload currentDate =>
      match setAll (notifications s) payload with
      | Err e => Err e
      | Ok c =>
          match objectValues c with
          | Err e => Err e
          | Ok values =>
              Ok {| notifications := c;
                    unreadCount := unread values;
                    status := Succeeded; error := error s;
                    lastFetchedAt := Some currentDate |}
          end
      end
  | FetchNotificationsRejected msg =>
      Ok {| notifications := notifications s;
            unreadCount := unreadCount s;
            status := Failed; error := Some msg;
            lastFetchedAt := lastFetchedAt s |}
  | MarkAsReadFulfilled notificationIds =>
      match readAll (notifications s) notificationIds with
      | Err e => Err e
      | Ok c =>
          match objectValues c with
          | Err e => Err e
          | Ok values =>
              Ok {| notifications := c;
                    unreadCount := unread values;
                    status := status s; error := error s;
                    lastFetchedAt := lastFetchedAt s |}
          end
      end
  | MarkAllAsReadFulfilled None =>
      Err "TypeError: Cannot read properties of undefined (reading 'forEach')"
  | MarkAllAsReadFulfilled (Some notificationIds) =>
      match readProps (notifications s) notificationIds with
      | Err e => Err e
      | Ok c =>
          Ok {| notifications := c;
                unreadCount := 0;
                status := status s; error := error s;
                lastFetchedAt := lastFetchedAt s |}
      end
  | DeleteNotificationFulfilled notificationId =>
      Err (callMethod (notifications s) "has")
  end.

(** [store.dispatch(action)]: the state the store holds afterwards. *)
Definition dispatch (s : State) (a : Action) : State :=
  match reducer s a with
  | Ok s' => s'
  | Err _ => s
  end.

Definition run (s : State) (acts : list Action) : State := fold_left dispatch acts s.

(** The notification stored under [k], whatever the container. *)
Definition stored (s : State) (k : string) : option Notification :=
  match notifications s with
  | PlainObject props => props !! k
  | MapObject m => m !! k
  end.

(** The state holds an object or a [Map] without entries, and a counter
    at zero. *)
Definition holdsNothing (s : State) : Prop :=
  (notifications s = PlainObject ∅ \/ notifications s = MapObject ∅) /\
  unreadCount s = 0%Z.

(** The actions whose reducer does not read [state.notifications]. *)
Definition readsNothing (a : Action) : bool :=
  match a with
  | ResetNotifications | UpdateBadgeCount | FetchNotificationsPending
  | FetchNotificationsRejected _ | MarkAllAsReadFulfilled (Some []) => true
  | _ => false
  end.

End NotificationsMapSlice.

(** ** Concrete stores and environments *)

Module Scenario.
Import JS Firestore.

Definition mkDoc (i author : string) (t : Z) : Doc := {|
  doc_id := i;
  doc_userId := author;
  doc_timestamp := Some t;
  doc_likes := Some [];
  doc_likeCount := Some 0%Z;
  doc_commentCount := Some 0%Z
|}.

(** Two decimal digits. *)
Definition digits (n : nat) : string :=
  String (Ascii.ascii_of_nat (48 + n / 10))
    (String (Ascii.ascii_of_nat (48 + n mod 10)) EmptyString).

Definition named (prefix : string) (n : nat) : string :=
  String.append prefix (digits n).

(** The scenario of the specification: the viewer follows [alice] and
    [bob]; the store holds the three posts of the scenario and a fourth,
    older one. *)
Definition post1 : Doc := mkDoc "post1" "alice" 5.
Definition post2 : Doc := mkDoc "post2" "bob" 3.
Definition post3 : Doc := mkDoc "post3" "alice" 1.
Definition post4 : Doc := mkDoc "post4" "bob" 0.

Definition smallStore : list Doc := [post1; post2; post3; post4].

Definition follows : list string := ["alice"; "bob"].

Definition day : Z := 86400000.

Definition sliceRemote : PostsSlice.Remote := {|
  PostsSlice.connections := fun _ => Ok follows;
  PostsSlice.runQuery := fun q => Ok (answer smallStore q)
|}.

(** The feed screen, online, with an empty cache. *)
Definition online : FeedScreen.Env := {|
  FeedScreen.user := Some "viewer";
  FeedScreen.blockedUsers := [];
  FeedScreen.isConnected := true;
  FeedScreen.internetReachable := true;
  FeedScreen.isMounted := true;
  FeedScreen.now := 10 * day;
  FeedScreen.storage := {| FeedScreen.cachedFeedPosts := None;
                           FeedScreen.cachedFeedTimestamp := None |};
  FeedScreen.connections := fun _ => Ok (map Some follows);
  FeedScreen.runQuery := fun q => Ok (answer smallStore q)
|}.

(** A snapshot cached one hour ago. *)
Definition freshCache : FeedScreen.Storage := {|
  FeedScreen.cachedFeedPosts := Some [post1; post2];
  FeedScreen.cachedFeedTimestamp := Some (10 * day - 3600000)%Z
|}.

(** The device is offline and the cache is fresh. *)
Definition offline : FeedScreen.Env := {|
  FeedScreen.user := Some "viewer";
  FeedScreen.blockedUsers := [];
  FeedScreen.isConnected := false;
  FeedScreen.internetReachable := false;
  FeedScreen.isMounted := true;
  FeedScreen.now := 10 * day;
  FeedScreen.storage := freshCache;
  FeedScreen.connections := fun _ => Err "unavailable";
  FeedScreen.runQuery := fun _ => Err "unavailable"
|}.

(** The device is connected, the cache is fresh and the store throws. *)
Definition failing : FeedScreen.Env := {|
  FeedScreen.user := Some "viewer";
  FeedScreen.blockedUsers := [];
  FeedScreen.isConnected := true;
  FeedScreen.internetReachable := true;
  FeedScreen.isMounted := true;
  FeedScreen.now := 10 * day;
  FeedScreen.storage := freshCache;
  FeedScreen.connections := fun _ => Ok (map Some follows);
  FeedScreen.runQuery := fun _ => Err "deadline-exceeded"
|}.

Definition listProps : PaginatedFlatList.Props := {|
  PaginatedFlatList.limit := 2;
  PaginatedFlatList.fetch := fun cursor n =>
    Ok (answer smallStore {| q_filter := NoFilter; q_startAfter := cursor; q_limit := n |})
|}.

(** A list whose second page starts with the last post of the first, as
    in the scenario of the specification. *)
Definition overlappingProps : PaginatedFlatList.Props := {|
  PaginatedFlatList.limit := 2;
  PaginatedFlatList.fetch := fun cursor _ =>
    match cursor with
    | None => Ok [post1; post2]
    | Some _ => Ok [post2; post3]
    end
|}.

(** A viewer who follows 25 users. *)
Definition manyFollows : list string := map (named "u") (seq 0 25).

(** Forty posts, newest first.  Of the thirty newest, four are by
    followed users (numbers 3, 17, 28 and 29); the ten oldest are all by
    a followed user. *)
Definition busyAuthor (i : nat) : string :=
  if (i =? 3)%nat || (i =? 17)%nat then "u03"
  else if (i <? 28)%nat then "stranger" else "u05".

Definition busyStore : list Doc :=
  map (fun i => mkDoc (named "p" i) (busyAuthor i) (Z.of_nat (100 - i))) (seq 0 40).

Definition busyRemote : PostsSlice.Remote := {|
  PostsSlice.connections := fun _ => Ok manyFollows;
  PostsSlice.runQuery := fun q => Ok (answer busyStore q)
|}.

(** A post by [bob] that nobody likes yet, in the store and in the feed. *)
Definition bobsPost : Doc := mkDoc "p1" "bob" 7.

Definition freshBackend : PostsSlice.Backend := {|
  PostsSlice.posts_coll := {["p1" := bobsPost]};
  PostsSlice.notifications_coll := []
|}.

Definition feedOf (d : Doc) : PostsSlice.State :=
  PostsSlice.reducer PostsSlice.initialState
    (PostsSlice.FetchFeedPostsFulfilled
       {| PostsSlice.fp_posts := [PostsSlice.postOfDoc 0 d];
          PostsSlice.fp_lastDoc := Some d;
          PostsSlice.fp_hasMore := false |}).

(** The same post once [alice] has liked it. *)
Definition likedPost : Doc := {|
  doc_id := "p1";
  doc_userId := "bob";
  doc_timestamp := Some 7%Z;
  doc_likes := Some ["alice"];
  doc_likeCount := Some 1%Z;
  doc_commentCount := Some 0%Z
|}.

Definition likedBackend : PostsSlice.Backend := {|
  PostsSlice.posts_coll := {["p1" := likedPost]};
  PostsSlice.notifications_coll := []
|}.

(** Twelve posts by the viewer: more than a page of the feed screen. *)
Definition ownStore : list Doc :=
  map (fun i => mkDoc (named "q" i) "viewer" (Z.of_nat (50 - i))) (seq 0 12).

Definition busyScreen : FeedScreen.Env := {|
  FeedScreen.user := Some "viewer";
  FeedScreen.blockedUsers := [];
  FeedScreen.isConnected := true;
  FeedScreen.internetReachable := true;
  FeedScreen.isMounted := true;
  FeedScreen.now := 10 * day;
  FeedScreen.storage := {| FeedScreen.cachedFeedPosts := None;
                           FeedScreen.cachedFeedTimestamp := None |};
  FeedScreen.connections := fun _ => Ok [];
  FeedScreen.runQuery := fun q => Ok (answer ownStore q)
|}.

End Scenario.

(** * Properties *)

(** ** Lists *)

Lemma includes_In (xs : list string) (x : string) :
  JS.includes xs x = true <-> In x xs.
Proof.
  unfold JS.includes. rewrite existsb_exists. split.
  - intros [y [Hy Heq]]. apply String.eqb_eq in Heq. now subst.
  - intros H. exists x. split; [assumption | apply String.eqb_refl].
Qed.

Lemma includes_not_In (xs : list string) (x : string) :
  JS.includes xs x = false <-> ~ In x xs.
Proof.
  rewrite <- includes_In. destruct (JS.includes xs x); split; congruence.
Qed.

(** ** C1: ids repeat in the feed *)

(** The [Set] of ids holds no id twice, and none of the ids seen before. *)
Lemma setFrom_spec (xs seen : list string) :
  NoDup (JS.setFrom seen xs) /\
  (forall x, In x (JS.setFrom seen xs) <-> In x xs /\ ~ In x seen).
Proof.
  revert seen. induction xs as [|x rest IH]; intros seen; simpl.
  - split; [constructor | tauto].
  - destruct (JS.includes seen x) eqn:Hseen.
    + destruct (IH seen) as [Hnd Hin]. split; [exact Hnd |].
      intros y. rewrite Hin. apply includes_In in Hseen.
      split; [tauto |]. intros [[-> | Hy] Hn]; tauto.
    + destruct (IH (x :: seen)) as [Hnd Hin]. apply includes_not_In in Hseen.
      split.
      * apply NoDup_cons_2; [| exact Hnd].
        rewrite list_elem_of_In. intros Hx. apply Hin in Hx. simpl in Hx. tauto.
      * intros y. simpl. rewrite Hin. simpl.
        destruct (String.string_dec x y) as [-> | Hne]; tauto.
Qed.

Lemma find_by_id (l : list Firestore.Doc) (i : string) :
  In i (map Firestore.doc_id l) ->
  exists d, List.find (fun p => String.eqb (Firestore.doc_id p) i) l = Some d
            /\ Firestore.doc_id d = i.
Proof.
  induction l as [|d l IH]; simpl; [tauto |].
  intros H. destruct (String.eqb (Firestore.doc_id d) i) eqn:E.
  - exists d. split; [reflexivity | now apply String.eqb_eq].
  - destruct H as [H | H]; [subst; rewrite String.eqb_refl in E; discriminate |].
    now apply IH.
Qed.

(** The second [setPosts] does what its name says: its result holds each
    id of its argument once. *)
Lemma uniquePosts_ids (l : list Firestore.Doc) :
  map Firestore.doc_id (FeedScreen.uniquePosts l) = JS.arrayFromSet (map Firestore.doc_id l).
Proof.
  unfold FeedScreen.uniquePosts, JS.arrayFromSet.
  assert (H : forall i, In i (JS.setFrom [] (map Firestore.doc_id l)) ->
                        In i (map Firestore.doc_id l)).
  { intros i Hi. now apply (setFrom_spec (map Firestore.doc_id l) []) in Hi. }
  revert H. generalize (JS.setFrom [] (map Firestore.doc_id l)) as idSet.
  induction idSet as [|i idSet IH]; intros H; simpl; [reflexivity |].
  destruct (find_by_id l i) as [d [Hf Hd]]; [apply H; now left |].
  rewrite Hf. simpl. rewrite Hd. f_equal. apply IH. intros j Hj. apply H. now right.
Qed.

Lemma uniquePosts_NoDup (l : list Firestore.Doc) :
  NoDup (map Firestore.doc_id (FeedScreen.uniquePosts l)).
Proof. rewrite uniquePosts_ids. apply setFrom_spec. Qed.

(** Whatever the page, the third [setPosts] appends it once more. *)
Lemma updatePosts_appends_page_again (reset : bool) (prev page : list Firestore.Doc) :
  exists deduped,
    NoDup (map Firestore.doc_id deduped) /\
    (forall d, In d page -> In (Firestore.doc_id d) (map Firestore.doc_id deduped)) /\
    FeedScreen.updatePosts reset prev page = deduped ++ page.
Proof.
  unfold FeedScreen.updatePosts.
  eexists. split; [apply uniquePosts_NoDup |]. split; [| reflexivity].
  intros d Hd. rewrite uniquePosts_ids.
  apply (setFrom_spec _ []). split; [| simpl; tauto].
  apply in_map. apply in_or_app. now right.
Qed.

(** C1.  The claim says that after an initial load and any number of
    load-more calls the feed holds each post id once.  On the code it fails
    at the first load already: [loadFeed] of the feed screen removes the
    duplicates in its second [setPosts] and appends the fetched page again
    in its third, so that the four posts of the first page are each held
    twice.  The feed of the posts slice and the data of the paginated list
    append a page as it comes: with the pages of the specification's
    scenario, which share [post2], the id is held twice. *)
Theorem C1_feed_repeats_ids :
  map Firestore.doc_id
    (FeedScreen.posts (fst (FeedScreen.loadFeed Scenario.online true false
                              FeedScreen.initialState)))
    = ["post1"; "post2"; "post3"; "post4"; "post1"; "post2"; "post3"; "post4"]
  /\ ~ NoDup (map Firestore.doc_id
                (FeedScreen.posts (fst (FeedScreen.loadFeed Scenario.online true false
                                          FeedScreen.initialState))))
  /\ PostsSlice.ids
       (PostsSlice.feed
          (fold_left PostsSlice.reducer
             [PostsSlice.FetchFeedPostsFulfilled
                {| PostsSlice.fp_posts := map (PostsSlice.postOfDoc 0)
                                            [Scenario.post1; Scenario.post2];
                   PostsSlice.fp_lastDoc := Some Scenario.post2;
                   PostsSlice.fp_hasMore := true |};
              PostsSlice.FetchFeedPostsFulfilled
                {| PostsSlice.fp_posts := map (PostsSlice.postOfDoc 0)
                                            [Scenario.post2; Scenario.post3];
                   PostsSlice.fp_lastDoc := Some Scenario.post3;
                   PostsSlice.fp_hasMore := true |}]
             PostsSlice.initialState))
    = ["post1"; "post2"; "post2"; "post3"]
  /\ map Firestore.doc_id
       (PaginatedFlatList.data
          (fst (PaginatedFlatList.fetchMoreData Scenario.overlappingProps
                  (fst (PaginatedFlatList.fetchInitialData Scenario.overlappingProps
                          PaginatedFlatList.initialState)))))
    = ["post1"; "post2"; "post2"; "post3"].
Proof.
  split; [reflexivity |]. split; [| split; reflexivity].
  intros H.
  change (NoDup (["post1"; "post2"; "post3"; "post4";
                  "post1"; "post2"; "post3"; "post4"] : list string)) in H.
  apply NoDup_cons_1_1 in H. apply H. set_solver.
Qed.

(** ** C2: the order of the feed *)

Section Order.
Import PostsSlice.

Lemma leb_trans (a b c : string) :
  String.leb a b = true -> String.leb b c = true -> String.leb a c = true.
Proof.
  unfold String.leb. intros Hab Hbc.
  destruct (String.compare a b) eqn:Eab; [| | discriminate Hab].
  - apply OrderedTypeEx.String_as_OT.cmp_eq in Eab. now subst.
  - destruct (String.compare b c) eqn:Ebc; [| | discriminate Hbc].
    + apply OrderedTypeEx.String_as_OT.cmp_eq in Ebc. subst. now rewrite Eab.
    + apply OrderedTypeEx.String_as_OT.cmp_lt in Eab, Ebc.
      pose proof (OrderedTypeEx.String_as_OT.lt_trans _ _ _ Eab Ebc) as Hac.
      apply OrderedTypeEx.String_as_OT.cmp_lt in Hac.
      unfold OrderedTypeEx.String_as_OT.cmp in Hac. now rewrite Hac.
Qed.

(** The order of the feed is transitive. *)
Lemma keyGeb_trans (p q r : Post) :
  keyGeb p q = true -> keyGeb q r = true -> keyGeb p r = true.
Proof.
  unfold keyGeb. intros Hpq Hqr.
  apply orb_true_iff in Hpq, Hqr. apply orb_true_iff.
  destruct Hpq as [Hpq | Hpq]; destruct Hqr as [Hqr | Hqr];
    rewrite ?andb_true_iff in *; rewrite ?Z.ltb_lt, ?Z.eqb_eq in *.
  - left. lia.
  - left. lia.
  - left. lia.
  - right. destruct Hpq as [Hpq Hl1]. destruct Hqr as [Hqr Hl2].
    split; [lia | now apply (leb_trans _ (post_id q))].
Qed.

Lemma feedSorted_map (f : Post -> Post) (l : list Post) :
  (forall p q, keyGeb (f p) (f q) = keyGeb p q) ->
  feedSorted l -> feedSorted (map f l).
Proof.
  intros Hkey. unfold feedSorted. induction 1 as [|p l Hl IH Hp]; simpl.
  - constructor.
  - constructor; [exact IH |].
    rewrite Forall_map. eapply List.Forall_impl; [| exact Hp].
    intros q Hq. simpl. now rewrite Hkey.
Qed.

Lemma feedSorted_filter (g : Post -> bool) (l : list Post) :
  feedSorted l -> feedSorted (List.filter g l).
Proof.
  unfold feedSorted. induction 1 as [|p l Hl IH Hp]; simpl.
  - constructor.
  - destruct (g p); [| exact IH].
    constructor; [exact IH |].
    rewrite List.Forall_forall in *. intros q Hq.
    apply Hp. now apply List.filter_In in Hq.
Qed.

Lemma feedSorted_app (l1 l2 : list Post) :
  feedSorted l1 -> feedSorted l2 ->
  (forall x y, In x l1 -> In y l2 -> keyGeb x y = true) ->
  feedSorted (l1 ++ l2).
Proof.
  unfold feedSorted. intros H1 H2 Hx. induction H1 as [|p l Hl IH Hp]; simpl.
  - exact H2.
  - constructor.
    + apply IH. intros x y Hin. apply Hx. now right.
    + rewrite List.Forall_forall in *. intros q Hq.
      apply in_app_or in Hq as [Hq | Hq]; [now apply Hp |].
      apply Hx; [now left | exact Hq].
Qed.

Lemma feedSorted_app_inv (l1 l2 : list Post) :
  feedSorted (l1 ++ l2) ->
  feedSorted l1 /\ feedSorted l2 /\
  (forall x y, In x l1 -> In y l2 -> keyGeb x y = true).
Proof.
  unfold feedSorted. induction l1 as [|p l1 IH]; simpl; intros H.
  - split; [constructor |]. split; [exact H |]. intros x y [].
  - apply StronglySorted_inv in H as [H Hp].
    destruct (IH H) as [H1 [H2 Hx]].
    rewrite List.Forall_forall in Hp.
    split; [| split; [exact H2 |]].
    + constructor; [exact H1 |]. rewrite List.Forall_forall.
      intros q Hq. apply Hp, in_or_app. now left.
    + intros x y [<- | Hin] Hy; [| now apply Hx].
      apply Hp, in_or_app. now right.
Qed.

(** In a sorted list every post stands before the last one, and after
    the first one. *)
Lemma sorted_before_last (l : list Post) (z : Post) :
  feedSorted l -> last l = Some z ->
  forall x, In x l -> x = z \/ keyGeb x z = true.
Proof.
  unfold feedSorted. induction 1 as [|p l Hl IH Hp]; intros Hz x Hx; [destruct Hx |].
  destruct l as [|q l].
  - simpl in Hz, Hx. injection Hz as <-. destruct Hx as [-> | []]. now left.
  - assert (Hz' : last (q :: l) = Some z) by exact Hz.
    assert (Hin : In z (q :: l)).
    { apply list_elem_of_In, list_elem_of_lookup. exists (length l).
      rewrite last_lookup in Hz'. exact Hz'. }
    destruct Hx as [<- | Hx]; [| now apply IH].
    right. rewrite List.Forall_forall in Hp. now apply Hp.
Qed.

Lemma sorted_after_head (l : list Post) (y : Post) :
  feedSorted l -> head l = Some y ->
  forall x, In x l -> x = y \/ keyGeb y x = true.
Proof.
  unfold feedSorted. intros Hl Hy x Hx. destruct l as [|p l]; [destruct Hx |].
  simpl in Hy. injection Hy as ->. destruct Hx as [-> | Hx]; [now left |].
  right. apply StronglySorted_inv in Hl as [_ Hp].
  rewrite List.Forall_forall in Hp. now apply Hp.
Qed.

(** Two sorted lists whose ends meet in order make a sorted list. *)
Lemma feedSorted_glue (l1 l2 : list Post) :
  feedSorted l1 -> feedSorted l2 ->
  (forall x y, last l1 = Some x -> head l2 = Some y -> keyGeb x y = true) ->
  feedSorted (l1 ++ l2).
Proof.
  intros H1 H2 Hends. apply feedSorted_app; [exact H1 | exact H2 |].
  intros x y Hx Hy.
  destruct (last l1) as [z|] eqn:Hz;
    [| apply last_None in Hz; subst; destruct Hx].
  destruct (head l2) as [h|] eqn:Hh;
    [| apply head_None in Hh; subst; destruct Hy].
  specialize (Hends z h eq_refl eq_refl).
  destruct (sorted_before_last l1 z H1 Hz x Hx) as [-> | Hxz];
    destruct (sorted_after_head l2 h H2 Hh y Hy) as [-> | Hhy].
  - exact Hends.
  - now apply (keyGeb_trans _ h).
  - now apply (keyGeb_trans _ z).
  - apply (keyGeb_trans _ z); [exact Hxz |]. now apply (keyGeb_trans _ h).
Qed.

Lemma updatePostLike_key (lp : LikePayload) (p q : Post) :
  keyGeb (updatePostLike lp p) (updatePostLike lp q) = keyGeb p q.
Proof.
  unfold updatePostLike, keyGeb.
  destruct (negb (String.eqb (post_id p) (lp_postId lp)));
    destruct (negb (String.eqb (post_id q) (lp_postId lp))); reflexivity.
Qed.

Lemma incrementCommentCount_key (i : string) (p q : Post) :
  keyGeb (incrementCommentCount i p) (incrementCommentCount i q) = keyGeb p q.
Proof.
  unfold incrementCommentCount, keyGeb.
  destruct (negb (String.eqb (post_id p) i));
    destruct (negb (String.eqb (post_id q) i)); reflexivity.
Qed.

Lemma decrementCommentCount_key (i : string) (p q : Post) :
  keyGeb (decrementCommentCount i p) (decrementCommentCount i q) = keyGeb p q.
Proof.
  unfold decrementCommentCount, keyGeb.
  destruct (negb (String.eqb (post_id p) i));
    destruct (negb (String.eqb (post_id q) i)); reflexivity.
Qed.

Lemma updatePostFields_key (i : string) (u : PostUpdates) (p q : Post) :
  upd_id u = None -> upd_timestamp u = None ->
  keyGeb (updatePostFields i u p) (updatePostFields i u q) = keyGeb p q.
Proof.
  intros Hid Hts. unfold updatePostFields, applyUpdates, keyGeb.
  destruct (String.eqb (post_id p) i); destruct (String.eqb (post_id q) i);
    simpl; rewrite ?Hid, ?Hts; reflexivity.
Qed.

End Order.

(** C2, as the claim states it, fails.  The store answers the first page
    [post1; post2] and, after the cursor [post2], the page [post3; post4];
    both are in order.  Two load-more thunks dispatched with the same cursor
    both end in [fetchFeedPosts.fulfilled], and the reducer appends the page
    each time: the feed [post1; post2; post3; post4; post3; post4] has
    [post4] (timestamp 0) before [post3] (timestamp 1).  An update that
    carries a [timestamp] breaks the order as well: spread into [post1]
    of the feed [post1; post2], a timestamp of 0 leaves the older post
    first. *)
Lemma C2_counterexample_page_appended_twice :
  (exists page1 page2,
     snd (PostsSlice.fetchFeedPosts Scenario.sliceRemote 0 "viewer" [] 2 None)
       = PostsSlice.Fulfilled page1 /\
     snd (PostsSlice.fetchFeedPosts Scenario.sliceRemote 0 "viewer" [] 2
            (PostsSlice.fp_lastDoc page1))
       = PostsSlice.Fulfilled page2 /\
     PostsSlice.feedSorted (PostsSlice.fp_posts page1) /\
     PostsSlice.feedSorted (PostsSlice.fp_posts page2) /\
     ~ PostsSlice.feedSorted
         (PostsSlice.feed
            (fold_left PostsSlice.reducer
               [PostsSlice.FetchFeedPostsFulfilled page1;
                PostsSlice.FetchFeedPostsFulfilled page2;
                PostsSlice.FetchFeedPostsFulfilled page2]
               PostsSlice.initialState))) /\
  (let s := PostsSlice.reducer PostsSlice.initialState
              (PostsSlice.FetchFeedPostsFulfilled
                 {| PostsSlice.fp_posts :=
                      map (PostsSlice.postOfDoc 0) [Scenario.post1; Scenario.post2];
                    PostsSlice.fp_lastDoc := Some Scenario.post2;
                    PostsSlice.fp_hasMore := true |}) in
   let older := {| PostsSlice.upd_id := None; PostsSlice.upd_userId := None;
                   PostsSlice.upd_timestamp := Some 0%Z;
                   PostsSlice.upd_likes := None; PostsSlice.upd_likeCount := None;
                   PostsSlice.upd_commentCount := None |} in
   PostsSlice.feedSorted (PostsSlice.feed s) /\
   ~ PostsSlice.feedSorted
       (PostsSlice.feed
          (PostsSlice.reducer s (PostsSlice.UpdatePostFulfilled "post1" older)))).
Proof.
  split.
  - eexists. eexists.
    split; [reflexivity |]. split; [reflexivity |].
    split; [repeat constructor |]. split; [repeat constructor |].
    intros H. simpl in H. unfold PostsSlice.feedSorted in H.
    do 3 (apply StronglySorted_inv in H; destruct H as [H _]).
    apply StronglySorted_inv in H. destruct H as [_ H].
    apply Forall_inv in H. vm_compute in H. discriminate H.
  - split; [repeat constructor |].
    intros H. unfold PostsSlice.feedSorted in H.
    apply StronglySorted_inv in H. destruct H as [_ H].
    apply Forall_inv in H. vm_compute in H. discriminate H.
Qed.

(** C2, amended.  No reducer sorts the feed; the order is the one in which
    the posts arrived.  For a feed in order (timestamp descending, ties by
    id descending) and an action that is not an update carrying an [id] or
    a [timestamp], the feed after the action is in order exactly when what
    the action brings arrives in order: a fetched page is itself in order
    and, when it is appended rather than installed by a refresh, its first
    post may follow the last post of the feed; a created post may stand
    before the first post of the feed.  Every other action keeps the
    order.  Whatever the order, every post of a page and every created
    post is in the feed afterwards. *)
Theorem C2_order_kept_when_arrivals_in_order
    (s : PostsSlice.State) (a : PostsSlice.Action) :
  PostsSlice.feedSorted (PostsSlice.feed s) ->
  PostsSlice.keepsKey a ->
  (PostsSlice.feedSorted (PostsSlice.feed (PostsSlice.reducer s a))
   <-> PostsSlice.arrivesInOrder s a) /\
  (forall p, In p (PostsSlice.brought a) ->
             In p (PostsSlice.feed (PostsSlice.reducer s a))).
Proof.
  intros Hs Hk.
  destruct a; simpl in *;
    try (split; [split; [intros _; exact I | intros _; exact Hs] | intros p0 []]).
  - split; [| intros p0 []]. split; [intros _; exact I | intros _; constructor].
  - split.
    + destruct (PostsSlice.refreshing s).
      * split; [intros H; split; [exact H | discriminate] | intros [H _]; exact H].
      * split.
        -- intros H. apply feedSorted_app_inv in H as [_ [Hpage Hafter]].
           split; [exact Hpage |]. intros _ x y Hx Hy. apply Hafter.
           ++ apply list_elem_of_In, list_elem_of_lookup.
              exists (pred (length (PostsSlice.feed s))).
              now rewrite <- last_lookup.
           ++ destruct (PostsSlice.fp_posts p); [discriminate Hy |].
              injection Hy as ->. now left.
        -- intros [Hpage Hends]. apply feedSorted_glue; auto.
    + intros p0 Hp. destruct (PostsSlice.refreshing s); [exact Hp |].
      apply in_or_app. now right.
  - split.
    + split.
      * intros H y Hy. apply StronglySorted_inv in H as [_ H].
        destruct (PostsSlice.feed s); [discriminate Hy |].
        injection Hy as ->. now apply Forall_inv in H.
      * intros Hfirst. constructor; [exact Hs |].
        rewrite List.Forall_forall. intros x Hx.
        destruct (PostsSlice.feed s) as [|h l] eqn:Hfeed; [destruct Hx |].
        specialize (Hfirst h eq_refl).
        destruct (sorted_after_head (h :: l) h Hs eq_refl x Hx) as [-> | Hhx];
          [exact Hfirst | now apply (keyGeb_trans _ h)].
    + intros p0 [<- | []]. now left.
  - split; [| intros p0 []].
    split; [intros _; exact I | intros _; now apply feedSorted_filter].
  - split; [| intros p0 []]. split; [intros _; exact I | intros _].
    apply feedSorted_map; [apply updatePostLike_key | exact Hs].
  - split; [| intros p0 []]. split; [intros _; exact I | intros _].
    apply feedSorted_map; [apply incrementCommentCount_key | exact Hs].
  - split; [| intros p0 []]. split; [intros _; exact I | intros _].
    apply feedSorted_map; [apply decrementCommentCount_key | exact Hs].
  - split; [| intros p0 []]. split; [intros _; exact I | intros _].
    destruct Hk as [Hid Hts].
    apply feedSorted_map; [intros p0 q0; now apply updatePostFields_key | exact Hs].
Qed.

Lemma C2_witness_second_page_appended_once :
  let page1 := {| PostsSlice.fp_posts :=
                    map (PostsSlice.postOfDoc 0) [Scenario.post1; Scenario.post2];
                  PostsSlice.fp_lastDoc := Some Scenario.post2;
                  PostsSlice.fp_hasMore := true |} in
  let page2 := {| PostsSlice.fp_posts :=
                    map (PostsSlice.postOfDoc 0) [Scenario.post3; Scenario.post4];
                  PostsSlice.fp_lastDoc := Some Scenario.post4;
                  PostsSlice.fp_hasMore := true |} in
  let s := PostsSlice.reducer PostsSlice.initialState
             (PostsSlice.FetchFeedPostsFulfilled page1) in
  PostsSlice.feedSorted (PostsSlice.feed s) /\
  PostsSlice.arrivesInOrder s (PostsSlice.FetchFeedPostsFulfilled page2) /\
  PostsSlice.feedSorted
    (PostsSlice.feed (PostsSlice.reducer s (PostsSlice.FetchFeedPostsFulfilled page2))) /\
  PostsSlice.ids
    (PostsSlice.feed (PostsSlice.reducer s (PostsSlice.FetchFeedPostsFulfilled page2)))
    = ["post1"; "post2"; "post3"; "post4"].
Proof.
  intros page1 page2 s.
  assert (Hs : PostsSlice.feedSorted (PostsSlice.feed s)) by (repeat constructor).
  assert (Ha : PostsSlice.arrivesInOrder s (PostsSlice.FetchFeedPostsFulfilled page2)).
  { split; [repeat constructor |].
    intros _ x y Hx Hy. injection Hx as <-. injection Hy as <-. reflexivity. }
  split; [exact Hs |]. split; [exact Ha |]. split; [| reflexivity].
  exact (proj2 (proj1 (C2_order_kept_when_arrivals_in_order s
                         (PostsSlice.FetchFeedPostsFulfilled page2) Hs I)) Ha).
Defined.

(** ** C3: the offline fallback of the first load *)

(** Offline, every call of [loadFeed] returns at its first guard. *)
Lemma loadFeed_offline_returns (env : FeedScreen.Env) (reset silent : bool)
    (s : FeedScreen.State) :
  FeedScreen.isConnected env = false ->
  FeedScreen.loadFeed env reset silent s = (s, []).
Proof.
  intros Hc. unfold FeedScreen.loadFeed, FeedScreen.loadFeedStart. rewrite Hc.
  destruct (FeedScreen.user env); [| reflexivity].
  destruct silent; reflexivity.
Qed.

(** When the store throws, the [catch] block alerts and the [finally]
    block lowers the loading flags: the posts stay as they were. *)
Lemma loadFeed_keeps_posts_when_query_throws (env : FeedScreen.Env)
    (reset silent : bool) (s : FeedScreen.State) (msg : string) :
  FeedScreen.isConnected env = true ->
  (forall q, FeedScreen.runQuery env q = JS.Err msg) ->
  FeedScreen.posts (fst (FeedScreen.loadFeed env reset silent s)) = FeedScreen.posts s.
Proof.
  intros Hc Hq. unfold FeedScreen.loadFeed, FeedScreen.loadFeedStart. rewrite Hc. simpl.
  destruct (FeedScreen.user env) as [uid|]; simpl; [| reflexivity].
  unfold FeedScreen.loadFeedBody. rewrite Hc. simpl.
  destruct (FeedScreen.internetReachable env); simpl.
  - destruct (FeedScreen.connections env uid); [rewrite Hq |];
      unfold FeedScreen.settle;
      destruct (FeedScreen.isMounted env), silent, reset, (FeedScreen.isFirstLoad s);
      reflexivity.
  - unfold FeedScreen.settle;
      destruct (FeedScreen.isMounted env), silent, reset, (FeedScreen.isFirstLoad s);
      reflexivity.
Qed.

(** C3.  The claim says that a first load that finds the device offline, or
    whose query fails, returns the cached snapshot with the offline flag
    set when the snapshot is younger than 24 hours.  On the code, with a
    snapshot [post1; post2] cached one hour ago (which [loadCachedPosts]
    accepts): offline, [loadFeed(true)] returns at its first guard, reads
    nothing and leaves the initial state, spinner included; connected with
    a query that throws, it alerts without reading the cache and leaves the
    posts empty and the offline flag down. *)
Theorem C3_first_load_never_reads_cache :
  FeedScreen.loadCachedPosts Scenario.offline FeedScreen.initialState
    = (true, FeedScreen.setPosts [Scenario.post1; Scenario.post2] FeedScreen.initialState)
  /\ FeedScreen.loadFeed Scenario.offline true false FeedScreen.initialState
     = (FeedScreen.initialState, [])
  /\ FeedScreen.posts
       (fst (FeedScreen.loadFeed Scenario.failing true false FeedScreen.initialState)) = []
  /\ FeedScreen.offlineMode
       (fst (FeedScreen.loadFeed Scenario.failing true false FeedScreen.initialState)) = false
  /\ ~ In FeedScreen.CallCache
         (snd (FeedScreen.loadFeed Scenario.failing true false FeedScreen.initialState)).
Proof.
  split; [reflexivity |]. split; [reflexivity |]. split; [reflexivity |].
  split; [reflexivity |].
  vm_compute. intros [H | [H | [H | []]]]; discriminate H.
Qed.

(** ** C4: more than ten authors *)

(** C4, as the claim states it, fails on "exactly the page size".  The
    viewer follows 25 users; the store holds 40 posts, 14 of them by
    followed users.  The thunk asks for the 30 newest posts without a
    filter, keeps the four of them that are by followed users and returns
    those four, not ten. *)
Lemma C4_counterexample_fewer_than_a_page :
  exists payload,
    length Scenario.manyFollows = 25 /\
    PostsSlice.fetchFeedPosts Scenario.busyRemote 0 "viewer" [] 10 None
      = ([PostsSlice.CallConnections "viewer";
          PostsSlice.CallQuery {| Firestore.q_filter := Firestore.NoFilter;
                                  Firestore.q_startAfter := None;
                                  Firestore.q_limit := 30 |}],
         PostsSlice.Fulfilled payload) /\
    PostsSlice.ids (PostsSlice.fp_posts payload) = ["p03"; "p17"; "p28"; "p29"] /\
    length (PostsSlice.fp_posts payload) <> 10 /\
    length (List.filter
              (fun d => JS.includes
                          (PostsSlice.allUserIdsOf Scenario.manyFollows [] "viewer")
                          (Firestore.doc_userId d))
              Scenario.busyStore) = 14.
Proof.
  eexists. split; [reflexivity |]. split; [vm_compute; reflexivity |].
  split; [reflexivity |]. split; [vm_compute; lia | reflexivity].
Qed.

(** The query of the feed screen is never unfiltered and never larger
    than a page: beyond ten ids it keeps the first ten. *)
Lemma feedQuery_keeps_first_ten (connectedUserIds : list string) (reset : bool)
    (cursor : option Firestore.Doc) :
  10 < length connectedUserIds ->
  Firestore.q_filter (FeedScreen.feedQuery connectedUserIds reset cursor)
    = Firestore.UserIdIn (take 10 connectedUserIds)
  /\ Firestore.q_limit (FeedScreen.feedQuery connectedUserIds reset cursor) = 10.
Proof.
  intros H. unfold FeedScreen.feedQuery. simpl.
  destruct connectedUserIds as [|x l]; [simpl in H; lia |].
  split; [| reflexivity].
  replace (Nat.min (length (x :: l)) 10) with 10 by lia. reflexivity.
Qed.

(** C4, amended.  When the followed users that are not blocked, with the
    viewer, are more than 10, [fetchFeedPosts] issues one posts query,
    without a filter and with limit three times the page size, and returns
    the documents of the answer that are by an allowed author, in the order
    of the answer and cut to the page size, with the last document of the
    whole answer as cursor: at most a page, every post by an allowed
    author, and a full page exactly when the answer holds at least that
    many documents by allowed authors. *)
Theorem C4_unfiltered_query_then_filter_and_cut
    (R : PostsSlice.Remote) (now : Z) (userId : string)
    (blockedUsers : list string) (limit : nat) (lastDoc : option Firestore.Doc)
    (followedIds : list string) (docs : list Firestore.Doc) :
  PostsSlice.connections R userId = JS.Ok followedIds ->
  10 < length (PostsSlice.allUserIdsOf followedIds blockedUsers userId) ->
  PostsSlice.runQuery R {| Firestore.q_filter := Firestore.NoFilter;
                           Firestore.q_startAfter := lastDoc;
                           Firestore.q_limit := limit * 3 |} = JS.Ok docs ->
  let allowed := PostsSlice.allUserIdsOf followedIds blockedUsers userId in
  let byAllowed := List.filter (fun d => JS.includes allowed (Firestore.doc_userId d)) docs in
  let posts := take limit (map (PostsSlice.postOfDoc now) byAllowed) in
  PostsSlice.fetchFeedPosts R now userId blockedUsers limit lastDoc
    = ([PostsSlice.CallConnections userId;
        PostsSlice.CallQuery {| Firestore.q_filter := Firestore.NoFilter;
                                Firestore.q_startAfter := lastDoc;
                                Firestore.q_limit := limit * 3 |}],
       PostsSlice.Fulfilled {| PostsSlice.fp_posts := posts;
                               PostsSlice.fp_lastDoc := last docs;
                               PostsSlice.fp_hasMore := (length posts =? limit)%nat |}) /\
  length posts <= limit /\
  (forall p, In p posts -> In (PostsSlice.post_userId p) allowed) /\
  (length posts = limit <-> limit <= length byAllowed).
Proof.
  intros Hconn Hmany Hquery allowed byAllowed posts.
  unfold PostsSlice.fetchFeedPosts. rewrite Hconn. fold allowed.
  assert (Hbig : (length allowed <=? 10)%nat = false) by (apply Nat.leb_gt; exact Hmany).
  unfold PostsSlice.postsQuery, PostsSlice.postsOfSnapshot. rewrite Hbig, Hquery.
  split; [reflexivity |].
  split; [unfold posts; rewrite length_take; lia |]. split.
  - intros p Hp. apply list_elem_of_In in Hp. apply elem_of_take in Hp as [i [Hp _]].
    apply list_elem_of_lookup_2, list_elem_of_In, in_map_iff in Hp as [d [<- Hd]].
    apply List.filter_In in Hd as [_ Hd]. now apply includes_In.
  - unfold posts. rewrite length_take, length_map. lia.
Qed.

Lemma C4_witness_twenty_five_followed :
  PostsSlice.connections Scenario.busyRemote "viewer" = JS.Ok Scenario.manyFollows /\
  10 < length (PostsSlice.allUserIdsOf Scenario.manyFollows [] "viewer") /\
  exists payload,
    PostsSlice.fetchFeedPosts Scenario.busyRemote 0 "viewer" [] 10 None
      = ([PostsSlice.CallConnections "viewer";
          PostsSlice.CallQuery {| Firestore.q_filter := Firestore.NoFilter;
                                  Firestore.q_startAfter := None;
                                  Firestore.q_limit := 10 * 3 |}],
         PostsSlice.Fulfilled payload) /\
    PostsSlice.ids (PostsSlice.fp_posts payload) = ["p03"; "p17"; "p28"; "p29"] /\
    option_map Firestore.doc_id (PostsSlice.fp_lastDoc payload) = Some "p29" /\
    (forall p, In p (PostsSlice.fp_posts payload) ->
               In (PostsSlice.post_userId p)
                  (PostsSlice.allUserIdsOf Scenario.manyFollows [] "viewer")).
Proof.
  assert (Hmany : 10 < length (PostsSlice.allUserIdsOf Scenario.manyFollows [] "viewer"))
    by (vm_compute; lia).
  split; [reflexivity |]. split; [exact Hmany |].
  destruct (C4_unfiltered_query_then_filter_and_cut
              Scenario.busyRemote 0 "viewer" [] 10 None Scenario.manyFollows
              (Firestore.answer Scenario.busyStore
                 {| Firestore.q_filter := Firestore.NoFilter;
                    Firestore.q_startAfter := None;
                    Firestore.q_limit := 10 * 3 |})
              eq_refl Hmany eq_refl) as [Hrun [_ [Hby _]]].
  eexists. split; [exact Hrun |]. split; [reflexivity |]. split; [reflexivity |].
  exact Hby.
Defined.

(** ** C5: liking twice *)

Section Likes.
Import PostsSlice.

Lemma filter_out_absent (u : string) (l : list string) :
  ~ In u l -> List.filter (fun i => negb (String.eqb i u)) l = l.
Proof.
  induction l as [|x l IH]; simpl; [reflexivity |].
  intros H. destruct (String.eqb x u) eqn:E.
  - apply String.eqb_eq in E. tauto.
  - simpl. f_equal. apply IH. tauto.
Qed.

Lemma filter_out_appended (u : string) (l : list string) :
  ~ In u l -> List.filter (fun i => negb (String.eqb i u)) (l ++ [u]) = l.
Proof.
  intros H. rewrite List.filter_app, filter_out_absent by exact H.
  simpl. rewrite String.eqb_refl. simpl. apply app_nil_r.
Qed.

(** The store's view of a like: what the thunk writes and returns when
    the user is not in the like-set, and when the user is. *)
Lemma toggleLike_likes (B : Backend) (postId userId : string) (d : Firestore.Doc) :
  posts_coll B !! postId = Some d ->
  JS.includes (default [] (Firestore.doc_likes d)) userId = false ->
  exists B',
    toggleLike NoFault B postId userId
      = (B', Fulfilled {| lp_postId := postId; lp_userId := userId; lp_isLiked := true |})
    /\ posts_coll B' !! postId = Some (likeDoc userId d).
Proof.
  intros Hd Hl. unfold toggleLike. rewrite Hd, Hl. simpl.
  destruct (String.eqb (Firestore.doc_userId d) userId);
    eexists; (split; [reflexivity | simpl; apply lookup_insert_eq]).
Qed.

Lemma toggleLike_unlikes (B : Backend) (postId userId : string) (d : Firestore.Doc) :
  posts_coll B !! postId = Some d ->
  JS.includes (default [] (Firestore.doc_likes d)) userId = true ->
  toggleLike NoFault B postId userId
    = (withPost B postId (unlikeDoc userId d),
       Fulfilled {| lp_postId := postId; lp_userId := userId; lp_isLiked := false |}).
Proof.
  intros Hd Hl. unfold toggleLike. rewrite Hd, Hl. reflexivity.
Qed.

Lemma likeDoc_includes (u : string) (d : Firestore.Doc) :
  JS.includes (default [] (Firestore.doc_likes (likeDoc u d))) u = true.
Proof.
  simpl. unfold Firestore.arrayUnion.
  destruct (JS.includes (default [] (Firestore.doc_likes d)) u) eqn:E; [exact E |].
  apply includes_In. apply in_or_app. right. now left.
Qed.

(** One post of the feed through a like and the unlike that follows. *)
Lemma like_then_unlike_post (postId userId : string) (p : Post)
    (l : list string) (c : Z) :
  post_likes p = Some l -> ~ In userId l ->
  post_likeCount p = Some c -> (0 <= c)%Z ->
  updatePostLike {| lp_postId := postId; lp_userId := userId; lp_isLiked := false |}
    (updatePostLike {| lp_postId := postId; lp_userId := userId; lp_isLiked := true |} p)
  = p.
Proof.
  intros Hl Hn Hc Hpos. unfold updatePostLike. simpl.
  destruct (String.eqb (post_id p) postId) eqn:E; simpl; [| now rewrite E].
  rewrite E. simpl. rewrite Hl, Hc. simpl.
  rewrite filter_out_appended by exact Hn.
  replace (Z.max 0 (c + 1 - 1)) with c by lia.
  destruct p; simpl in *; congruence.
Qed.

(** The thunk is its read followed by its writes. *)
Lemma toggleLike_by_awaits (fault : Fault) (B : Backend) (postId userId : string) :
  toggleLike fault B postId userId
  = match toggleLikeRead fault B postId with
    | JS.Err msg => (B, Rejected msg)
    | JS.Ok postData => toggleLikeWrite fault B postId userId postData
    end.
Proof.
  unfold toggleLike, toggleLikeRead, toggleLikeWrite.
  destruct fault; destruct (posts_coll B !! postId); reflexivity.
Qed.

(** The writes of a call that read the post without the user's like:
    a like of the document the store holds by then. *)
Lemma toggleLikeWrite_likes (B : Backend) (postId userId : string)
    (postData held : Firestore.Doc) :
  posts_coll B !! postId = Some held ->
  JS.includes (default [] (Firestore.doc_likes postData)) userId = false ->
  exists B',
    toggleLikeWrite NoFault B postId userId postData
      = (B', Fulfilled {| lp_postId := postId; lp_userId := userId; lp_isLiked := true |})
    /\ posts_coll B' !! postId = Some (likeDoc userId held).
Proof.
  intros Hd Hl. unfold toggleLikeWrite. rewrite Hd, Hl. simpl.
  destruct (String.eqb (Firestore.doc_userId postData) userId);
    eexists; (split; [reflexivity | simpl; apply lookup_insert_eq]).
Qed.

(** One post of the feed through a like. *)
Lemma like_post (postId userId : string) (p : Post) :
  likedBy postId [userId] 1 p
    (updatePostLike {| lp_postId := postId; lp_userId := userId; lp_isLiked := true |} p).
Proof.
  unfold likedBy, updatePostLike. simpl. split.
  - intros ->. rewrite String.eqb_refl. simpl. split; reflexivity.
  - intros Hne. apply String.eqb_neq in Hne. now rewrite Hne.
Qed.

(** One post of the feed through two likes. *)
Lemma like_twice_post (postId userId : string) (p : Post) :
  likedBy postId [userId; userId] 2 p
    (updatePostLike {| lp_postId := postId; lp_userId := userId; lp_isLiked := true |}
       (updatePostLike {| lp_postId := postId; lp_userId := userId; lp_isLiked := true |}
          p)).
Proof.
  unfold likedBy, updatePostLike. simpl. split.
  - intros ->. rewrite String.eqb_refl. simpl. rewrite String.eqb_refl. simpl.
    rewrite <- app_assoc. split; [reflexivity |]. f_equal. lia.
  - intros Hne. apply String.eqb_neq in Hne. rewrite Hne. simpl. now rewrite Hne.
Qed.

End Likes.

(** C5, as the claim states it, fails: the operation is a toggle.  On a post
    nobody likes, the first call by the viewer raises [likeCount] to 1; the
    second finds the viewer in the like-set of the store and removes the
    like, so that [likeCount] is 0 again.  The feed after two calls differs
    from the feed after one.  And when the second call reads the post
    before the first has written, both calls are likes: the store holds
    the viewer once with a [likeCount] of 2, the feed holds the viewer
    twice with a [likeCount] of 2. *)
Lemma C5_counterexample_second_call_unlikes :
  let once := PostsSlice.dispatchToggleLike PostsSlice.NoFault
                Scenario.freshBackend (Scenario.feedOf Scenario.bobsPost) "p1" "viewer" in
  let twice := PostsSlice.dispatchToggleLike PostsSlice.NoFault
                 (fst once) (snd once) "p1" "viewer" in
  let both := PostsSlice.dispatchOverlappingLikes
                Scenario.freshBackend (Scenario.feedOf Scenario.bobsPost) "p1" "viewer" in
  map PostsSlice.post_likes (PostsSlice.feed (snd once)) = [Some ["viewer"]] /\
  map PostsSlice.post_likeCount (PostsSlice.feed (snd once)) = [Some 1%Z] /\
  map PostsSlice.post_likes (PostsSlice.feed (snd twice)) = [Some []] /\
  map PostsSlice.post_likeCount (PostsSlice.feed (snd twice)) = [Some 0%Z] /\
  PostsSlice.feed (snd twice) <> PostsSlice.feed (snd once) /\
  map PostsSlice.post_likes (PostsSlice.feed (snd both)) = [Some ["viewer"; "viewer"]] /\
  map PostsSlice.post_likeCount (PostsSlice.feed (snd both)) = [Some 2%Z] /\
  option_map Firestore.doc_likes (PostsSlice.posts_coll (fst both) !! "p1")
    = Some (Some ["viewer"]) /\
  option_map Firestore.doc_likeCount (PostsSlice.posts_coll (fst both) !! "p1")
    = Some (Some 2%Z).
Proof.
  vm_compute. repeat (split; [reflexivity |]).
  split; [intros H; discriminate H |]. repeat split.
Qed.

(** C5, amended.  [toggleLike] is a toggle, not an idempotent like.  For a
    post of the store that the user has not liked, and a feed whose copies
    of the post carry a [likes] array without the user and a [likeCount]
    that is not negative, with every remote call succeeding.  One call
    adds the user to [likes] and one to [likeCount] in every copy and
    leaves the other posts alone.  A second call made after the first has
    ended removes the user and takes the one back: feed and store are
    again what they were before the first call.  A second call that reads
    the post before the first has written is a like as well: the store
    holds the user once with [likeCount] raised by two, and every copy in
    the feed holds the user twice with [likeCount] raised by two.  After
    one call the store holds the user once with [likeCount] raised by
    one: two calls never leave what one call leaves. *)
Theorem C5_like_twice_restores_feed
    (B : PostsSlice.Backend) (s : PostsSlice.State) (postId userId : string)
    (d : Firestore.Doc) :
  PostsSlice.posts_coll B !! postId = Some d ->
  JS.includes (default [] (Firestore.doc_likes d)) userId = false ->
  Forall (fun p => PostsSlice.post_id p = postId ->
                   exists l c, PostsSlice.post_likes p = Some l /\ ~ In userId l /\
                               PostsSlice.post_likeCount p = Some c /\ (0 <= c)%Z)
         (PostsSlice.feed s) ->
  let once := PostsSlice.dispatchToggleLike PostsSlice.NoFault B s postId userId in
  let twice := PostsSlice.dispatchToggleLike PostsSlice.NoFault
                 (fst once) (snd once) postId userId in
  let both := PostsSlice.dispatchOverlappingLikes B s postId userId in
  Forall2 (PostsSlice.likedBy postId [userId] 1)
          (PostsSlice.feed s) (PostsSlice.feed (snd once))
  /\ PostsSlice.feed (snd twice) = PostsSlice.feed s
  /\ (exists d2, PostsSlice.posts_coll (fst twice) !! postId = Some d2 /\
                 Firestore.doc_likes d2 = Some (default [] (Firestore.doc_likes d)) /\
                 Firestore.doc_likeCount d2
                   = Some (default 0%Z (Firestore.doc_likeCount d)))
  /\ Forall2 (PostsSlice.likedBy postId [userId; userId] 2)
             (PostsSlice.feed s) (PostsSlice.feed (snd both))
  /\ (exists d2, PostsSlice.posts_coll (fst both) !! postId = Some d2 /\
                 Firestore.doc_likes d2
                   = Some (default [] (Firestore.doc_likes d) ++ [userId]) /\
                 Firestore.doc_likeCount d2
                   = Some (default 0 (Firestore.doc_likeCount d) + 2)%Z)
  /\ (exists d1, PostsSlice.posts_coll (fst once) !! postId = Some d1 /\
                 Firestore.doc_likes d1
                   = Some (default [] (Firestore.doc_likes d) ++ [userId]) /\
                 Firestore.doc_likeCount d1
                   = Some (default 0 (Firestore.doc_likeCount d) + 1)%Z).
Proof.
  intros Hd Hl Hfeed once twice both.
  destruct (toggleLike_likes B postId userId d Hd Hl) as [B1 [Hrun1 Hd1]].
  assert (Honce : once = (B1, PostsSlice.reducer s
                                (PostsSlice.ToggleLikeFulfilled
                                   {| PostsSlice.lp_postId := postId;
                                      PostsSlice.lp_userId := userId;
                                      PostsSlice.lp_isLiked := true |}))).
  { unfold once, PostsSlice.dispatchToggleLike. now rewrite Hrun1. }
  assert (Htwice : twice
                   = (PostsSlice.withPost B1 postId
                        (PostsSlice.unlikeDoc userId (PostsSlice.likeDoc userId d)),
                      PostsSlice.reducer (snd once)
                        (PostsSlice.ToggleLikeFulfilled
                           {| PostsSlice.lp_postId := postId;
                              PostsSlice.lp_userId := userId;
                              PostsSlice.lp_isLiked := false |}))).
  { unfold twice, PostsSlice.dispatchToggleLike. rewrite Honce. cbn [fst snd].
    rewrite (toggleLike_unlikes B1 postId userId _ Hd1 (likeDoc_includes userId d)).
    reflexivity. }
  assert (Hnot : ~ In userId (default [] (Firestore.doc_likes d)))
    by now apply includes_not_In.
  split; [| split; [| split; [| split; [| split]]]].
  - rewrite Honce. simpl. clear Hfeed.
    induction (PostsSlice.feed s) as [|p l IH]; simpl; constructor; [| exact IH].
    apply like_post.
  - rewrite Htwice, Honce. simpl.
    induction Hfeed as [|p l Hp Hrest IH]; simpl; [reflexivity |].
    f_equal; [| exact IH].
    destruct (String.eqb (PostsSlice.post_id p) postId) eqn:E.
    + apply String.eqb_eq in E. destruct (Hp E) as [lk [c [H1 [H2 [H3 H4]]]]].
      now apply (like_then_unlike_post postId userId p lk c).
    + unfold PostsSlice.updatePostLike. simpl. rewrite E. simpl. now rewrite E.
  - rewrite Htwice. cbn [fst]. eexists. split; [apply lookup_insert_eq |].
    simpl. unfold Firestore.arrayRemove, Firestore.arrayUnion, Firestore.increment.
    rewrite Hl. simpl. rewrite filter_out_appended by exact Hnot.
    split; [reflexivity |]. f_equal. lia.
  - unfold both, PostsSlice.dispatchOverlappingLikes, PostsSlice.toggleLikeRead.
    rewrite Hd.
    destruct (toggleLikeWrite_likes B postId userId d d Hd Hl) as [B1' [Hw1 Hd1']].
    rewrite Hw1. cbn [fst snd].
    destruct (toggleLikeWrite_likes B1' postId userId d _ Hd1' Hl) as [B2' [Hw2 Hd2']].
    rewrite Hw2. cbn [fst snd]. simpl. rewrite List.map_map. clear Hfeed.
    induction (PostsSlice.feed s) as [|p l IH]; simpl; constructor; [| exact IH].
    apply like_twice_post.
  - unfold both, PostsSlice.dispatchOverlappingLikes, PostsSlice.toggleLikeRead.
    rewrite Hd.
    destruct (toggleLikeWrite_likes B postId userId d d Hd Hl) as [B1' [Hw1 Hd1']].
    rewrite Hw1. cbn [fst snd].
    destruct (toggleLikeWrite_likes B1' postId userId d _ Hd1' Hl) as [B2' [Hw2 Hd2']].
    rewrite Hw2. cbn [fst snd]. eexists. split; [exact Hd2' |].
    simpl. unfold Firestore.arrayUnion, Firestore.increment. rewrite Hl. simpl.
    assert (Hin : JS.includes (default [] (Firestore.doc_likes d) ++ [userId]) userId = true)
      by (apply includes_In, in_or_app; right; now left).
    rewrite Hin. split; [reflexivity |]. f_equal. lia.
  - rewrite Honce. cbn [fst]. eexists. split; [exact Hd1 |].
    simpl. unfold Firestore.arrayUnion, Firestore.increment. rewrite Hl.
    split; reflexivity.
Qed.

Lemma C5_witness_bobs_post :
  let once := PostsSlice.dispatchToggleLike PostsSlice.NoFault
                Scenario.freshBackend (Scenario.feedOf Scenario.bobsPost) "p1" "viewer" in
  let twice := PostsSlice.dispatchToggleLike PostsSlice.NoFault
                 (fst once) (snd once) "p1" "viewer" in
  PostsSlice.posts_coll Scenario.freshBackend !! "p1" = Some Scenario.bobsPost /\
  JS.includes (default [] (Firestore.doc_likes Scenario.bobsPost)) "viewer" = false /\
  PostsSlice.feed (snd twice) = PostsSlice.feed (Scenario.feedOf Scenario.bobsPost).
Proof.
  intros once twice.
  assert (Hd : PostsSlice.posts_coll Scenario.freshBackend !! "p1" = Some Scenario.bobsPost)
    by (vm_compute; reflexivity).
  split; [exact Hd |]. split; [reflexivity |].
  refine (proj1 (proj2 (C5_like_twice_restores_feed Scenario.freshBackend
                          (Scenario.feedOf Scenario.bobsPost) "p1" "viewer"
                          Scenario.bobsPost Hd eq_refl _))).
  constructor; [| constructor].
  intros _. exists [], 0%Z. simpl. repeat split; auto. lia.
Defined.

(** ** C6: a like the store refuses *)

(** In the slice a rejected thunk changes nothing: there is no reducer case
    for [toggleLike.rejected], and nothing was applied before the answer. *)
Lemma rejected_toggle_keeps_slice (fault : PostsSlice.Fault) (B B' : PostsSlice.Backend)
    (s : PostsSlice.State) (postId userId msg : string) :
  PostsSlice.toggleLike fault B postId userId = (B', PostsSlice.Rejected msg) ->
  snd (PostsSlice.dispatchToggleLike fault B s postId userId) = s.
Proof.
  intros H. unfold PostsSlice.dispatchToggleLike. now rewrite H.
Qed.

(** A read that throws leaves the card as it was. *)
Lemma card_kept_when_read_fails (currentUser : option string) (postId : string)
    (posts : gmap string Firestore.Doc) (s : PostCard.State) :
  PostCard.card (PostCard.handleLikeToggle PostCard.TxReadFails currentUser postId posts s) = s
  /\ PostCard.store (PostCard.handleLikeToggle PostCard.TxReadFails currentUser postId posts s)
     = posts.
Proof. destruct currentUser; split; reflexivity. Qed.

(** C6.  The claim says that after a like the store reports as failed, the
    count and the like-set are what they were before, and the failure is
    reported without an exception.  The slice does so.  The post card does
    not: it flips [isLiked] and moves [likeCount] inside the transaction
    body, and its [catch] block only logs and alerts.  With a post nobody
    likes and a commit that the store refuses, the store is unchanged, the
    alert is shown, and the card shows the post as liked with a count of 1
    where it showed 0. *)
Theorem C6_card_keeps_refused_like :
  let posts : gmap string Firestore.Doc := {["p1" := Scenario.bobsPost]} in
  let before := PostCard.mountedFor Scenario.bobsPost "viewer" in
  let out := PostCard.handleLikeToggle PostCard.TxCommitFails (Some "viewer") "p1"
               posts before in
  before = {| PostCard.isLiked := false; PostCard.likeCount := 0 |} /\
  PostCard.store out = posts /\
  PostCard.alerts out = ["Error"] /\
  PostCard.card out = {| PostCard.isLiked := true; PostCard.likeCount := 1 |}.
Proof.
  vm_compute. repeat split.
Qed.

(** ** C7: [likeCount] and the [likes] array *)

Section LikeCount.
Import PostsSlice.

Lemma length_filter_out (u : string) (l : list string) :
  length (List.filter (fun i => negb (String.eqb i u)) l)
    + count_occ String.string_dec l u = length l.
Proof.
  induction l as [|x l IH]; simpl; [reflexivity |].
  destruct (String.string_dec x u) as [-> | Hne].
  - rewrite String.eqb_refl. simpl. lia.
  - apply String.eqb_neq in Hne. rewrite Hne. simpl. lia.
Qed.

Lemma updatePostLike_keeps_count (lp : LikePayload) (p : Post) :
  likeCountMatches p -> fitsCopy lp p -> likeCountMatches (updatePostLike lp p).
Proof.
  unfold likeCountMatches, fitsCopy, updatePostLike. intros [Hnd Hp] Hfits.
  destruct (String.eqb (post_id p) (lp_postId lp)) eqn:E; simpl; [| now split].
  apply String.eqb_eq in E. specialize (Hfits E).
  destruct (lp_isLiked lp) eqn:Hliked; simpl.
  - split.
    + apply List.NoDup_app; [exact Hnd | |].
      * apply List.NoDup_cons; [simpl; tauto | apply List.NoDup_nil].
      * intros x Hx [<- | []]. contradiction.
    + rewrite length_app. simpl. lia.
  - split; [now apply List.NoDup_filter |].
    pose proof (length_filter_out (lp_userId lp) (default [] (post_likes p))) as Hlen.
    rewrite (proj1 (List.NoDup_count_occ' String.string_dec _) Hnd _ Hfits) in Hlen.
    lia.
Qed.

(** What a fulfilled thunk reports is the opposite of what it read. *)
Lemma fulfilled_toggle_reports (fault : Fault) (B B' : Backend) (postId userId : string)
    (lp : LikePayload) :
  toggleLike fault B postId userId = (B', Fulfilled lp) ->
  exists d, posts_coll B !! postId = Some d /\
            lp = {| lp_postId := postId; lp_userId := userId;
                    lp_isLiked := negb (JS.includes (default [] (Firestore.doc_likes d))
                                          userId) |}.
Proof.
  unfold toggleLike. intros H.
  destruct (posts_coll B !! postId) as [d|] eqn:Hd;
    [| destruct fault; discriminate H].
  exists d. split; [reflexivity |].
  destruct (JS.includes (default [] (Firestore.doc_likes d)) userId);
    destruct (String.eqb (Firestore.doc_userId d) userId);
    destruct fault; simpl in H; try discriminate H; now injection H as _ <-.
Qed.

Lemma updatePostLike_id (lp : LikePayload) (p : Post) :
  post_id (updatePostLike lp p) = post_id p.
Proof.
  unfold updatePostLike.
  destruct (negb (String.eqb (post_id p) (lp_postId lp))); reflexivity.
Qed.

(** A copy that held the [likes] of the document the thunk read holds,
    after the reducer, the [likes] of the document the thunk wrote. *)
Lemma updatePostLike_agrees (postId userId : string) (d : Firestore.Doc) (p : Post) :
  copyAgrees postId d p ->
  let liked := JS.includes (default [] (Firestore.doc_likes d)) userId in
  copyAgrees postId (if liked then unlikeDoc userId d else likeDoc userId d)
    (updatePostLike {| lp_postId := postId; lp_userId := userId;
                       lp_isLiked := negb liked |} p).
Proof.
  intros Hp liked. unfold copyAgrees in *. rewrite updatePostLike_id. intros Hid.
  specialize (Hp Hid). unfold updatePostLike. simpl.
  rewrite Hid, String.eqb_refl. simpl. rewrite Hp. unfold liked.
  destruct (JS.includes (default [] (Firestore.doc_likes d)) userId) eqn:E; simpl.
  - reflexivity.
  - unfold Firestore.arrayUnion. now rewrite E.
Qed.

End LikeCount.

(** C7, as the claim states it, fails.  The post of [bob] is liked by
    [alice]: [likes = [alice]], [likeCount = 1], in the store and in the
    feed.  The viewer likes it: the thunk updates the store, then the write
    of the notification throws and the thunk is rejected, so that the feed
    keeps [likes = [alice]].  The viewer tries again: the thunk finds the
    viewer in the like-set of the store, removes the like and reports an
    unlike; the reducer filters the viewer out of [alice] alone and takes
    one from the count.  The feed now holds [likes = [alice]] with
    [likeCount = 0]; a third toggle, one more round trip later, leaves two
    likes with a count of 1. *)
Lemma C7_counterexample_count_behind_likes :
  let s0 := Scenario.feedOf Scenario.likedPost in
  let first := PostsSlice.dispatchToggleLike (PostsSlice.NotifyFails "unavailable")
                 Scenario.likedBackend s0 "p1" "viewer" in
  let second := PostsSlice.dispatchToggleLike PostsSlice.NoFault
                  (fst first) (snd first) "p1" "viewer" in
  let third := PostsSlice.dispatchToggleLike PostsSlice.NoFault
                 (fst second) (snd second) "p1" "viewer" in
  Forall PostsSlice.likeCountMatches (PostsSlice.feed s0) /\
  snd first = s0 /\
  map PostsSlice.post_likes (PostsSlice.feed (snd second)) = [Some ["alice"]] /\
  map PostsSlice.post_likeCount (PostsSlice.feed (snd second)) = [Some 0%Z] /\
  ~ Forall PostsSlice.likeCountMatches (PostsSlice.feed (snd second)) /\
  map PostsSlice.post_likes (PostsSlice.feed (snd third)) = [Some ["alice"; "viewer"]] /\
  map PostsSlice.post_likeCount (PostsSlice.feed (snd third)) = [Some 1%Z].
Proof.
  split.
  { constructor; [| constructor]. split; [| reflexivity].
    simpl. apply List.NoDup_cons; [simpl; tauto | apply List.NoDup_nil]. }
  split; [vm_compute; reflexivity |].
  split; [vm_compute; reflexivity |].
  split; [vm_compute; reflexivity |].
  split; [| split; vm_compute; reflexivity].
  intros H. apply Forall_inv in H. destruct H as [_ H]. vm_compute in H.
  discriminate H.
Qed.

(** C7, amended.  The reducer applies the answer of the store to its own
    copy and never reads the copy back.  In a feed where every post has
    [likeCount] equal to the number of users in [likes], no user held
    twice, a [toggleLike.fulfilled] leaves every post so, provided its
    payload fits the feed's copies of the target post: a like by a user
    the copy does not hold yet, an unlike by a user it holds.  The payload
    of a fulfilled thunk fits every copy whose [likes] array is the one
    the thunk read from the store.  So when the copies of the target post
    hold the [likes] array of the store's document and the thunk runs
    alone and succeeds, the feed keeps the property and its copies hold
    the [likes] array of the document the thunk wrote. *)
Theorem C7_like_count_kept_when_copy_agrees
    (s : PostsSlice.State) (lp : PostsSlice.LikePayload) :
  Forall PostsSlice.likeCountMatches (PostsSlice.feed s) ->
  (Forall (PostsSlice.fitsCopy lp) (PostsSlice.feed s) ->
   Forall PostsSlice.likeCountMatches
     (PostsSlice.feed (PostsSlice.reducer s (PostsSlice.ToggleLikeFulfilled lp)))) /\
  (forall fault B B' postId userId d,
     PostsSlice.toggleLike fault B postId userId = (B', PostsSlice.Fulfilled lp) ->
     PostsSlice.posts_coll B !! postId = Some d ->
     forall p, default [] (PostsSlice.post_likes p) = default [] (Firestore.doc_likes d) ->
               PostsSlice.fitsCopy lp p) /\
  (forall B postId userId d,
     PostsSlice.posts_coll B !! postId = Some d ->
     Forall (PostsSlice.copyAgrees postId d) (PostsSlice.feed s) ->
     let out := PostsSlice.dispatchToggleLike PostsSlice.NoFault B s postId userId in
     Forall PostsSlice.likeCountMatches (PostsSlice.feed (snd out)) /\
     exists d', PostsSlice.posts_coll (fst out) !! postId = Some d' /\
                Forall (PostsSlice.copyAgrees postId d') (PostsSlice.feed (snd out))).
Proof.
  intros Hs.
  assert (Hkept : forall lp0, Forall (PostsSlice.fitsCopy lp0) (PostsSlice.feed s) ->
            Forall PostsSlice.likeCountMatches
              (map (PostsSlice.updatePostLike lp0) (PostsSlice.feed s))).
  { intros lp0 Hfits. rewrite Forall_map.
    rewrite List.Forall_forall in *. intros p Hp. simpl.
    apply updatePostLike_keeps_count; [now apply Hs | now apply Hfits]. }
  split; [| split].
  - intros Hfits. simpl. now apply Hkept.
  - intros fault B B' postId userId d Hrun Hd p Hsame _.
    destruct (fulfilled_toggle_reports _ _ _ _ _ _ Hrun) as [d' [Hd' ->]].
    rewrite Hd in Hd'. injection Hd' as <-. simpl. rewrite Hsame.
    destruct (JS.includes (default [] (Firestore.doc_likes d)) userId) eqn:E; simpl.
    + now apply includes_In.
    + now apply includes_not_In.
  - intros B postId userId d Hd Hagree out.
    set (liked := JS.includes (default [] (Firestore.doc_likes d)) userId).
    set (lp0 := {| PostsSlice.lp_postId := postId; PostsSlice.lp_userId := userId;
                   PostsSlice.lp_isLiked := negb liked |}).
    assert (Hout : exists B',
              out = (B', PostsSlice.reducer s (PostsSlice.ToggleLikeFulfilled lp0)) /\
              PostsSlice.posts_coll B' !! postId
              = Some (if liked then PostsSlice.unlikeDoc userId d
                      else PostsSlice.likeDoc userId d)).
    { unfold out, PostsSlice.dispatchToggleLike.
      destruct liked eqn:E; unfold liked in E.
      - rewrite (toggleLike_unlikes B postId userId d Hd E).
        eexists. split; [reflexivity |]. simpl. apply lookup_insert_eq.
      - destruct (toggleLike_likes B postId userId d Hd E) as [B1 [Hrun Hd1]].
        rewrite Hrun. eexists. split; [reflexivity | exact Hd1]. }
    destruct Hout as [B' [-> Hd']]. cbn [fst snd]. simpl. split.
    + apply Hkept. rewrite List.Forall_forall in *. intros p Hp Hid.
      specialize (Hagree p Hp Hid). simpl. rewrite Hagree. fold liked.
      destruct liked eqn:E; unfold liked in E; simpl.
      * now apply includes_In.
      * now apply includes_not_In.
    + eexists. split; [exact Hd' |].
      rewrite Forall_map. rewrite List.Forall_forall in *. intros p Hp. simpl.
      apply updatePostLike_agrees. now apply Hagree.
Qed.

Lemma C7_witness_unlike_by_alice :
  let s := Scenario.feedOf Scenario.likedPost in
  let lp := {| PostsSlice.lp_postId := "p1"; PostsSlice.lp_userId := "alice";
               PostsSlice.lp_isLiked := false |} in
  Forall PostsSlice.likeCountMatches (PostsSlice.feed s) /\
  Forall (PostsSlice.fitsCopy lp) (PostsSlice.feed s) /\
  map PostsSlice.post_likeCount
    (PostsSlice.feed (PostsSlice.reducer s (PostsSlice.ToggleLikeFulfilled lp)))
    = [Some 0%Z] /\
  Forall PostsSlice.likeCountMatches
    (PostsSlice.feed (PostsSlice.reducer s (PostsSlice.ToggleLikeFulfilled lp))).
Proof.
  intros s lp.
  assert (Hs : Forall PostsSlice.likeCountMatches (PostsSlice.feed s)).
  { constructor; [| constructor]. split; [| reflexivity].
    simpl. apply List.NoDup_cons; [simpl; tauto | apply List.NoDup_nil]. }
  assert (Hfits : Forall (PostsSlice.fitsCopy lp) (PostsSlice.feed s)).
  { constructor; [| constructor]. intros _. simpl. now left. }
  split; [exact Hs |]. split; [exact Hfits |]. split; [reflexivity |].
  exact (proj1 (C7_like_count_kept_when_copy_agrees s lp Hs) Hfits).
Defined.

(** ** C8: load-more while a fetch is outstanding *)

Section SingleFlight.
Import FeedScreen.

(** A load-more that starts raises [loadingMore]. *)
Lemma started_load_more_raises_flag (env : Env) (s s1 : State) (uid : string) :
  loadMoreGuard env s = true ->
  loadFeedStart env false false s = Some (uid, s1) ->
  loadingMore s1 = true.
Proof.
  unfold loadMoreGuard, loadFeedStart. intros Hg Hs.
  destruct (isMounted env); [| discriminate Hg].
  destruct (user env); [| discriminate Hs].
  destruct (isConnected env); simpl in Hs; [| discriminate Hs].
  injection Hs as _ <-. reflexivity.
Qed.

(** A call made by the handler of a render that shows the state React
    holds is the call of [spawn]. *)
Lemma spawnFrom_shown_state (env : Env) (reset silent : bool) (sys : Sys) :
  spawnFrom (ui sys) env reset silent sys = spawn env reset silent sys.
Proof.
  unfold spawnFrom, spawn, loadFeedStart, raiseFlag.
  destruct (user env); [| reflexivity].
  destruct (isConnected env); destruct silent; reflexivity.
Qed.

(** The [finally] block of any call lowers [loadingMore]. *)
Lemma settle_lowers_flag (env : Env) (s : State) :
  isMounted env = true -> loadingMore (settle env s) = false.
Proof. intros H. unfold settle. now rewrite H. Qed.

(** The guard does what it says on the render it reads: with the flag up
    in that render, or no more posts, or offline mode, the call starts
    nothing and changes nothing. *)
Lemma load_more_ignored_under_shown_flag (env : Env) (sc : Screen) :
  loadingMore (shown sc) = true \/ hasMorePosts (shown sc) = false \/
  offlineMode (shown sc) = true ->
  step sc (EvLoadMore env) = sc /\
  loadMorePosts env (shown sc) = (shown sc, []).
Proof.
  intros H.
  assert (Hg : loadMoreGuard env (shown sc) = false).
  { unfold loadMoreGuard. destruct H as [-> | [-> | ->]]; simpl;
      repeat rewrite andb_false_r; reflexivity. }
  unfold loadMorePosts. simpl. now rewrite Hg.
Qed.

(** Two calls made by the handler of one render both start a fetch, with
    the same cursor: the flag the first one raised is not in the render
    the second one reads. *)
Lemma load_more_twice_from_one_render (env : Env) (sc : Screen) (uid : string) :
  loadMoreGuard env (shown sc) = true ->
  user env = Some uid ->
  isConnected env = true ->
  let twice := step (step sc (EvLoadMore env)) (EvLoadMore env) in
  loadMoresInFlight (held twice) = loadMoresInFlight (held sc) + 2 /\
  cursorsInFlight (held twice)
    = cursorsInFlight (held sc)
      ++ [option_map Firestore.doc_id (lastVisible (shown sc));
          option_map Firestore.doc_id (lastVisible (shown sc))].
Proof.
  intros Hg Hu Hc. simpl. rewrite Hg. simpl. rewrite Hg.
  unfold spawnFrom, loadFeedStart. rewrite Hu, Hc. simpl.
  unfold loadMoresInFlight, cursorsInFlight. simpl.
  rewrite <- !app_assoc. rewrite List.filter_app, map_app, length_app. simpl.
  split; [lia | reflexivity].
Qed.

End SingleFlight.

(** C8.  The claim says that at most one load-more fetch is ever in
    flight: a second invocation while one is outstanding is ignored.  The
    code guards [loadMorePosts] with the [loadingMore] flag, which the call
    that starts raises and the [finally] block lowers; but the guard reads
    the flag of the render that created the handler.  The viewer has twelve
    posts and the first page is shown.  [loadMorePosts] is invoked twice
    before the screen renders again: the first call raises the flag in the
    state React holds, the second still reads [false] and starts a second
    fetch with the same cursor.  Once the screen has rendered, a further
    invocation is ignored; yet a pull-to-refresh that starts beside the
    load-more and ends first lowers the flag for it, and the next
    invocation starts a second fetch as well.  [handleEndReached] of the
    paginated list reads [loading] from its render in the same way. *)
Theorem C8_two_load_mores_from_one_render :
  let env := Scenario.busyScreen in
  let loaded := FeedScreen.run FeedScreen.firstRender
                  [FeedScreen.EvLoadFeed env true false; FeedScreen.EvSettle 0;
                   FeedScreen.EvRender] in
  let once := FeedScreen.step loaded (FeedScreen.EvLoadMore env) in
  let twice := FeedScreen.step once (FeedScreen.EvLoadMore env) in
  let rendered := FeedScreen.step once FeedScreen.EvRender in
  let raced := FeedScreen.run rendered
                 [FeedScreen.EvRefresh env; FeedScreen.EvSettle 1; FeedScreen.EvRender] in
  let page := fst (PaginatedFlatList.fetchInitialData Scenario.listProps
                     PaginatedFlatList.initialState) in
  (FeedScreen.loadingMore (FeedScreen.shown loaded) = false /\
   FeedScreen.hasMorePosts (FeedScreen.shown loaded) = true /\
   FeedScreen.loadMoresInFlight (FeedScreen.held loaded) = 0) /\
  (FeedScreen.loadMoresInFlight (FeedScreen.held once) = 1 /\
   FeedScreen.loadingMore (FeedScreen.ui (FeedScreen.held once)) = true /\
   FeedScreen.loadingMore (FeedScreen.shown once) = false) /\
  (FeedScreen.loadMoresInFlight (FeedScreen.held twice) = 2 /\
   FeedScreen.cursorsInFlight (FeedScreen.held twice) = [Some "q09"; Some "q09"]) /\
  (FeedScreen.loadingMore (FeedScreen.shown rendered) = true /\
   FeedScreen.step rendered (FeedScreen.EvLoadMore env) = rendered) /\
  (FeedScreen.loadMoresInFlight (FeedScreen.held raced) = 1 /\
   FeedScreen.loadingMore (FeedScreen.shown raced) = false /\
   FeedScreen.loadMoresInFlight
     (FeedScreen.held (FeedScreen.step raced (FeedScreen.EvLoadMore env))) = 2) /\
  (PaginatedFlatList.loading (PaginatedFlatList.fetching page) = true /\
   snd (PaginatedFlatList.handleEndReachedFrom Scenario.listProps page
          (PaginatedFlatList.fetching page))
     = [PaginatedFlatList.CallFetch (Some Scenario.post2) 2] /\
   PaginatedFlatList.handleEndReachedFrom Scenario.listProps
     (PaginatedFlatList.fetching page) (PaginatedFlatList.fetching page)
     = (PaginatedFlatList.fetching page, [])).
Proof.
  intros env loaded once twice rendered raced page.
  split; [vm_compute; repeat split |].
  split; [vm_compute; repeat split |].
  split; [vm_compute; repeat split |].
  split; [split; reflexivity |].
  split; [vm_compute; repeat split |].
  split; [reflexivity |]. split; reflexivity.
Qed.

(** ** C9: the array-based notifications slice *)

Section Notifications.
Import NotificationsSlice.

Lemma unread_app (l1 l2 : list Notification) :
  unread (l1 ++ l2) = (unread l1 + unread l2)%Z.
Proof. unfold unread. rewrite List.filter_app, length_app. lia. Qed.

(** The counter half of the claim holds in every run. *)
Lemma unreadCount_counts_unread (acts : list Action) :
  unreadCount (run initialState acts) = unread (notifications (run initialState acts)).
Proof.
  unfold run. rewrite <- fold_left_rev_right.
  induction (rev acts) as [|a l IH]; simpl; [reflexivity |].
  destruct a; simpl; try reflexivity; try exact IH.
  rewrite unread_app. now rewrite IH.
Qed.

End Notifications.

(** C9.  The claim says that in every run of the slice the counter equals
    the number of unread notifications and no two notifications share an
    id.  The counter half holds ([unreadCount_counts_unread]).  The id half
    fails: [fetchNotifications.fulfilled] drops the ids the list already
    holds, [addNotification] does not look.  A notification that was
    fetched and then arrives as a push is held twice, and counted twice. *)
Theorem C9_pushed_notification_held_twice :
  let n := {| NotificationsSlice.n_id := "n1"; NotificationsSlice.n_read := false |} in
  let s := NotificationsSlice.run NotificationsSlice.initialState
             [NotificationsSlice.FetchNotificationsFulfilled [n] "2024-01-01T00:00:00.000Z";
              NotificationsSlice.AddNotification n] in
  NotificationsSlice.ids s = ["n1"; "n1"] /\
  ~ NoDup (NotificationsSlice.ids s) /\
  NotificationsSlice.unreadCount s = 2%Z /\
  NotificationsSlice.ids
    (NotificationsSlice.run NotificationsSlice.initialState
       [NotificationsSlice.AddNotification n;
        NotificationsSlice.FetchNotificationsFulfilled [n] "2024-01-01T00:00:00.000Z"])
    = ["n1"].
Proof.
  split; [reflexivity |]. split; [| split; reflexivity].
  intros H. change (NoDup (["n1"; "n1"] : list string)) in H.
  apply NoDup_cons_1_1 in H. apply H. set_solver.
Qed.

(** ** C10: the Map-based notifications slice *)

(** C10.  The claim says that every reducer succeeds on the states the
    slice can reach, the initial one first.  The initial state holds the
    object literal [{}], which has no [set] method: [addNotification]
    throws a [TypeError] for every notification, and so does
    [fetchNotifications.fulfilled] for every payload that is not empty.
    Nothing is stored.  [resetNotifications] puts a [Map] in place of the
    object, which does not help: the reducers run on an Immer draft, the
    MapSet plugin is not enabled, and from then on [addNotification] and
    [fetchNotifications.fulfilled] throw when they read
    [state.notifications]. *)
Theorem C10_initial_state_has_no_set :
  (forall n,
     NotificationsMapSlice.reducer NotificationsMapSlice.initialState
       (NotificationsMapSlice.AddNotification n)
     = JS.Err "TypeError: state.notifications.set is not a function") /\
  (forall n rest date,
     NotificationsMapSlice.reducer NotificationsMapSlice.initialState
       (NotificationsMapSlice.FetchNotificationsFulfilled (n :: rest) date)
     = JS.Err "TypeError: state.notifications.set is not a function") /\
  (forall n,
     NotificationsMapSlice.stored NotificationsMapSlice.initialState
       (NotificationsMapSlice.n_id n) = None) /\
  (exists s1,
     NotificationsMapSlice.reducer NotificationsMapSlice.initialState
       NotificationsMapSlice.ResetNotifications = JS.Ok s1 /\
     NotificationsMapSlice.notifications s1 = NotificationsMapSlice.MapObject ∅ /\
     (forall n,
        NotificationsMapSlice.reducer s1 (NotificationsMapSlice.AddNotification n)
        = JS.Err NotificationsMapSlice.immerNoMapSet) /\
     (forall payload date,
        NotificationsMapSlice.reducer s1
          (NotificationsMapSlice.FetchNotificationsFulfilled payload date)
        = JS.Err NotificationsMapSlice.immerNoMapSet)).
Proof.
  split; [reflexivity |]. split; [reflexivity |]. split; [reflexivity |].
  eexists. split; [reflexivity |]. split; [reflexivity |].
  split; [reflexivity |]. intros [|n rest] date; reflexivity.
Qed.

(** * Further properties of the feed screen *)

Section FeedScreenFacts.
Import Firestore FeedScreen.

(** In a list without repeated ids, looking a document up by its id finds
    that very document. *)
Lemma find_own_id (l : list Doc) (d : Doc) :
  NoDup (map doc_id l) -> In d l ->
  List.find (fun p => String.eqb (doc_id p) (doc_id d)) l = Some d.
Proof.
  induction l as [|a l IH]; simpl; [tauto |].
  intros Hnd Hd. apply NoDup_cons in Hnd as [Ha Hnd].
  destruct (String.eqb (doc_id a) (doc_id d)) eqn:E.
  - destruct Hd as [-> | Hd]; [reflexivity |].
    apply String.eqb_eq in E. exfalso. apply Ha. rewrite E.
    apply list_elem_of_In. now apply in_map.
  - destruct Hd as [-> | Hd]; [rewrite String.eqb_refl in E; discriminate |].
    now apply IH.
Qed.

Lemma setFrom_distinct (xs seen : list string) :
  NoDup xs -> (forall x, In x xs -> ~ In x seen) -> JS.setFrom seen xs = xs.
Proof.
  revert seen. induction xs as [|x xs IH]; intros seen Hnd Hseen; simpl; [reflexivity |].
  apply NoDup_cons in Hnd as [Hx Hnd].
  assert (Hfresh : JS.includes seen x = false)
    by (apply includes_not_In, Hseen; now left).
  rewrite Hfresh. f_equal. apply IH; [exact Hnd |].
  intros y Hy [<- | Hin].
  - apply Hx. now apply list_elem_of_In.
  - apply (Hseen y); [now right | exact Hin].
Qed.

Lemma omap_find_all (l0 l : list Doc) :
  (forall d, In d l ->
             List.find (fun p => String.eqb (doc_id p) (doc_id d)) l0 = Some d) ->
  omap (fun i => List.find (fun p => String.eqb (doc_id p) i) l0) (map doc_id l) = l.
Proof.
  induction l as [|a l IH]; intros H; simpl; [reflexivity |].
  rewrite (H a) by now left. f_equal. apply IH. intros d Hd. apply H. now right.
Qed.

End FeedScreenFacts.

(** X1.  [uniquePosts], the dedup step of [loadFeed], keeps one post per
    id, drops no id, and the post it keeps for an id is the first one with
    that id in its argument. *)
Theorem X1_uniquePosts_keeps_first_of_each_id (l : list Firestore.Doc) :
  NoDup (map Firestore.doc_id (FeedScreen.uniquePosts l)) /\
  (forall i, In i (map Firestore.doc_id (FeedScreen.uniquePosts l))
             <-> In i (map Firestore.doc_id l)) /\
  (forall d, In d (FeedScreen.uniquePosts l) ->
             List.find (fun p => String.eqb (Firestore.doc_id p) (Firestore.doc_id d)) l
             = Some d).
Proof.
  split; [apply uniquePosts_NoDup |]. split.
  - intros i. rewrite uniquePosts_ids. unfold JS.arrayFromSet.
    rewrite (proj2 (setFrom_spec _ [])). simpl. tauto.
  - intros d Hd. unfold FeedScreen.uniquePosts in Hd.
    apply list_elem_of_In, list_elem_of_omap in Hd as [i [_ Hf]].
    pose proof (List.find_some _ _ Hf) as [_ Hid].
    apply String.eqb_eq in Hid. now rewrite Hid.
Qed.

(** X2.  On a list of posts whose ids are all different, [uniquePosts]
    changes nothing. *)
Theorem X2_uniquePosts_fixes_distinct_ids (l : list Firestore.Doc) :
  NoDup (map Firestore.doc_id l) -> FeedScreen.uniquePosts l = l.
Proof.
  intros Hnd. unfold FeedScreen.uniquePosts, JS.arrayFromSet.
  rewrite setFrom_distinct; [| exact Hnd | intros x _ []].
  apply omap_find_all. intros d Hd. now apply find_own_id.
Qed.

Lemma X2_witness_two_posts :
  NoDup (map Firestore.doc_id [Scenario.post1; Scenario.post2]) /\
  FeedScreen.uniquePosts [Scenario.post1; Scenario.post2]
    = [Scenario.post1; Scenario.post2].
Proof.
  assert (Hnd : NoDup (map Firestore.doc_id [Scenario.post1; Scenario.post2])).
  { simpl. apply NoDup_cons_2.
    - rewrite list_elem_of_In. simpl. intros [H | []]. discriminate H.
    - apply NoDup_cons_2; [rewrite list_elem_of_In; simpl; tauto | apply NoDup_nil_2]. }
  split; [exact Hnd |]. exact (X2_uniquePosts_fixes_distinct_ids _ Hnd).
Defined.

(** No call of [loadFeed] reads the feed cache, whatever the
    connectivity, the flags and the answers of the store: the only branch
    that calls [loadCachedPosts] needs [!isConnected], and every
    [!isConnected] call has returned at the first guard. *)
Lemma loadFeed_never_reads_cache (env : FeedScreen.Env) (reset silent : bool)
    (s : FeedScreen.State) :
  ~ In FeedScreen.CallCache (snd (FeedScreen.loadFeed env reset silent s)).
Proof.
  unfold FeedScreen.loadFeed, FeedScreen.loadFeedStart.
  destruct (FeedScreen.user env) as [uid|]; [| simpl; tauto].
  destruct (FeedScreen.isConnected env) eqn:Hc; simpl;
    [| destruct silent; simpl; tauto].
  unfold FeedScreen.loadFeedBody. rewrite Hc. simpl.
  destruct (FeedScreen.internetReachable env); simpl; [| tauto].
  unfold FeedScreen.catchAlert.
  destruct (FeedScreen.connections env uid); simpl.
  - destruct (FeedScreen.runQuery env _); simpl;
      [| destruct (FeedScreen.isMounted env && negb silent); simpl];
      intros H; repeat (destruct H as [H | H]; [discriminate H |]); exact H.
  - destruct (FeedScreen.isMounted env && negb silent); simpl;
      intros H; repeat (destruct H as [H | H]; [discriminate H |]); exact H.
Qed.

(** X4.  A call of [loadFeed] that passes its guards on a mounted screen
    ends with the three loading flags down and [isFirstLoad] false, whether
    the store answered, threw, or the device had no internet: no spinner is
    left running. *)
Theorem X4_loadFeed_lowers_loading_flags (env : FeedScreen.Env) (reset silent : bool)
    (s : FeedScreen.State) (uid : string) :
  FeedScreen.user env = Some uid ->
  FeedScreen.isConnected env = true ->
  FeedScreen.isMounted env = true ->
  let s' := fst (FeedScreen.loadFeed env reset silent s) in
  FeedScreen.loading s' = false /\ FeedScreen.refreshing s' = false /\
  FeedScreen.loadingMore s' = false /\ FeedScreen.isFirstLoad s' = false.
Proof.
  intros Hu Hc Hm. unfold FeedScreen.loadFeed, FeedScreen.loadFeedStart.
  rewrite Hu, Hc, Hm. simpl.
  unfold FeedScreen.loadFeedBody, FeedScreen.settle. rewrite Hc, Hm. simpl.
  destruct (FeedScreen.internetReachable env); simpl; [| repeat split].
  destruct (FeedScreen.connections env uid); simpl; [| repeat split].
  destruct (FeedScreen.runQuery env _); simpl; repeat split.
Qed.

Lemma X4_witness_first_load :
  let s' := fst (FeedScreen.loadFeed Scenario.online true false FeedScreen.initialState) in
  FeedScreen.loading FeedScreen.initialState = true /\
  FeedScreen.loading s' = false /\ FeedScreen.refreshing s' = false /\
  FeedScreen.loadingMore s' = false /\ FeedScreen.isFirstLoad s' = false.
Proof.
  split; [reflexivity |].
  exact (X4_loadFeed_lowers_loading_flags Scenario.online true false
           FeedScreen.initialState "viewer" eq_refl eq_refl eq_refl).
Defined.

(** X5.  Once the screen is unmounted, the rest of a [loadFeed] in
    progress changes neither the posts nor any loading flag, whatever the
    store answers: the writes it still makes are those of the cursor, of
    [hasMorePosts] and of the offline flag, which stand outside the
    [isMounted] checks. *)
Theorem X5_unmounted_load_keeps_posts (env : FeedScreen.Env) (uid : string)
    (reset silent : bool) (snap cur : FeedScreen.State) :
  FeedScreen.isMounted env = false ->
  let s' := fst (FeedScreen.loadFeedBody env uid reset silent snap cur) in
  FeedScreen.posts s' = FeedScreen.posts cur /\
  FeedScreen.loading s' = FeedScreen.loading cur /\
  FeedScreen.refreshing s' = FeedScreen.refreshing cur /\
  FeedScreen.loadingMore s' = FeedScreen.loadingMore cur /\
  FeedScreen.isFirstLoad s' = FeedScreen.isFirstLoad cur.
Proof.
  intros Hm. unfold FeedScreen.loadFeedBody, FeedScreen.loadCachedPosts, FeedScreen.settle.
  rewrite Hm.
  assert (Hcache :
    (if negb (FeedScreen.isConnected env) && reset
     then (match FeedScreen.cachedFeedPosts (FeedScreen.storage env),
                 FeedScreen.cachedFeedTimestamp (FeedScreen.storage env) with
           | Some cachedPosts, Some timestamp =>
               if (FeedScreen.now env - timestamp <? FeedScreen.CACHE_EXPIRY_MS)%Z
               then if (0 <? length cachedPosts)%nat && false
                    then (true, FeedScreen.setPosts cachedPosts cur)
                    else (false, cur)
               else (false, cur)
           | _, _ => (false, cur)
           end, [FeedScreen.CallCache])
     else ((false, cur), []))
    = ((false, cur), if negb (FeedScreen.isConnected env) && reset
                     then [FeedScreen.CallCache] else [])).
  { destruct (negb (FeedScreen.isConnected env) && reset); [| reflexivity].
    destruct (FeedScreen.cachedFeedPosts (FeedScreen.storage env)) as [ps|];
      [| reflexivity].
    destruct (FeedScreen.cachedFeedTimestamp (FeedScreen.storage env)) as [t|];
      [| reflexivity].
    destruct (FeedScreen.now env - t <? FeedScreen.CACHE_EXPIRY_MS)%Z; [| reflexivity].
    now rewrite andb_false_r. }
  rewrite Hcache.
  destruct (FeedScreen.isConnected env && FeedScreen.internetReachable env);
    simpl; [| repeat split].
  destruct (FeedScreen.connections env uid); simpl; [| repeat split].
  destruct (FeedScreen.runQuery env _); simpl; repeat split.
Qed.

Lemma X5_witness_unmounted_during_load :
  let leaving := {| FeedScreen.user := Some "viewer";
                    FeedScreen.blockedUsers := [];
                    FeedScreen.isConnected := true;
                    FeedScreen.internetReachable := true;
                    FeedScreen.isMounted := false;
                    FeedScreen.now := 0;
                    FeedScreen.storage := Scenario.freshCache;
                    FeedScreen.connections := fun _ => JS.Ok [];
                    FeedScreen.runQuery :=
                      fun q => JS.Ok (Firestore.answer Scenario.ownStore q) |} in
  let started := FeedScreen.setLoading true FeedScreen.initialState in
  let s' := fst (FeedScreen.loadFeedBody leaving "viewer" true false
                   FeedScreen.initialState started) in
  FeedScreen.posts s' = [] /\ FeedScreen.loading s' = true /\
  FeedScreen.hasMorePosts s' = true /\
  option_map Firestore.doc_id (FeedScreen.lastVisible s') = Some "q09".
Proof.
  intros leaving started s'.
  destruct (X5_unmounted_load_keeps_posts leaving "viewer" true false
              FeedScreen.initialState started eq_refl) as [Hp [Hl _]].
  split; [exact Hp |]. split; [exact Hl |]. split; reflexivity.
Defined.

(** X6.  What [cachePosts] wrote, [loadCachedPosts] reads back while the
    snapshot is younger than 24 hours, and refuses from the 24th hour on
    (the bound is strict).  The screen must be mounted and the snapshot
    not empty. *)
Theorem X6_cached_posts_read_back_within_a_day (env : FeedScreen.Env)
    (st : FeedScreen.Storage) (clock : Z) (ps : list Firestore.Doc)
    (s : FeedScreen.State) :
  ps <> [] ->
  FeedScreen.isMounted env = true ->
  FeedScreen.loadCachedPosts
    (FeedScreen.withStorage env (FeedScreen.cachePosts FeedScreen.WritesOk clock ps st)) s
  = if (FeedScreen.now env - clock <? 86400000)%Z
    then (true, FeedScreen.setPosts ps s)
    else (false, s).
Proof.
  intros Hps Hm. unfold FeedScreen.loadCachedPosts. simpl. rewrite Hm.
  change FeedScreen.CACHE_EXPIRY_MS with 86400000%Z.
  destruct (FeedScreen.now env - clock <? 86400000)%Z; [| reflexivity].
  destruct ps; [congruence | reflexivity].
Qed.

Lemma X6_witness_cached_an_hour_ago :
  FeedScreen.loadCachedPosts
    (FeedScreen.withStorage Scenario.offline
       (FeedScreen.cachePosts FeedScreen.WritesOk (10 * Scenario.day - 3600000)
          [Scenario.post1]
          {| FeedScreen.cachedFeedPosts := None; FeedScreen.cachedFeedTimestamp := None |}))
    FeedScreen.initialState
  = (true, FeedScreen.setPosts [Scenario.post1] FeedScreen.initialState)
  /\ FeedScreen.loadCachedPosts
       (FeedScreen.withStorage Scenario.offline
          (FeedScreen.cachePosts FeedScreen.WritesOk (9 * Scenario.day) [Scenario.post1]
             {| FeedScreen.cachedFeedPosts := None; FeedScreen.cachedFeedTimestamp := None |}))
       FeedScreen.initialState
     = (false, FeedScreen.initialState).
Proof.
  assert (Hne : [Scenario.post1] <> []) by discriminate.
  split.
  - exact (X6_cached_posts_read_back_within_a_day Scenario.offline _
             (10 * Scenario.day - 3600000) [Scenario.post1] FeedScreen.initialState
             Hne eq_refl).
  - exact (X6_cached_posts_read_back_within_a_day Scenario.offline _
             (9 * Scenario.day) [Scenario.post1] FeedScreen.initialState
             Hne eq_refl).
Defined.

(** X7.  When the second write of [cachePosts] throws, the cache holds
    the new posts under the timestamp of the previous snapshot:
    [loadCachedPosts] then judges the new posts by the old time, and
    serves nothing if there was no previous timestamp. *)
Theorem X7_half_written_cache_keeps_old_timestamp (env : FeedScreen.Env)
    (st : FeedScreen.Storage) (clock : Z) (ps : list Firestore.Doc)
    (s : FeedScreen.State) :
  ps <> [] ->
  FeedScreen.isMounted env = true ->
  FeedScreen.loadCachedPosts
    (FeedScreen.withStorage env
       (FeedScreen.cachePosts FeedScreen.SecondWriteFails clock ps st)) s
  = match FeedScreen.cachedFeedTimestamp st with
    | Some old =>
        if (FeedScreen.now env - old <? 86400000)%Z
        then (true, FeedScreen.setPosts ps s)
        else (false, s)
    | None => (false, s)
    end.
Proof.
  intros Hps Hm. unfold FeedScreen.loadCachedPosts. simpl. rewrite Hm.
  change FeedScreen.CACHE_EXPIRY_MS with 86400000%Z.
  destruct (FeedScreen.cachedFeedTimestamp st) as [old|]; [| reflexivity].
  destruct (FeedScreen.now env - old <? 86400000)%Z; [| reflexivity].
  destruct ps; [congruence | reflexivity].
Qed.

Lemma X7_witness_new_posts_old_time :
  FeedScreen.loadCachedPosts
    (FeedScreen.withStorage Scenario.offline
       (FeedScreen.cachePosts FeedScreen.SecondWriteFails (10 * Scenario.day)
          [Scenario.post3]
          {| FeedScreen.cachedFeedPosts := Some [Scenario.post1];
             FeedScreen.cachedFeedTimestamp := Some 0%Z |}))
    FeedScreen.initialState
  = (false, FeedScreen.initialState).
Proof.
  assert (Hne : [Scenario.post3] <> []) by discriminate.
  exact (X7_half_written_cache_keeps_old_timestamp Scenario.offline
           {| FeedScreen.cachedFeedPosts := Some [Scenario.post1];
              FeedScreen.cachedFeedTimestamp := Some 0%Z |}
           (10 * Scenario.day) [Scenario.post3] FeedScreen.initialState Hne eq_refl).
Defined.

Section ConnectivityFacts.
Import FeedScreen.



End ConnectivityFacts.


(** X9.  Losing the connection raises the offline flag only when the feed
    holds posts; with an empty feed the flag stays as it was.  Once the
    flag is up, load-more is ignored in any environment. *)
Theorem X9_offline_mode_needs_posts (env env' : FeedScreen.Env) (sys : FeedScreen.Sys) :
  FeedScreen.isConnected env = false ->
  let sys' := FeedScreen.handleConnectivityChange env sys in
  (FeedScreen.posts (FeedScreen.ui sys) = [] -> sys' = sys) /\
  (FeedScreen.posts (FeedScreen.ui sys) <> [] ->
   FeedScreen.offlineMode (FeedScreen.ui sys') = true /\
   FeedScreen.posts (FeedScreen.ui sys') = FeedScreen.posts (FeedScreen.ui sys) /\
   FeedScreen.loadMorePosts env' (FeedScreen.ui sys') = (FeedScreen.ui sys', [])).
Proof.
  intros Hc. unfold FeedScreen.handleConnectivityChange. rewrite Hc. simpl. split.
  - intros ->. reflexivity.
  - intros Hne. destruct (FeedScreen.posts (FeedScreen.ui sys)) eqn:Hp; [congruence |].
    simpl. split; [reflexivity |]. split; [exact Hp |].
    unfold FeedScreen.loadMorePosts, FeedScreen.loadMoreGuard. simpl.
    now rewrite andb_false_r.
Qed.

Lemma X9_witness_connection_lost :
  let loaded := {| FeedScreen.ui :=
                     fst (FeedScreen.loadFeed Scenario.online true false
                            FeedScreen.initialState);
                   FeedScreen.inflight := [] |} in
  FeedScreen.isConnected Scenario.offline = false /\
  FeedScreen.handleConnectivityChange Scenario.offline FeedScreen.mounted
    = FeedScreen.mounted /\
  FeedScreen.offlineMode
    (FeedScreen.ui (FeedScreen.handleConnectivityChange Scenario.offline loaded)) = true.
Proof.
  intros loaded. split; [reflexivity |].
  destruct (X9_offline_mode_needs_posts Scenario.offline Scenario.online
              FeedScreen.mounted eq_refl) as [Hempty _].
  destruct (X9_offline_mode_needs_posts Scenario.offline Scenario.online
              loaded eq_refl) as [_ Hposts].
  split; [exact (Hempty eq_refl) |].
  apply Hposts. discriminate.
Defined.

(** * Further properties of the paginated list *)

Section ListFacts.
Import PaginatedFlatList.

(** From a render that shows the state React holds, the closure of
    [fetchMoreData] is the function run at once. *)
Lemma fetchMoreDataFrom_shown_state (P : Props) (s : State) :
  fetchMoreDataFrom P s s = fetchMoreData P s /\
  handleEndReachedFrom P s s = handleEndReached P s.
Proof.
  unfold handleEndReachedFrom, handleEndReached, fetchMoreDataFrom, fetchMoreData.
  split; [reflexivity |]. reflexivity.
Qed.

Lemma handle_keeps_refreshing (P : Props) (s : State) (h : Handler) :
  refreshing s = true -> refreshing (handle P s h) = true.
Proof.
  intros H. destruct h; simpl.
  - unfold fetchInitialData. destruct (fetch P None (limit P)); exact H.
  - unfold handleEndReached, fetchMoreData.
    destruct (negb (loading s) && hasMore s); [| exact H].
    destruct (negb (hasMore s) || loading s); [exact H |].
    destruct (fetch P (lastDoc s) (limit P)); exact H.
  - unfold handleRefresh, fetchInitialData. simpl.
    destruct (fetch P None (limit P)); reflexivity.
Qed.

End ListFacts.

(** X10.  No handler of the list lowers [refreshing]: [handleRefresh]
    raises it and it stays up through every later load, end-of-list and
    refresh, whether the store answers or throws.  ([setRefreshing] is
    called once in the file, with [true].) *)
Theorem X10_refreshing_is_never_lowered (P : PaginatedFlatList.Props)
    (s : PaginatedFlatList.State) (hs : list PaginatedFlatList.Handler) :
  PaginatedFlatList.refreshing
    (PaginatedFlatList.handleAll P
       (PaginatedFlatList.handle P s PaginatedFlatList.OnRefresh) hs) = true.
Proof.
  unfold PaginatedFlatList.handleAll.
  assert (H0 : PaginatedFlatList.refreshing
                 (PaginatedFlatList.handle P s PaginatedFlatList.OnRefresh) = true).
  { simpl. unfold PaginatedFlatList.handleRefresh, PaginatedFlatList.fetchInitialData.
    simpl. destruct (PaginatedFlatList.fetch P None (PaginatedFlatList.limit P));
      reflexivity. }
  revert H0. generalize (PaginatedFlatList.handle P s PaginatedFlatList.OnRefresh).
  induction hs as [|h hs IH]; intros s0 H0; simpl; [exact H0 |].
  apply IH. now apply handle_keeps_refreshing.
Qed.


(** X12.  A pull-to-refresh replaces the list by the first page when the
    store answers, with the cursor on the last document and [hasMore] up
    exactly for a full page.  When the store throws, the list is left
    empty, not restored: it was cleared before the query, and the error
    handler only records the message. *)
Theorem X12_refresh_replaces_or_empties (P : PaginatedFlatList.Props)
    (s : PaginatedFlatList.State) :
  let s' := fst (PaginatedFlatList.handleRefresh P s) in
  match PaginatedFlatList.fetch P None (PaginatedFlatList.limit P) with
  | JS.Ok docs =>
      PaginatedFlatList.data s' = docs /\
      PaginatedFlatList.lastDoc s' = last docs /\
      PaginatedFlatList.hasMore s' = (length docs =? PaginatedFlatList.limit P)%nat /\
      PaginatedFlatList.error s' = None
  | JS.Err msg =>
      PaginatedFlatList.data s' = [] /\
      PaginatedFlatList.lastDoc s' = None /\
      PaginatedFlatList.hasMore s' = true /\
      PaginatedFlatList.error s' = Some msg
  end.
Proof.
  unfold PaginatedFlatList.handleRefresh, PaginatedFlatList.fetchInitialData. simpl.
  destruct (PaginatedFlatList.fetch P None (PaginatedFlatList.limit P));
    simpl; repeat split.
Qed.

(** X13.  A load-more the store refuses leaves the data, the cursor and
    [hasMore] as they were, records the message and lowers [loading]: the
    same page can be asked for again. *)
Theorem X13_refused_load_more_can_be_retried (P : PaginatedFlatList.Props)
    (s : PaginatedFlatList.State) (msg : string) :
  PaginatedFlatList.hasMore s = true ->
  PaginatedFlatList.loading s = false ->
  PaginatedFlatList.fetch P (PaginatedFlatList.lastDoc s) (PaginatedFlatList.limit P)
    = JS.Err msg ->
  let s' := fst (PaginatedFlatList.fetchMoreData P s) in
  PaginatedFlatList.data s' = PaginatedFlatList.data s /\
  PaginatedFlatList.lastDoc s' = PaginatedFlatList.lastDoc s /\
  PaginatedFlatList.hasMore s' = true /\
  PaginatedFlatList.loading s' = false /\
  PaginatedFlatList.error s' = Some msg /\
  snd (PaginatedFlatList.fetchMoreData P s')
    = [PaginatedFlatList.CallFetch (PaginatedFlatList.lastDoc s) (PaginatedFlatList.limit P)].
Proof.
  intros Hm Hl Hf s'.
  assert (Hs' : s' = {| PaginatedFlatList.data := PaginatedFlatList.data s;
                        PaginatedFlatList.loading := false;
                        PaginatedFlatList.refreshing := PaginatedFlatList.refreshing s;
                        PaginatedFlatList.error := Some msg;
                        PaginatedFlatList.lastDoc := PaginatedFlatList.lastDoc s;
                        PaginatedFlatList.hasMore := PaginatedFlatList.hasMore s;
                        PaginatedFlatList.initialLoad := PaginatedFlatList.initialLoad s |}).
  { unfold s', PaginatedFlatList.fetchMoreData. now rewrite Hm, Hl, Hf. }
  rewrite Hs'. simpl. repeat (split; [reflexivity || exact Hm |]).
  unfold PaginatedFlatList.fetchMoreData. simpl. now rewrite Hm, Hf.
Qed.

Lemma X13_witness_store_down :
  let P := {| PaginatedFlatList.limit := 2;
              PaginatedFlatList.fetch := fun cursor _ =>
                match cursor with
                | None => JS.Ok [Scenario.post1; Scenario.post2]
                | Some _ => JS.Err "unavailable"
                end |} in
  let s := fst (PaginatedFlatList.fetchInitialData P PaginatedFlatList.initialState) in
  let s' := fst (PaginatedFlatList.fetchMoreData P s) in
  PaginatedFlatList.hasMore s = true /\
  PaginatedFlatList.data s' = [Scenario.post1; Scenario.post2] /\
  PaginatedFlatList.error s' = Some "unavailable".
Proof.
  intros P s s'.
  destruct (X13_refused_load_more_can_be_retried P s "unavailable"
              eq_refl eq_refl eq_refl) as [Hd [_ [_ [_ [He _]]]]].
  split; [reflexivity |]. split; [exact Hd | exact He].
Defined.

(** * Further properties of the posts slice *)

Section ThunkFacts.
Import JS Firestore PostsSlice.

Lemma allUserIds_ends_with_viewer (followedIds blockedUsers : list string) (userId : string) :
  In userId (allUserIdsOf followedIds blockedUsers userId) /\
  0 < length (allUserIdsOf followedIds blockedUsers userId).
Proof.
  unfold allUserIdsOf. split.
  - apply in_or_app. right. now left.
  - rewrite length_app. simpl. lia.
Qed.

Lemma likeDoc_count_matches (u : string) (d : Doc) :
  storeCountMatches d ->
  includes (default [] (doc_likes d)) u = false ->
  storeCountMatches (likeDoc u d).
Proof.
  unfold storeCountMatches. intros [Hnd Hc] Hu. simpl.
  unfold arrayUnion, increment. rewrite Hu. split.
  - apply List.NoDup_app; [exact Hnd | |].
    + apply List.NoDup_cons; [simpl; tauto | apply List.NoDup_nil].
    + intros x Hx [<- | []]. now apply includes_not_In in Hu.
  - rewrite length_app. simpl. lia.
Qed.

Lemma unlikeDoc_count_matches (u : string) (d : Doc) :
  storeCountMatches d ->
  includes (default [] (doc_likes d)) u = true ->
  storeCountMatches (unlikeDoc u d).
Proof.
  unfold storeCountMatches. intros [Hnd Hc] Hu. simpl.
  unfold arrayRemove, increment. split.
  - now apply List.NoDup_filter.
  - apply includes_In in Hu.
    pose proof (length_filter_out u (default [] (doc_likes d))) as Hlen.
    rewrite (proj1 (List.NoDup_count_occ' String.string_dec _) Hnd u Hu) in Hlen.
    lia.
Qed.

End ThunkFacts.

(** X14.  With at most ten allowed authors, [fetchFeedPosts] asks for one
    page filtered on exactly the allowed ids, which always hold the viewer
    (the [[userId]] fallback of the filter is never taken), and returns
    every document of the answer, in order, with [hasMore] up exactly for a
    full page. *)
Theorem X14_small_fan_out_uses_in_filter
    (R : PostsSlice.Remote) (now : Z) (userId : string)
    (blockedUsers : list string) (limit : nat) (lastDoc : option Firestore.Doc)
    (followedIds : list string) (docs : list Firestore.Doc) :
  PostsSlice.connections R userId = JS.Ok followedIds ->
  length (PostsSlice.allUserIdsOf followedIds blockedUsers userId) <= 10 ->
  PostsSlice.runQuery R
    {| Firestore.q_filter :=
         Firestore.UserIdIn (PostsSlice.allUserIdsOf followedIds blockedUsers userId);
       Firestore.q_startAfter := lastDoc;
       Firestore.q_limit := limit |} = JS.Ok docs ->
  In userId (PostsSlice.allUserIdsOf followedIds blockedUsers userId) /\
  PostsSlice.fetchFeedPosts R now userId blockedUsers limit lastDoc
  = ([PostsSlice.CallConnections userId;
      PostsSlice.CallQuery
        {| Firestore.q_filter :=
             Firestore.UserIdIn (PostsSlice.allUserIdsOf followedIds blockedUsers userId);
           Firestore.q_startAfter := lastDoc;
           Firestore.q_limit := limit |}],
     PostsSlice.Fulfilled
       {| PostsSlice.fp_posts := map (PostsSlice.postOfDoc now) docs;
          PostsSlice.fp_lastDoc := last docs;
          PostsSlice.fp_hasMore := (length docs =? limit)%nat |}).
Proof.
  intros Hconn Hfew Hquery.
  destruct (allUserIds_ends_with_viewer followedIds blockedUsers userId) as [Hin Hpos].
  split; [exact Hin |].
  unfold PostsSlice.fetchFeedPosts. rewrite Hconn.
  set (allowed := PostsSlice.allUserIdsOf followedIds blockedUsers userId) in *.
  assert (Hsmall : (length allowed <=? 10)%nat = true) by now apply Nat.leb_le.
  assert (Hsome : (0 <? length allowed)%nat = true) by now apply Nat.ltb_lt.
  unfold PostsSlice.postsQuery, PostsSlice.postsOfSnapshot.
  rewrite Hsmall, Hsome, Hquery. now rewrite length_map.
Qed.

Lemma X14_witness_two_followed :
  In "viewer" (PostsSlice.allUserIdsOf Scenario.follows [] "viewer") /\
  PostsSlice.ids
    (match snd (PostsSlice.fetchFeedPosts Scenario.sliceRemote 0 "viewer" [] 2 None) with
     | PostsSlice.Fulfilled p => PostsSlice.fp_posts p
     | PostsSlice.Rejected _ => []
     end) = ["post1"; "post2"].
Proof.
  destruct (X14_small_fan_out_uses_in_filter Scenario.sliceRemote 0 "viewer" [] 2 None
              Scenario.follows
              (Firestore.answer Scenario.smallStore
                 {| Firestore.q_filter :=
                      Firestore.UserIdIn
                        (PostsSlice.allUserIdsOf Scenario.follows [] "viewer");
                    Firestore.q_startAfter := None;
                    Firestore.q_limit := 2 |})
              eq_refl ltac:(vm_compute; lia) eq_refl) as [Hin Hrun].
  split; [exact Hin |]. rewrite Hrun. reflexivity.
Defined.

(** X15.  A blocked user other than the viewer is never among the allowed
    authors, and beyond ten allowed authors, where the client filters
    itself, no post of a blocked user is returned.  Blocking oneself has no
    effect: the viewer is appended after the filter. *)
Theorem X15_blocked_authors_left_out
    (R : PostsSlice.Remote) (now : Z) (userId b : string)
    (blockedUsers : list string) (limit : nat) (lastDoc : option Firestore.Doc)
    (followedIds : list string) :
  In b blockedUsers -> b <> userId ->
  ~ In b (PostsSlice.allUserIdsOf followedIds blockedUsers userId) /\
  (PostsSlice.connections R userId = JS.Ok followedIds ->
   10 < length (PostsSlice.allUserIdsOf followedIds blockedUsers userId) ->
   forall calls payload,
     PostsSlice.fetchFeedPosts R now userId blockedUsers limit lastDoc
       = (calls, PostsSlice.Fulfilled payload) ->
     forall p, In p (PostsSlice.fp_posts payload) -> PostsSlice.post_userId p <> b).
Proof.
  intros Hb Hne.
  assert (Hout : ~ In b (PostsSlice.allUserIdsOf followedIds blockedUsers userId)).
  { unfold PostsSlice.allUserIdsOf. intros H. apply in_app_or in H as [H | H].
    - apply List.filter_In in H as [_ H]. apply negb_true_iff in H.
      apply includes_not_In in H. contradiction.
    - simpl in H. destruct H as [H | []]. congruence. }
  split; [exact Hout |].
  intros Hconn Hmany calls payload Hrun p Hp Hauthor.
  unfold PostsSlice.fetchFeedPosts in Hrun. rewrite Hconn in Hrun.
  destruct (PostsSlice.runQuery R _) as [docs | msg]; [| discriminate Hrun].
  injection Hrun as _ <-. simpl in Hp.
  unfold PostsSlice.postsOfSnapshot in Hp.
  rewrite (proj2 (Nat.leb_gt _ _) Hmany) in Hp.
  apply list_elem_of_In, elem_of_take in Hp as [i [Hp _]].
  apply list_elem_of_lookup_2, list_elem_of_In, in_map_iff in Hp as [d [<- Hd]].
  apply List.filter_In in Hd as [_ Hd]. apply includes_In in Hd.
  simpl in Hauthor. rewrite Hauthor in Hd. contradiction.
Qed.

Lemma X15_witness_blocked_follow :
  ~ In "bob" (PostsSlice.allUserIdsOf Scenario.follows ["bob"] "viewer") /\
  In "viewer" (PostsSlice.allUserIdsOf Scenario.follows ["viewer"] "viewer").
Proof.
  split.
  - refine (proj1 (X15_blocked_authors_left_out Scenario.sliceRemote 0 "viewer" "bob"
                     ["bob"] 10 None Scenario.follows _ _)).
    + now left.
    + discriminate.
  - vm_compute. tauto.
Defined.

(** X16.  Sequential toggles keep the store consistent: if in every post
    document [likes] holds no user twice and [likeCount] is its length,
    the same holds after [toggleLike], whichever call of the thunk throws,
    and no post other than the target is written. *)
Theorem X16_store_like_count_kept (fault : PostsSlice.Fault) (B : PostsSlice.Backend)
    (postId userId : string) :
  (forall k d, PostsSlice.posts_coll B !! k = Some d -> PostsSlice.storeCountMatches d) ->
  let B' := fst (PostsSlice.toggleLike fault B postId userId) in
  (forall k d, PostsSlice.posts_coll B' !! k = Some d -> PostsSlice.storeCountMatches d) /\
  (forall k, k <> postId -> PostsSlice.posts_coll B' !! k = PostsSlice.posts_coll B !! k).
Proof.
  intros Hinv B'.
  assert (Hcases :
    B' = B \/
    exists d d', PostsSlice.posts_coll B !! postId = Some d /\
                 PostsSlice.storeCountMatches d' /\
                 PostsSlice.posts_coll B' = <[postId := d']> (PostsSlice.posts_coll B)).
  { unfold B', PostsSlice.toggleLike.
    destruct (PostsSlice.posts_coll B !! postId) as [d|] eqn:Hd;
      [| destruct fault; left; reflexivity].
    specialize (Hinv _ _ Hd).
    destruct (JS.includes (default [] (Firestore.doc_likes d)) userId) eqn:Hl.
    - destruct fault; simpl; try (left; reflexivity);
        right; exists d, (PostsSlice.unlikeDoc userId d);
        (split; [reflexivity |]); (split; [| reflexivity]);
        now apply unlikeDoc_count_matches.
    - destruct (String.eqb (Firestore.doc_userId d) userId);
        destruct fault; simpl; try (left; reflexivity);
        right; exists d, (PostsSlice.likeDoc userId d);
        (split; [reflexivity |]); (split; [| reflexivity]);
        now apply likeDoc_count_matches. }
  destruct Hcases as [-> | [d [d' [Hd [Hd' Hposts]]]]].
  - split; [exact Hinv | reflexivity].
  - rewrite Hposts. split.
    + intros k dk. rewrite lookup_insert. case_decide.
      * intros [= <-]. exact Hd'.
      * apply Hinv.
    + intros k Hk. now apply lookup_insert_ne.
Qed.

Lemma X16_witness_liked_post :
  let B' := fst (PostsSlice.toggleLike (PostsSlice.NotifyFails "unavailable")
                   Scenario.likedBackend "p1" "viewer") in
  (option_map Firestore.doc_likes (PostsSlice.posts_coll B' !! "p1")
   = Some (Some ["alice"; "viewer"])) /\
  forall k d, PostsSlice.posts_coll B' !! k = Some d -> PostsSlice.storeCountMatches d.
Proof.
  intros B'. split; [vm_compute; reflexivity |].
  refine (proj1 (X16_store_like_count_kept (PostsSlice.NotifyFails "unavailable")
                   Scenario.likedBackend "p1" "viewer" _)).
  intros k d. simpl. rewrite lookup_singleton. case_decide; [| discriminate].
  intros [= <-]. split; [| reflexivity].
  simpl. apply List.NoDup_cons; [simpl; tauto | apply List.NoDup_nil].
Defined.

(** X17.  A rejected [toggleLike] has written nothing, with one exception:
    when the write of the notification throws, the like has already been
    written.  A rejected call never leaves an unlike behind and never adds
    a notification. *)
Theorem X17_rejected_toggle_wrote_at_most_the_like
    (fault : PostsSlice.Fault) (B B' : PostsSlice.Backend)
    (postId userId msg : string) :
  PostsSlice.toggleLike fault B postId userId = (B', PostsSlice.Rejected msg) ->
  B' = B \/
  exists d, fault = PostsSlice.NotifyFails msg /\
            PostsSlice.posts_coll B !! postId = Some d /\
            JS.includes (default [] (Firestore.doc_likes d)) userId = false /\
            Firestore.doc_userId d <> userId /\
            B' = PostsSlice.withPost B postId (PostsSlice.likeDoc userId d).
Proof.
  unfold PostsSlice.toggleLike. intros H.
  destruct (PostsSlice.posts_coll B !! postId) as [d|] eqn:Hd.
  - destruct (JS.includes (default [] (Firestore.doc_likes d)) userId) eqn:Hl.
    + destruct fault; simpl in H; try discriminate H;
        injection H as <- _; now left.
    + destruct (String.eqb (Firestore.doc_userId d) userId) eqn:Hown.
      * destruct fault; simpl in H; try discriminate H;
          injection H as <- _; now left.
      * destruct fault; simpl in H; try discriminate H.
        1,2: injection H as <- _; now left.
        injection H as <- <-. right. exists d.
        apply String.eqb_neq in Hown. repeat split; auto.
  - destruct fault; injection H as <- _; now left.
Qed.

Lemma X17_witness_notification_refused :
  let out := PostsSlice.toggleLike (PostsSlice.NotifyFails "unavailable")
               Scenario.freshBackend "p1" "viewer" in
  snd out = PostsSlice.Rejected "unavailable" /\
  fst out = PostsSlice.withPost Scenario.freshBackend "p1"
              (PostsSlice.likeDoc "viewer" Scenario.bobsPost) /\
  PostsSlice.notifications_coll (fst out) = [].
Proof.
  intros out.
  assert (Hrun : out = (fst out, PostsSlice.Rejected "unavailable")) by reflexivity.
  destruct (X17_rejected_toggle_wrote_at_most_the_like _ _ _ _ _ _ Hrun)
    as [Hsame | [d [_ [Hd [_ [_ Hwritten]]]]]].
  - exfalso. assert (Hl : PostsSlice.posts_coll (fst out) !! "p1"
                          = PostsSlice.posts_coll Scenario.freshBackend !! "p1")
      by now rewrite Hsame.
    vm_compute in Hl. discriminate Hl.
  - split; [reflexivity |]. split; [| reflexivity].
    assert (Hbob : d = Scenario.bobsPost).
    { vm_compute in Hd. injection Hd as <-. reflexivity. }
    now rewrite Hwritten, Hbob.
Defined.

(** X18.  [toggleLike] adds at most one notification, and only when it is
    fulfilled as a like of somebody else's post: the notification is of
    type "like", unread, from the user to the author of the post, who is
    not the user.  An unlike, a like of one's own post and a rejected call
    add none. *)
Theorem X18_notification_only_for_like_of_others
    (fault : PostsSlice.Fault) (B : PostsSlice.Backend) (postId userId : string) :
  let out := PostsSlice.toggleLike fault B postId userId in
  PostsSlice.notifications_coll (fst out) = PostsSlice.notifications_coll B \/
  exists n,
    PostsSlice.notifications_coll (fst out) = PostsSlice.notifications_coll B ++ [n] /\
    snd out = PostsSlice.Fulfilled
                {| PostsSlice.lp_postId := postId; PostsSlice.lp_userId := userId;
                   PostsSlice.lp_isLiked := true |} /\
    PostsSlice.nd_type n = "like" /\
    PostsSlice.nd_senderId n = userId /\
    PostsSlice.nd_recipientId n <> userId /\
    PostsSlice.nd_postId n = postId /\
    PostsSlice.nd_read n = false /\
    exists d, PostsSlice.posts_coll B !! postId = Some d /\
              PostsSlice.nd_recipientId n = Firestore.doc_userId d.
Proof.
  unfold PostsSlice.toggleLike.
  destruct (PostsSlice.posts_coll B !! postId) as [d|] eqn:Hd;
    [| destruct fault; left; reflexivity].
  destruct (JS.includes (default [] (Firestore.doc_likes d)) userId) eqn:Hl;
    [destruct fault; left; reflexivity |].
  destruct (String.eqb (Firestore.doc_userId d) userId) eqn:Hown;
    [destruct fault; left; reflexivity |].
  apply String.eqb_neq in Hown.
  destruct fault; simpl; try (left; reflexivity).
  right. eexists. split; [reflexivity |]. simpl. repeat split; auto.
  exists d. split; reflexivity.
Qed.

Section ReducerFacts.
Import PostsSlice.

Lemma updatePostLike_counters (lp : LikePayload) (p : Post) :
  countersNonNegative p -> countersNonNegative (updatePostLike lp p).
Proof.
  unfold countersNonNegative, updatePostLike. intros [Hl Hc].
  destruct (negb (String.eqb (post_id p) (lp_postId lp))); [tauto |].
  destruct (lp_isLiked lp); simpl; split; lia.
Qed.

Lemma incrementCommentCount_counters (i : string) (p : Post) :
  countersNonNegative p -> countersNonNegative (incrementCommentCount i p).
Proof.
  unfold countersNonNegative, incrementCommentCount. intros [Hl Hc].
  destruct (negb (String.eqb (post_id p) i)); simpl; split; lia.
Qed.

Lemma decrementCommentCount_counters (i : string) (p : Post) :
  countersNonNegative p -> countersNonNegative (decrementCommentCount i p).
Proof.
  unfold countersNonNegative, decrementCommentCount. intros [Hl Hc].
  destruct (negb (String.eqb (post_id p) i)); simpl; split; lia.
Qed.

Lemma updatePostFields_counters (i : string) (u : PostUpdates) (p : Post) :
  carriesNonNegative (upd_likeCount u) -> carriesNonNegative (upd_commentCount u) ->
  countersNonNegative p -> countersNonNegative (updatePostFields i u p).
Proof.
  unfold countersNonNegative, updatePostFields, applyUpdates, carriesNonNegative.
  intros Hl Hc [Hpl Hpc].
  destruct (String.eqb (post_id p) i); [| tauto]. simpl.
  destruct (upd_likeCount u), (upd_commentCount u); simpl; tauto.
Qed.

Lemma comment_count_round_trip (i : string) (p : Post) (n : Z) :
  post_commentCount p = Some n -> (0 <= n)%Z ->
  decrementCommentCount i (incrementCommentCount i p) = p.
Proof.
  intros Hn Hpos. unfold incrementCommentCount, decrementCommentCount.
  destruct (String.eqb (post_id p) i) eqn:E; simpl; rewrite E; simpl; [| reflexivity].
  rewrite Hn. simpl. replace (Z.max 0 (n + 1 - 1)) with n by lia.
  destruct p; simpl in *; congruence.
Qed.

Lemma filter_out_new_comment (c : Comment) (l : list Comment) :
  (forall c', In c' l -> comment_id c' <> comment_id c) ->
  List.filter (fun x => negb (String.eqb (comment_id x) (comment_id c))) (l ++ [c]) = l.
Proof.
  intros H. rewrite List.filter_app. simpl. rewrite String.eqb_refl. simpl.
  rewrite app_nil_r. induction l as [|x l IH]; simpl; [reflexivity |].
  assert (Hx : String.eqb (comment_id x) (comment_id c) = false)
    by (apply String.eqb_neq, H; now left).
  rewrite Hx. simpl. f_equal. apply IH. intros c' Hc'. apply H. now right.
Qed.

End ReducerFacts.

(** X19.  After [deletePost.fulfilled] no copy of the post is left: not in
    the feed, not in any list of [userPosts], not as [currentPost], and
    its comments are gone.  Every other post of the feed is kept. *)
Theorem X19_deleted_post_is_gone_everywhere (s : PostsSlice.State) (postId : string) :
  let s' := PostsSlice.reducer s (PostsSlice.DeletePostFulfilled postId) in
  (forall p, In p (PostsSlice.feed s') -> PostsSlice.post_id p <> postId) /\
  (forall p, In p (PostsSlice.feed s) -> PostsSlice.post_id p <> postId ->
             In p (PostsSlice.feed s')) /\
  (forall u ps p, PostsSlice.userPosts s' !! u = Some ps -> In p ps ->
                  PostsSlice.post_id p <> postId) /\
  (forall p, PostsSlice.currentPost s' = Some p -> PostsSlice.post_id p <> postId) /\
  PostsSlice.comments s' !! postId = None.
Proof.
  simpl.
  assert (Hkeep : forall (l : list PostsSlice.Post) p,
            In p (List.filter (fun q => negb (PostsSlice.isPost postId q)) l) <->
            In p l /\ PostsSlice.post_id p <> postId).
  { intros l p. rewrite List.filter_In. unfold PostsSlice.isPost.
    rewrite negb_true_iff. now rewrite String.eqb_neq. }
  split; [intros p Hp; now apply Hkeep in Hp |].
  split; [intros p Hp Hne; now apply Hkeep |].
  split.
  - intros u ps p Hu Hp. rewrite lookup_fmap in Hu.
    destruct (PostsSlice.userPosts s !! u) as [l|]; [| discriminate Hu].
    injection Hu as <-. now apply Hkeep in Hp.
  - split; [| apply lookup_delete_eq].
    intros p. destruct (PostsSlice.currentPost s) as [q|]; [| discriminate].
    unfold PostsSlice.isPost. destruct (String.eqb (PostsSlice.post_id q) postId) eqn:E;
      [discriminate |].
    intros [= <-]. now apply String.eqb_neq.
Qed.

(** X20.  No counter of the feed goes below zero: if no post of the feed
    has a negative [likeCount] or [commentCount], the posts an action
    brings have none and the counters an update carries are not negative,
    no post of the feed has one after the action, whichever action of the
    slice it is.  An unlike or a deleted comment on a counter that reads
    zero leaves it at zero. *)
Theorem X20_counters_never_negative (s : PostsSlice.State) (a : PostsSlice.Action) :
  Forall PostsSlice.countersNonNegative (PostsSlice.feed s) ->
  PostsSlice.bringsNonNegative a ->
  Forall PostsSlice.countersNonNegative (PostsSlice.feed (PostsSlice.reducer s a)).
Proof.
  intros Hs Ha. destruct a; simpl in *; try exact Hs.
  - constructor.
  - destruct (PostsSlice.refreshing s); [exact Ha |]. now apply Forall_app.
  - now constructor.
  - rewrite List.Forall_forall in *. intros p Hp.
    apply List.filter_In in Hp as [Hp _]. now apply Hs.
  - rewrite Forall_map. eapply List.Forall_impl; [| exact Hs].
    intros q. apply updatePostLike_counters.
  - rewrite Forall_map. eapply List.Forall_impl; [| exact Hs].
    intros q. apply incrementCommentCount_counters.
  - rewrite Forall_map. eapply List.Forall_impl; [| exact Hs].
    intros q. apply decrementCommentCount_counters.
  - destruct Ha as [Hl Hc].
    rewrite Forall_map. eapply List.Forall_impl; [| exact Hs].
    intros q. now apply updatePostFields_counters.
Qed.

Lemma X20_witness_unlike_at_zero :
  let s := Scenario.feedOf Scenario.bobsPost in
  let a := PostsSlice.ToggleLikeFulfilled
             {| PostsSlice.lp_postId := "p1"; PostsSlice.lp_userId := "viewer";
                PostsSlice.lp_isLiked := false |} in
  map PostsSlice.post_likeCount (PostsSlice.feed s) = [Some 0%Z] /\
  map PostsSlice.post_likeCount (PostsSlice.feed (PostsSlice.reducer s a)) = [Some 0%Z] /\
  Forall PostsSlice.countersNonNegative (PostsSlice.feed (PostsSlice.reducer s a)).
Proof.
  intros s a. split; [reflexivity |]. split; [reflexivity |].
  apply (X20_counters_never_negative s a); [| exact I].
  constructor; [| constructor]. split; simpl; lia.
Defined.

(** X21.  A comment added and then deleted leaves the feed as it was, for
    posts whose [commentCount] is present and not negative, and leaves the
    comments of every other post alone.  The comments of the post are what
    they were, provided the new comment's id was not among them, except
    that a post without a comment list now has an empty one. *)
Theorem X21_add_then_delete_comment (s : PostsSlice.State) (c : PostsSlice.Comment) :
  Forall (fun p => PostsSlice.post_id p = PostsSlice.comment_postId c ->
                   exists n, PostsSlice.post_commentCount p = Some n /\ (0 <= n)%Z)
         (PostsSlice.feed s) ->
  (forall c', In c' (default [] (PostsSlice.comments s !! PostsSlice.comment_postId c)) ->
              PostsSlice.comment_id c' <> PostsSlice.comment_id c) ->
  let s' := PostsSlice.reducer
              (PostsSlice.reducer s (PostsSlice.AddCommentFulfilled c))
              (PostsSlice.DeleteCommentFulfilled (PostsSlice.comment_id c)
                 (PostsSlice.comment_postId c)) in
  PostsSlice.feed s' = PostsSlice.feed s /\
  PostsSlice.comments s' !! PostsSlice.comment_postId c
    = Some (default [] (PostsSlice.comments s !! PostsSlice.comment_postId c)) /\
  (forall k, k <> PostsSlice.comment_postId c ->
             PostsSlice.comments s' !! k = PostsSlice.comments s !! k).
Proof.
  intros Hfeed Hfresh. simpl. rewrite lookup_insert_eq. simpl.
  rewrite insert_insert_eq.
  rewrite (filter_out_new_comment c _ Hfresh).
  split; [| split].
  - rewrite List.map_map.
    induction Hfeed as [|p l Hp Hl IH]; simpl; [reflexivity |].
    f_equal; [| exact IH].
    destruct (String.eqb (PostsSlice.post_id p) (PostsSlice.comment_postId c)) eqn:E.
    + apply String.eqb_eq in E. destruct (Hp E) as [n [Hn Hpos]].
      now apply (comment_count_round_trip _ p n).
    + unfold PostsSlice.incrementCommentCount, PostsSlice.decrementCommentCount.
      rewrite E. simpl. now rewrite E.
  - apply lookup_insert_eq.
  - intros k Hk. now apply lookup_insert_ne.
Qed.

Lemma X21_witness_first_comment :
  let s := Scenario.feedOf Scenario.bobsPost in
  let c := {| PostsSlice.comment_id := "c1"; PostsSlice.comment_postId := "p1";
              PostsSlice.comment_userId := "viewer" |} in
  let s' := PostsSlice.reducer
              (PostsSlice.reducer s (PostsSlice.AddCommentFulfilled c))
              (PostsSlice.DeleteCommentFulfilled "c1" "p1") in
  PostsSlice.comments s !! "p1" = None /\
  PostsSlice.feed s' = PostsSlice.feed s /\
  PostsSlice.comments s' !! "p1" = Some [].
Proof.
  intros s c s'. split; [reflexivity |].
  destruct (X21_add_then_delete_comment s c) as [Hf [Hc _]].
  - constructor; [| constructor]. intros _. exists 0%Z. split; [reflexivity | lia].
  - intros c' [].
  - split; [exact Hf | exact Hc].
Defined.

Section CommentFacts.
Import PostsSlice.

Lemma filter_all_or_shorter {A : Type} (f : A -> bool) (l : list A) :
  length (List.filter f l) = length l <-> forall x, In x l -> f x = true.
Proof.
  induction l as [|a l IH]; simpl; [tauto |].
  pose proof (List.filter_length_le f l) as Hle.
  destruct (f a) eqn:E; simpl.
  - split.
    + intros H x [<- | Hx]; [exact E |]. apply IH; [lia | exact Hx].
    + intros H. f_equal. apply IH. intros x Hx. apply H. now right.
  - split; [lia |]. intros H. specialize (H a (or_introl eq_refl)). congruence.
Qed.

End CommentFacts.

(** X22.  [fetchComments] returns no comment of a blocked user, and it
    computes [hasMore] after the filter: for a page within the limit,
    [hasMore] is up exactly when the page is full and holds no comment of
    a blocked user.  One blocked comment in a full page ends the
    pagination. *)
Theorem X22_comments_of_blocked_users_end_paging
    (runCommentsQuery : PostsSlice.CommentsQuery -> JS.Result (list PostsSlice.CommentDoc))
    (postId : string) (blockedUsers : list string) (limit : nat)
    (lastDoc : option PostsSlice.CommentDoc) (docs : list PostsSlice.CommentDoc) :
  runCommentsQuery {| PostsSlice.cq_postId := postId;
                      PostsSlice.cq_startAfter := lastDoc;
                      PostsSlice.cq_limit := limit |} = JS.Ok docs ->
  length docs <= limit ->
  exists payload,
    PostsSlice.fetchComments runCommentsQuery postId blockedUsers limit lastDoc
      = PostsSlice.Fulfilled payload /\
    (forall c, In c (PostsSlice.cp_comments payload) ->
               ~ In (PostsSlice.comment_userId c) blockedUsers) /\
    PostsSlice.cp_lastDoc payload = last docs /\
    (PostsSlice.cp_hasMore payload = true <->
     length docs = limit /\
     forall d, In d docs -> ~ In (PostsSlice.cd_userId d) blockedUsers).
Proof.
  intros Hrun Hlen. unfold PostsSlice.fetchComments. rewrite Hrun.
  eexists. split; [reflexivity |]. simpl. split; [| split; [reflexivity |]].
  - intros c Hc. apply in_map_iff in Hc as [d [<- Hd]].
    apply List.filter_In in Hd as [_ Hd]. apply negb_true_iff in Hd.
    now apply includes_not_In.
  - rewrite length_map, Nat.eqb_eq.
    set (keep := fun d => negb (JS.includes blockedUsers (PostsSlice.cd_userId d))).
    pose proof (List.filter_length_le keep docs) as Hle.
    pose proof (filter_all_or_shorter keep docs) as Hall.
    assert (Hkeep : (forall d, In d docs -> keep d = true) <->
                    (forall d, In d docs -> ~ In (PostsSlice.cd_userId d) blockedUsers)).
    { split; intros H d Hd; specialize (H d Hd); unfold keep in *.
      - apply negb_true_iff in H. now apply includes_not_In.
      - apply negb_true_iff. now apply includes_not_In. }
    split.
    + intros H. assert (Hfull : length (List.filter keep docs) = length docs) by lia.
      split; [lia |]. apply Hkeep. now apply Hall.
    + intros [Hfull Hnone]. rewrite <- Hfull. apply Hall. now apply Hkeep.
Qed.

Lemma X22_witness_full_page_one_blocked :
  let docs := [{| PostsSlice.cd_id := "c1"; PostsSlice.cd_postId := "p1";
                  PostsSlice.cd_userId := "alice" |};
               {| PostsSlice.cd_id := "c2"; PostsSlice.cd_postId := "p1";
                  PostsSlice.cd_userId := "mallory" |}] in
  exists payload,
    PostsSlice.fetchComments (fun _ => JS.Ok docs) "p1" ["mallory"] 2 None
      = PostsSlice.Fulfilled payload /\
    map PostsSlice.comment_id (PostsSlice.cp_comments payload) = ["c1"] /\
    PostsSlice.cp_hasMore payload = false.
Proof.
  intros docs.
  destruct (X22_comments_of_blocked_users_end_paging (fun _ => JS.Ok docs) "p1"
              ["mallory"] 2 None docs eq_refl (le_n 2)) as [payload [Hrun _]].
  exists payload. split; [exact Hrun |].
  injection Hrun as <-. split; reflexivity.
Defined.



(** X24.  The delete handler of the post card is not all or nothing: it
    deletes the post first, so when reading or deleting the comments
    throws, the post is gone, its comments are all still in the store, and
    the user is shown the error alert. *)
Theorem X24_card_delete_can_orphan_comments (fault : PostCard.CardDeleteFault)
    (uid postId : string) (S : PostsSlice.ContentStore) :
  fault = PostCard.CardCommentsQueryFails \/ fault = PostCard.CardBatchCommitFails ->
  let out := PostCard.handleDeletePost fault (Some uid) postId S in
  PostsSlice.cs_posts (fst out) !! postId = None /\
  PostsSlice.cs_comments (fst out) = PostsSlice.cs_comments S /\
  snd out = ["Error"].
Proof.
  intros [-> | ->]; simpl; (split; [apply lookup_delete_eq | split; reflexivity]).
Qed.

Lemma X24_witness_comment_left_behind :
  let S := {| PostsSlice.cs_posts := {["p1" := Scenario.bobsPost]};
              PostsSlice.cs_comments :=
                [{| PostsSlice.cd_id := "c1"; PostsSlice.cd_postId := "p1";
                    PostsSlice.cd_userId := "alice" |}] |} in
  let out := PostCard.handleDeletePost PostCard.CardCommentsQueryFails (Some "bob") "p1" S in
  PostsSlice.cs_posts (fst out) !! "p1" = None /\
  map PostsSlice.cd_postId (PostsSlice.cs_comments (fst out)) = ["p1"] /\
  PostsSlice.del_store
    (PostsSlice.deletePost (PostsSlice.CommentsQueryFails "unavailable") false S
       {| PostsSlice.ms_content := ∅; PostsSlice.ms_files := [] |} "p1") = S.
Proof.
  intros S out.
  destruct (X24_card_delete_can_orphan_comments PostCard.CardCommentsQueryFails
              "bob" "p1" S (or_introl eq_refl)) as [Hp [Hc _]].
  split; [exact Hp |]. split; [| reflexivity].
  unfold out. rewrite Hc. reflexivity.
Defined.

(** * Further properties of the post card *)

Lemma arrayRemove_excludes (u : string) (field : option (list string)) :
  JS.includes (Firestore.arrayRemove u field) u = false.
Proof.
  apply includes_not_In. unfold Firestore.arrayRemove. intros H.
  apply List.filter_In in H as [_ H]. now rewrite String.eqb_refl in H.
Qed.

Lemma arrayUnion_includes (u : string) (field : option (list string)) :
  JS.includes (Firestore.arrayUnion u field) u = true.
Proof.
  unfold Firestore.arrayUnion.
  destruct (JS.includes (default [] field) u) eqn:E; [exact E |].
  apply includes_In, in_or_app. right. now left.
Qed.

(** X25.  When the transaction commits, the card stays in step with the
    store: a card that showed the post as the store held it shows, after
    the tap, the post as the store now holds it, with the like flipped and
    no alert. *)
Theorem X25_committed_toggle_keeps_card_in_step (uid postId : string)
    (posts : gmap string Firestore.Doc) (d : Firestore.Doc) :
  posts !! postId = Some d ->
  let out := PostCard.handleLikeToggle PostCard.TxCommits (Some uid) postId posts
               (PostCard.mountedFor d uid) in
  exists d',
    PostCard.store out !! postId = Some d' /\
    PostCard.card out = PostCard.mountedFor d' uid /\
    PostCard.isLiked (PostCard.card out)
      = negb (PostCard.isLiked (PostCard.mountedFor d uid)) /\
    PostCard.alerts out = [].
Proof.
  intros Hd. unfold PostCard.handleLikeToggle. rewrite Hd.
  destruct (JS.includes (default [] (Firestore.doc_likes d)) uid) eqn:Hl; simpl.
  - exists (PostCard.removeLike uid d). split; [apply lookup_insert_eq |].
    unfold PostCard.mountedFor. simpl. rewrite arrayRemove_excludes, Hl.
    unfold Firestore.increment. repeat split.
  - exists (PostCard.addLike uid d). split; [apply lookup_insert_eq |].
    unfold PostCard.mountedFor. simpl. rewrite arrayUnion_includes, Hl.
    unfold Firestore.increment. repeat split.
Qed.

Lemma X25_witness_like_committed :
  let posts : gmap string Firestore.Doc := {["p1" := Scenario.likedPost]} in
  let out := PostCard.handleLikeToggle PostCard.TxCommits (Some "viewer") "p1" posts
               (PostCard.mountedFor Scenario.likedPost "viewer") in
  PostCard.card out = {| PostCard.isLiked := true; PostCard.likeCount := 2 |} /\
  exists d', PostCard.store out !! "p1" = Some d' /\
             PostCard.card out = PostCard.mountedFor d' "viewer".
Proof.
  intros posts out. split; [reflexivity |].
  assert (Hd : posts !! "p1" = Some Scenario.likedPost) by (vm_compute; reflexivity).
  destruct (X25_committed_toggle_keeps_card_in_step "viewer" "p1" posts
              Scenario.likedPost Hd) as [d' [Hs [Hc _]]].
  exists d'. split; [exact Hs | exact Hc].
Defined.

(** * Further properties of the notification slices *)

Section NotificationFacts.
Import NotificationsSlice.

Lemma hasId_In (l : list Notification) (i : string) :
  hasId l i = true <-> In i (map n_id l).
Proof.
  unfold hasId. rewrite existsb_exists, in_map_iff. split.
  - intros [n [Hn Hi]]. apply String.eqb_eq in Hi. eauto.
  - intros [n [Hi Hn]]. exists n. split; [exact Hn | now apply String.eqb_eq].
Qed.

Lemma reducer_keeps_counter (s : State) (a : Action) :
  unreadCount s = unread (notifications s) ->
  unreadCount (reducer s a) = unread (notifications (reducer s a)).
Proof.
  intros H. destruct a; simpl; try reflexivity; try exact H.
  rewrite unread_app. now rewrite H.
Qed.

(** The ids a fetch adds are new, and each is added as often as it stands
    in the payload. *)
Lemma fetched_ids_new (l payload : list Notification) :
  List.NoDup (map n_id payload) ->
  List.NoDup (map n_id (List.filter (fun n => negb (hasId l (n_id n))) payload)) /\
  forall i, In i (map n_id (List.filter (fun n => negb (hasId l (n_id n))) payload)) ->
            In i (map n_id payload) /\ ~ In i (map n_id l).
Proof.
  intros Hnd. split.
  - induction payload as [|n payload IH]; simpl; [constructor |].
    apply List.NoDup_cons_iff in Hnd as [Hn Hnd].
    destruct (negb (hasId l (n_id n))); simpl; [| now apply IH].
    apply List.NoDup_cons; [| now apply IH].
    intros Hin. apply Hn. apply in_map_iff in Hin as [m [Hm Hin]].
    apply List.filter_In in Hin as [Hin _]. rewrite <- Hm. now apply in_map.
  - intros i Hi. apply in_map_iff in Hi as [n [<- Hn]].
    apply List.filter_In in Hn as [Hn Hnew]. split; [now apply in_map |].
    apply negb_true_iff in Hnew. intros Hold. apply hasId_In in Hold. congruence.
Qed.

Lemma batches_concat (n m : nat) (l : list string) :
  concat (map (fun k => take n (drop (k * n) l)) (seq 0 m)) = take (m * n) l.
Proof.
  induction m as [|m IH]; [reflexivity |].
  rewrite seq_S, map_app, concat_app, IH. simpl. rewrite app_nil_r.
  replace (n + m * n) with (m * n + n) by lia.
  now rewrite <- take_take_drop.
Qed.

Lemma batch_count_bounds (len : nat) :
  let m := (len + (BATCH_SIZE - 1)) / BATCH_SIZE in
  len <= m * BATCH_SIZE /\ (forall k, k < m -> k * BATCH_SIZE < len).
Proof.
  intros m. unfold m, BATCH_SIZE. change (50 - 1) with 49.
  pose proof (Nat.div_mod_eq (len + 49) 50) as Hdiv.
  pose proof (Nat.mod_upper_bound (len + 49) 50 ltac:(lia)) as Hmod.
  generalize dependent ((len + 49) / 50). intros q Hdiv.
  generalize dependent ((len + 49) mod 50). intros r Hdiv Hmod.
  split; [lia |]. intros k Hk. nia.
Qed.

(** An id is among the unread ids as often as an unread notification
    carries it. *)
Lemma unreadIds_count (l : list Notification) (i : string) :
  count_occ String.string_dec (unreadIdsOf l) i
  = length (List.filter (fun n => negb (n_read n) && String.eqb (n_id n) i) l).
Proof.
  unfold unreadIdsOf. induction l as [|n l IH]; simpl; [reflexivity |].
  destruct (n_read n); simpl; [exact IH |].
  destruct (String.string_dec (n_id n) i) as [-> | Hne].
  - rewrite String.eqb_refl. simpl. now rewrite IH.
  - apply String.eqb_neq in Hne. rewrite Hne. exact IH.
Qed.

Lemma unreadIds_distinct (l : list Notification) :
  List.NoDup (map n_id l) -> List.NoDup (unreadIdsOf l).
Proof.
  unfold unreadIdsOf. induction l as [|n l IH]; simpl; intros H; [constructor |].
  apply List.NoDup_cons_iff in H as [Hn Hl].
  destruct (negb (n_read n)); simpl; [| now apply IH].
  apply List.NoDup_cons; [| now apply IH].
  intros Hin. apply Hn. apply in_map_iff in Hin as [m [Hm Hin]].
  apply List.filter_In in Hin as [Hin _]. rewrite <- Hm. now apply in_map.
Qed.

End NotificationFacts.

(** X26.  In the array slice the counter follows the list: from any state
    in which [unreadCount] is the number of unread notifications, it is so
    after every sequence of actions, pushes of known ids included. *)
Theorem X26_unread_counter_follows_list (s : NotificationsSlice.State)
    (acts : list NotificationsSlice.Action) :
  NotificationsSlice.unreadCount s
    = NotificationsSlice.unread (NotificationsSlice.notifications s) ->
  NotificationsSlice.unreadCount (NotificationsSlice.run s acts)
    = NotificationsSlice.unread
        (NotificationsSlice.notifications (NotificationsSlice.run s acts)).
Proof.
  unfold NotificationsSlice.run. revert s.
  induction acts as [|a acts IH]; intros s H; simpl; [exact H |].
  apply IH. now apply reducer_keeps_counter.
Qed.

Lemma X26_witness_push_fetch_read :
  let n1 := {| NotificationsSlice.n_id := "n1"; NotificationsSlice.n_read := false |} in
  let n2 := {| NotificationsSlice.n_id := "n2"; NotificationsSlice.n_read := false |} in
  let s := NotificationsSlice.run NotificationsSlice.initialState
             [NotificationsSlice.AddNotification n1;
              NotificationsSlice.FetchNotificationsFulfilled [n1; n2] "t";
              NotificationsSlice.MarkAsReadFulfilled ["n2"]] in
  NotificationsSlice.unreadCount s = 1%Z /\
  NotificationsSlice.unreadCount s
    = NotificationsSlice.unread (NotificationsSlice.notifications s).
Proof.
  intros n1 n2 s. split; [reflexivity |].
  exact (X26_unread_counter_follows_list NotificationsSlice.initialState _ eq_refl).
Defined.

Lemma filter_rejects_all {A : Type} (f : A -> bool) (l : list A) :
  (forall x, In x l -> f x = false) -> List.filter f l = [].
Proof.
  induction l as [|a l IH]; intros H; simpl; [reflexivity |].
  rewrite (H a) by now left. apply IH. intros x Hx. apply H. now right.
Qed.

(** X27.  Delivering the same fetched page twice changes nothing the
    second time: neither the list nor the counter.  A fetch never
    replaces or moves a notification the list already holds: the list
    before is a prefix of the list after. *)
Theorem X27_fetch_is_idempotent (s : NotificationsSlice.State)
    (payload : list NotificationsSlice.Notification) (date1 date2 : string) :
  let s1 := NotificationsSlice.reducer s
              (NotificationsSlice.FetchNotificationsFulfilled payload date1) in
  let s2 := NotificationsSlice.reducer s1
              (NotificationsSlice.FetchNotificationsFulfilled payload date2) in
  NotificationsSlice.notifications s
    `prefix_of` NotificationsSlice.notifications s1 /\
  NotificationsSlice.notifications s2 = NotificationsSlice.notifications s1 /\
  NotificationsSlice.unreadCount s2 = NotificationsSlice.unreadCount s1.
Proof.
  simpl. split; [now apply prefix_app_r |].
  set (l := NotificationsSlice.notifications s).
  set (new := List.filter
                (fun n => negb (NotificationsSlice.hasId l (NotificationsSlice.n_id n)))
                payload).
  assert (Hnone : List.filter
                    (fun n => negb (NotificationsSlice.hasId (l ++ new)
                                      (NotificationsSlice.n_id n))) payload = []).
  { apply filter_rejects_all. intros n Hn. apply negb_false_iff.
    apply hasId_In. rewrite map_app. apply in_or_app.
    destruct (NotificationsSlice.hasId l (NotificationsSlice.n_id n)) eqn:E.
    - left. now apply hasId_In.
    - right. apply in_map. apply List.filter_In. split; [exact Hn |].
      now rewrite E. }
  rewrite Hnone. rewrite app_nil_r. split; [reflexivity |].
  unfold NotificationsSlice.unread. simpl. lia.
Qed.

(** X28.  A fetch keeps the ids of the list distinct when the ids of the
    payload are: no notification the list already holds is added again. *)
Theorem X28_fetch_keeps_ids_distinct (s : NotificationsSlice.State)
    (payload : list NotificationsSlice.Notification) (date : string) :
  List.NoDup (NotificationsSlice.ids s) ->
  List.NoDup (map NotificationsSlice.n_id payload) ->
  List.NoDup (NotificationsSlice.ids
                (NotificationsSlice.reducer s
                   (NotificationsSlice.FetchNotificationsFulfilled payload date))).
Proof.
  intros Hs Hp. unfold NotificationsSlice.ids. simpl. rewrite map_app.
  destruct (fetched_ids_new (NotificationsSlice.notifications s) payload Hp)
    as [Hnew Hfresh].
  apply List.NoDup_app; [exact Hs | exact Hnew |].
  intros i Hi Hi'. now apply Hfresh in Hi'.
Qed.

Lemma X28_witness_overlapping_page :
  let n1 := {| NotificationsSlice.n_id := "n1"; NotificationsSlice.n_read := true |} in
  let n1' := {| NotificationsSlice.n_id := "n1"; NotificationsSlice.n_read := false |} in
  let n2 := {| NotificationsSlice.n_id := "n2"; NotificationsSlice.n_read := false |} in
  let s := NotificationsSlice.reducer NotificationsSlice.initialState
             (NotificationsSlice.AddNotification n1) in
  let s' := NotificationsSlice.reducer s
              (NotificationsSlice.FetchNotificationsFulfilled [n1'; n2] "t") in
  NotificationsSlice.notifications s' = [n1; n2] /\
  List.NoDup (NotificationsSlice.ids s').
Proof.
  intros n1 n1' n2 s s'. split; [reflexivity |].
  apply (X28_fetch_keeps_ids_distinct s [n1'; n2] "t").
  - apply List.NoDup_cons; [simpl; tauto | apply List.NoDup_nil].
  - apply List.NoDup_cons; [simpl; intros [H | []]; discriminate H |].
    apply List.NoDup_cons; [simpl; tauto | apply List.NoDup_nil].
Defined.

(** X29.  [markAllAsRead] hands the service the ids of the unread
    notifications, in the order of the list and one for each unread
    notification: an id that several unread notifications carry is sent
    as many times, and each id is sent once when the ids of the list are
    distinct.  The ids go in batches of 1 to 50.  With nothing unread the
    thunk calls nothing and reports a count of 0 without ids; otherwise it
    reports all the unread ids when the service accepts every batch and
    fails when it refuses one. *)
Theorem X29_mark_all_sends_unread_ids_in_batches (service : list string -> bool)
    (s : NotificationsSlice.State) :
  let unreadIds := NotificationsSlice.unreadIdsOf (NotificationsSlice.notifications s) in
  let calls := fst (NotificationsSlice.markAllAsRead service s) in
  let outcome := snd (NotificationsSlice.markAllAsRead service s) in
  concat calls = unreadIds /\
  (forall i, count_occ String.string_dec (concat calls) i
             = length (List.filter
                         (fun n => negb (NotificationsSlice.n_read n)
                                   && String.eqb (NotificationsSlice.n_id n) i)
                         (NotificationsSlice.notifications s))) /\
  (List.NoDup (NotificationsSlice.ids s) -> List.NoDup (concat calls)) /\
  Forall (fun b => 1 <= length b <= 50) calls /\
  length calls = (length unreadIds + 49) / 50 /\
  outcome = (if (length unreadIds =? 0)%nat then NotificationsSlice.MarkedAll None 0
             else if forallb service calls
                  then NotificationsSlice.MarkedAll (Some unreadIds) (length unreadIds)
                  else NotificationsSlice.MarkAllFailed).
Proof.
  intros unreadIds calls outcome.
  assert (Hsent : concat calls = unreadIds).
  { unfold calls, NotificationsSlice.markAllAsRead. fold unreadIds.
    destruct (length unreadIds =? 0)%nat eqn:E.
    - apply Nat.eqb_eq in E. simpl. now destruct unreadIds.
    - assert (Hcalls : (if forallb service (NotificationsSlice.batches unreadIds)
                        then (NotificationsSlice.batches unreadIds,
                              NotificationsSlice.MarkedAll (Some unreadIds)
                                (length unreadIds))
                        else (NotificationsSlice.batches unreadIds,
                              NotificationsSlice.MarkAllFailed)).1
                       = NotificationsSlice.batches unreadIds)
        by (destruct (forallb service _); reflexivity).
      rewrite Hcalls. unfold NotificationsSlice.batches. rewrite batches_concat.
      apply take_ge. apply batch_count_bounds. }
  split; [exact Hsent |].
  split; [intros i; rewrite Hsent; apply unreadIds_count |].
  split; [intros Hnd; rewrite Hsent; now apply unreadIds_distinct |].
  unfold calls, outcome, NotificationsSlice.markAllAsRead. fold unreadIds.
  destruct (length unreadIds =? 0)%nat eqn:E.
  - apply Nat.eqb_eq in E. simpl.
    destruct unreadIds; [| discriminate E]. repeat split. constructor.
  - assert (Hcalls : (if forallb service (NotificationsSlice.batches unreadIds)
                      then (NotificationsSlice.batches unreadIds,
                            NotificationsSlice.MarkedAll (Some unreadIds) (length unreadIds))
                      else (NotificationsSlice.batches unreadIds,
                            NotificationsSlice.MarkAllFailed)).1
                     = NotificationsSlice.batches unreadIds)
      by (destruct (forallb service _); reflexivity).
    rewrite Hcalls.
    destruct (batch_count_bounds (length unreadIds)) as [Hcover Hstart].
    unfold NotificationsSlice.batches. split; [| split].
    + rewrite List.Forall_forall. intros b Hb.
      apply in_map_iff in Hb as [k [<- Hk]]. apply in_seq in Hk.
      specialize (Hstart k ltac:(lia)).
      rewrite length_take, length_drop. unfold NotificationsSlice.BATCH_SIZE in *. lia.
    + now rewrite length_map, length_seq.
    + destruct (forallb service _); reflexivity.
Qed.

Lemma X29_witness_shared_id_sent_twice :
  let n := {| NotificationsSlice.n_id := "n1"; NotificationsSlice.n_read := false |} in
  let held := NotificationsSlice.run NotificationsSlice.initialState
                [NotificationsSlice.FetchNotificationsFulfilled [n] "t";
                 NotificationsSlice.AddNotification n] in
  let once := NotificationsSlice.run NotificationsSlice.initialState
                [NotificationsSlice.AddNotification n] in
  fst (NotificationsSlice.markAllAsRead (fun _ => true) held) = [["n1"; "n1"]] /\
  fst (NotificationsSlice.markAllAsRead (fun _ => true) once) = [["n1"]] /\
  List.NoDup (concat (fst (NotificationsSlice.markAllAsRead (fun _ => true) once))).
Proof.
  intros n held once. split; [reflexivity |]. split; [reflexivity |].
  refine (proj1 (proj2 (proj2 (X29_mark_all_sends_unread_ids_in_batches
                                 (fun _ => true) once))) _).
  apply List.NoDup_cons; [simpl; tauto | apply List.NoDup_nil].
Defined.

Section MapSliceFacts.
Import JS NotificationsMapSlice.

(** Marking ids as read in an object without properties leaves it so. *)
Lemma readProps_empty (l : list string) :
  fold_left
    (fun (m : gmap string Notification) i =>
       match m !! i with
       | Some n => <[i := {| n_id := n_id n; n_read := true |}]> m
       | None => m
       end) l ∅ = ∅.
Proof.
  induction l as [|i l IH]; simpl; [reflexivity |].
  now rewrite lookup_empty.
Qed.

Lemma dispatch_holds_nothing (s : State) (a : Action) :
  holdsNothing s -> holdsNothing (dispatch s a).
Proof.
  intros [Hc Hn]. unfold dispatch, holdsNothing.
  destruct a as [n | | | | payload date | msg | l | [l|] | k | n]; simpl;
    try (split; [exact Hc | exact Hn]); try (split; [now right | reflexivity]).
  - destruct payload; simpl; [| split; [exact Hc | exact Hn]].
    destruct Hc as [Hc | Hc]; rewrite Hc; simpl.
    + split; [now left | reflexivity].
    + rewrite Hc. split; [now right | exact Hn].
  - destruct l; simpl; [| split; [exact Hc | exact Hn]].
    destruct Hc as [Hc | Hc]; rewrite Hc; simpl.
    + split; [now left | reflexivity].
    + rewrite Hc. split; [now right | exact Hn].
  - destruct l as [|i l]; simpl; [split; [exact Hc | reflexivity] |].
    destruct Hc as [Hc | Hc]; rewrite Hc; simpl.
    + rewrite lookup_empty, readProps_empty. split; [now left | reflexivity].
    + rewrite Hc. split; [now right | exact Hn].
Qed.

End MapSliceFacts.

(** X30.  Once [state.notifications] is a [Map] (as [resetNotifications]
    leaves it) the slice stops working: every action whose reducer reads
    [state.notifications] throws the error of Immer and leaves the state
    as it was.  The actions that still succeed are those that read
    nothing: [resetNotifications], [updateBadgeCount], the [pending] and
    [rejected] cases of the fetch and [markAllAsRead.fulfilled] with an
    empty id list; they leave a [Map] in the state.
    [markAllAsRead.fulfilled] without an id list throws a [TypeError] of
    its own. *)
Theorem X30_map_in_state_stops_the_slice (s : NotificationsMapSlice.State)
    (a : NotificationsMapSlice.Action) (m : gmap string NotificationsMapSlice.Notification) :
  NotificationsMapSlice.notifications s = NotificationsMapSlice.MapObject m ->
  (NotificationsMapSlice.readsNothing a = true ->
   exists s' m',
     NotificationsMapSlice.reducer s a = JS.Ok s' /\
     NotificationsMapSlice.notifications s' = NotificationsMapSlice.MapObject m' /\
     (m' = m \/ m' = ∅)) /\
  (NotificationsMapSlice.readsNothing a = false ->
   a <> NotificationsMapSlice.MarkAllAsReadFulfilled None ->
   NotificationsMapSlice.reducer s a = JS.Err NotificationsMapSlice.immerNoMapSet /\
   NotificationsMapSlice.dispatch s a = s).
Proof.
  intros Hm. unfold NotificationsMapSlice.dispatch.
  destruct a as [n | | | | payload date | msg | l | [[|i l]|] | k | n]; simpl;
    rewrite ?Hm; simpl; (split; [intros Hr | intros Hr Ha]);
    try discriminate Hr; try congruence; eauto 6.
  - destruct payload; simpl; rewrite ?Hm; split; reflexivity.
  - destruct l; simpl; rewrite ?Hm; split; reflexivity.
Qed.

Lemma X30_witness_after_reset :
  exists s0,
    NotificationsMapSlice.reducer NotificationsMapSlice.initialState
      NotificationsMapSlice.ResetNotifications = JS.Ok s0 /\
    NotificationsMapSlice.reducer s0 (NotificationsMapSlice.DeleteNotificationFulfilled "n1")
      = JS.Err NotificationsMapSlice.immerNoMapSet /\
    NotificationsMapSlice.reducer NotificationsMapSlice.initialState
      (NotificationsMapSlice.DeleteNotificationFulfilled "n1")
      = JS.Err "TypeError: state.notifications.has is not a function".
Proof.
  exists {| NotificationsMapSlice.notifications := NotificationsMapSlice.MapObject ∅;
            NotificationsMapSlice.unreadCount := 0;
            NotificationsMapSlice.status := NotificationsMapSlice.Idle;
            NotificationsMapSlice.error := None;
            NotificationsMapSlice.lastFetchedAt := None |}.
  split; [reflexivity |]. split; [| reflexivity].
  refine (proj1 (proj2 (X30_map_in_state_stops_the_slice
                          {| NotificationsMapSlice.notifications :=
                               NotificationsMapSlice.MapObject ∅;
                             NotificationsMapSlice.unreadCount := 0;
                             NotificationsMapSlice.status := NotificationsMapSlice.Idle;
                             NotificationsMapSlice.error := None;
                             NotificationsMapSlice.lastFetchedAt := None |}
                          (NotificationsMapSlice.DeleteNotificationFulfilled "n1") ∅
                          eq_refl) eq_refl _)).
  discriminate.
Defined.

(** X3.  The Map-based slice never holds a notification.  From the
    initial state, whatever actions are dispatched (a dispatch whose
    reducer throws leaves the state as it was), no notification is stored
    under any id and [unreadCount] is 0: [addNotification],
    [createNotification.fulfilled] and [deleteNotification.fulfilled]
    throw on every state, and a fetch that brings a notification throws
    as well. *)
Theorem X3_map_slice_never_holds_a_notification
    (acts : list NotificationsMapSlice.Action) :
  (forall k, NotificationsMapSlice.stored
               (NotificationsMapSlice.run NotificationsMapSlice.initialState acts) k = None) /\
  NotificationsMapSlice.unreadCount
    (NotificationsMapSlice.run NotificationsMapSlice.initialState acts) = 0%Z /\
  (forall s n, exists e,
     NotificationsMapSlice.reducer s (NotificationsMapSlice.AddNotification n) = JS.Err e /\
     NotificationsMapSlice.reducer s (NotificationsMapSlice.CreateNotificationFulfilled n)
       = JS.Err e) /\
  (forall s k, exists e,
     NotificationsMapSlice.reducer s (NotificationsMapSlice.DeleteNotificationFulfilled k)
       = JS.Err e) /\
  (forall s n rest date, exists e,
     NotificationsMapSlice.reducer s
       (NotificationsMapSlice.FetchNotificationsFulfilled (n :: rest) date) = JS.Err e).
Proof.
  assert (Hrun : NotificationsMapSlice.holdsNothing
                   (NotificationsMapSlice.run NotificationsMapSlice.initialState acts)).
  { unfold NotificationsMapSlice.run.
    assert (H0 : NotificationsMapSlice.holdsNothing NotificationsMapSlice.initialState)
      by (split; [now left | reflexivity]).
    revert H0. generalize NotificationsMapSlice.initialState.
    induction acts as [|a acts IH]; intros s0 H0; simpl; [exact H0 |].
    apply IH. now apply dispatch_holds_nothing. }
  destruct Hrun as [Hc Hn].
  split; [| split; [exact Hn |]].
  - intros k. unfold NotificationsMapSlice.stored.
    destruct Hc as [-> | ->]; apply lookup_empty.
  - split; [| split]; intros; eexists; simpl; eauto.
Qed.
